(** * A peer-to-peer banking node: command routing, peer forwarding, sessions

    Shallow embedding of [commands.py] (class [CommandHandler]),
    [server.py] (class [BankServer]), [database/account_repository.py]
    (class [AccountRepository]), [config.py] and [mainConsole.py],
    followed by the properties of the protocol engine.

    Conventions of the embedding.
    - A Python [str] is a [string]; a character is a code point below 256.
    - Python integers are [Z]; [time.time()] readings and the timeouts of
      the configuration are [Z] counts of one fixed unit of time.
    - A method that can raise returns a [result]; state is passed
      explicitly ([Eff]).
    - The logger ([Logger.info], [Logger.error]) only writes to the log
      file and the console.  Its calls are left out of the server, whose
      console is not among the things observed.  The console program is
      about what is printed: the one line the logger prints on its path
      is recorded. *)

From Stdlib Require Import ZArith List String Ascii Bool Lia.
From Stdlib Require Import DecimalString DecimalPos.
Import ListNotations.

Local Open Scope string_scope.
Local Open Scope Z_scope.

(* ------------------------------------------------------------------ *)
(** ** The Python string and integer primitives the code uses *)

Module Py.

(** [str.isspace] on one character, for the code points below 256:
    TAB, LF, VT, FF, CR, the separators FS GS RS US, space, NEL and the
    no-break space. *)
Definition isspace (c : ascii) : bool :=
  let n := nat_of_ascii c in
  ((9 <=? n) && (n <=? 13) || (28 <=? n) && (n <=? 32)
   || (n =? 133) || (n =? 160))%nat.

(** [str.upper] on one character: a-z and the accented lower-case
    letters whose capital lies below 256.  The three characters whose
    capital lies elsewhere (micro sign, sharp s, y with diaeresis) are
    left as they are: neither they nor their capitals occur in a verb,
    which is all [process_command] compares the result with. *)
Definition upper_char (c : ascii) : ascii :=
  let n := nat_of_ascii c in
  if ((97 <=? n) && (n <=? 122)
      || (224 <=? n) && (n <=? 254) && negb (n =? 247))%nat
  then ascii_of_nat (n - 32) else c.

Fixpoint upper (s : string) : string :=
  match s with
  | EmptyString => EmptyString
  | String c s' => String (upper_char c) (upper s')
  end.

Fixpoint lstrip (s : string) : string :=
  match s with
  | EmptyString => EmptyString
  | String c s' => if isspace c then lstrip s' else s
  end.

Fixpoint rstrip (s : string) : string :=
  match s with
  | EmptyString => EmptyString
  | String c s' =>
      match rstrip s' with
      | EmptyString => if isspace c then EmptyString else String c EmptyString
      | r => String c r
      end
  end.

(** [str.strip()] *)
Definition strip (s : string) : string := rstrip (lstrip s).

(** [str.split()] without argument: the maximal runs of characters that
    are not white space, in order. *)
Fixpoint split (s : string) : list string :=
  match s with
  | EmptyString => []
  | String c s' =>
      if isspace c then split s'
      else match s' with
           | EmptyString => [String c EmptyString]
           | String c' _ =>
               if isspace c' then String c EmptyString :: split s'
               else match split s' with
                    | w :: ws => String c w :: ws
                    | [] => [String c EmptyString]
                    end
           end
  end.

(** [str.split(sep)] for a one-character separator: never empty, one
    more part than there are separators, empty parts kept. *)
Fixpoint split_on (sep : ascii) (s : string) : list string :=
  match s with
  | EmptyString => [EmptyString]
  | String c s' =>
      if Ascii.eqb c sep then EmptyString :: split_on sep s'
      else match split_on sep s' with
           | p :: ps => String c p :: ps
           | [] => [String c EmptyString]
           end
  end.

Definition digit_of (c : ascii) : option Z :=
  let n := nat_of_ascii c in
  if ((48 <=? n) && (n <=? 57))%nat then Some (Z.of_nat (n - 48)) else None.

(** The digits of a decimal literal: at least one digit, single
    underscores allowed between digits. [after_digit] tells whether the
    character just read was a digit. *)
Fixpoint int_digits (acc : Z) (after_digit : bool) (s : string) : option Z :=
  match s with
  | EmptyString => if after_digit then Some acc else None
  | String c s' =>
      match digit_of c with
      | Some d => int_digits (10 * acc + d) true s'
      | None =>
          if Ascii.eqb c "_" && after_digit then int_digits acc false s'
          else None
      end
  end.

(** [int(s)] in base 10 on a token without white space: [None] stands
    for [ValueError].  The sign is optional; leading zeros are allowed.
    (The interpreter's optional limit on the length of a literal is not
    modelled.) *)
Definition int (s : string) : option Z :=
  match s with
  | String "+" r => int_digits 0 false r
  | String "-" r => option_map Z.opp (int_digits 0 false r)
  | _ => int_digits 0 false s
  end.

(** [str(n)] and the rendering of an integer inside an f-string. *)
Definition str (n : Z) : string := NilZero.string_of_int (Z.to_int n).

(** The one-character string holding a line feed. *)
Definition str_nl : string := String (ascii_of_nat 10) EmptyString.

(** [range(a, b)] *)
Definition range (a b : Z) : list Z :=
  map (fun i => a + Z.of_nat i) (seq 0 (Z.to_nat (b - a))).

(** [s.split(sep, 1)] when [sep in s]: the text before the first
    separator and the text after it; [None] when there is no separator. *)
Fixpoint split1 (sep : ascii) (s : string) : option (string * string) :=
  match s with
  | EmptyString => None
  | String c s' =>
      if Ascii.eqb c sep then Some (EmptyString, s')
      else match split1 sep s' with
           | Some (before, after) => Some (String c before, after)
           | None => None
           end
  end.

(** [s * n] *)
Fixpoint repeat (s : string) (n : nat) : string :=
  match n with
  | O => EmptyString
  | S n' => s ++ repeat s n'
  end.

End Py.

(* ------------------------------------------------------------------ *)
(** ** Exceptions and effects *)

(** The exceptions the code distinguishes: [ValueError], which the
    account handlers catch themselves, and every other subclass of
    [Exception], named by its class. *)
Inductive exn : Type :=
| ValueError
| OtherError (cls : string).

Inductive result (A : Type) : Type :=
| Ret (a : A)
| Raise (e : exn).
Arguments Ret {A} a.
Arguments Raise {A} e.

(** A computation over a state [S]: it returns or raises, and leaves a
    state behind either way. *)
Definition Eff (S A : Type) : Type := S -> result A * S.

Definition ret {S A} (a : A) : Eff S A := fun s => (Ret a, s).

Definition raise {S A} (e : exn) : Eff S A := fun s => (Raise e, s).

Definition bind {S A B} (m : Eff S A) (k : A -> Eff S B) : Eff S B :=
  fun s =>
    match m s with
    | (Ret a, s') => k a s'
    | (Raise e, s') => (Raise e, s')
    end.

Declare Scope eff_scope.
Delimit Scope eff_scope with eff.
Notation "x <- m ;; k" := (bind m (fun x => k))
  (at level 100, m at next level, right associativity) : eff_scope.
Notation "' p <- m ;; k" := (bind m (fun x => let p := x in k))
  (at level 100, p pattern, m at next level, right associativity) : eff_scope.
Local Open Scope eff_scope.

(** [try: body except ValueError: handler] *)
Definition try_except_ValueError {S A} (body handler : Eff S A) : Eff S A :=
  fun s =>
    match body s with
    | (Raise ValueError, s') => handler s'
    | r => r
    end.

(** [try: body except Exception as e: handler e] *)
Definition try_except_Exception {S A} (body : Eff S A) (handler : exn -> Eff S A)
  : Eff S A :=
  fun s =>
    match body s with
    | (Raise e, s') => handler e s'
    | r => r
    end.

(** [for x in xs: body] where the body may [return] from the enclosing
    function ([Some v]) or fall through to the next element ([None]);
    [orelse] is the code after the loop. *)
Fixpoint for_in {S A R} (xs : list A) (body : A -> Eff S (option R))
  (orelse : Eff S R) : Eff S R :=
  match xs with
  | [] => orelse
  | x :: xs' =>
      r <- body x ;;
      match r with
      | Some v => ret v
      | None => for_in xs' body orelse
      end
  end.

(** [int(token)] as a computation *)
Definition int_of {S} (token : string) : Eff S Z :=
  match Py.int token with
  | Some n => ret n
  | None => raise ValueError
  end.

(** [a, b = parts]: unpacking into two names *)
Definition unpack2 {S} (parts : list string) : Eff S (string * string) :=
  match parts with
  | [a; b] => ret (a, b)
  | _ => raise ValueError
  end.

(** [None] rendered inside an f-string *)
Definition str_opt (v : option Z) : string :=
  match v with
  | Some n => Py.str n
  | None => "None"
  end.

(* ------------------------------------------------------------------ *)
(** ** config.py *)

Record Config : Type := {
  HOST : string;
  PORT : Z;
  TIMEOUT : Z;
  CLIENT_TIMEOUT : Z
}.

(** The values [config.get] falls back to. *)
Definition default_config : Config :=
  {| HOST := "0.0.0.0"; PORT := 65530; TIMEOUT := 5; CLIENT_TIMEOUT := 5 |}.

(* ------------------------------------------------------------------ *)
(** ** commands.py: class CommandHandler

    The handler is built over the [server] object it is given; what it
    uses of that object is the interface below.  Every method of the
    interface may raise. *)

Record AccountRepositoryOps (W : Type) : Type := {
  repo_create_account : Z -> string -> Eff W bool;
  repo_get_balance : string -> Eff W (option Z);
  repo_deposit : string -> Z -> Eff W bool;
  repo_withdraw : string -> Z -> Eff W bool;
  repo_remove : string -> Eff W bool;
  repo_get_total_balance : Eff W (option Z);
  repo_count_accounts : Eff W (option Z);
  repo_account_exists : Z -> Eff W bool
}.
Arguments repo_create_account {W}.
Arguments repo_get_balance {W}.
Arguments repo_deposit {W}.
Arguments repo_withdraw {W}.
Arguments repo_remove {W}.
Arguments repo_get_total_balance {W}.
Arguments repo_count_accounts {W}.
Arguments repo_account_exists {W}.

Record ServerOps (W : Type) : Type := {
  srv_get_local_ip : Eff W string;
  srv_create_account : string -> Eff W string;
  srv_forward_to_peer : string -> string -> Eff W string;
  srv_account_repository : AccountRepositoryOps W
}.
Arguments srv_get_local_ip {W}.
Arguments srv_create_account {W}.
Arguments srv_forward_to_peer {W}.
Arguments srv_account_repository {W}.

(** The calls a handler makes on the server and on its account
    repository, recorded in the order they are made. *)
Inductive call : Type :=
| GetLocalIp
| CreateAccount (ip_address : string)
| ForwardToPeer (peer_ip command : string)
| GetBalance (account_number : string)
| Deposit (account_number : string) (amount : Z)
| Withdraw (account_number : string) (amount : Z)
| Remove (account_number : string)
| GetTotalBalance
| CountAccounts.

(** A call on the account repository. *)
Definition is_store_call (c : call) : bool :=
  match c with
  | GetBalance _ | Deposit _ _ | Withdraw _ _ | Remove _
  | GetTotalBalance | CountAccounts => true
  | GetLocalIp | CreateAccount _ | ForwardToPeer _ _ => false
  end.

Definition is_forward_call (c : call) : bool :=
  match c with
  | ForwardToPeer _ _ => true
  | _ => false
  end.

(** The amounts handed to the account repository. *)
Definition store_amounts (cs : list call) : list Z :=
  flat_map (fun c => match c with
                     | Deposit _ a | Withdraw _ a => [a]
                     | _ => []
                     end) cs.

Module CommandHandler.
Section WithServer.

Context {W : Type}.
Variable server : ServerOps W.

(** The state a handler runs in: the server's world and the calls made
    so far. *)
Definition St : Type := (W * list call)%type.

(** One call on the server object, recorded. *)
Definition invoke {A} (c : call) (m : Eff W A) : Eff St A :=
  fun s =>
    let (r, w') := m (fst s) in (r, (w', (snd s ++ [c])%list)).

Definition get_local_ip : Eff St string :=
  invoke GetLocalIp (srv_get_local_ip server).
Definition create_account (ip : string) : Eff St string :=
  invoke (CreateAccount ip) (srv_create_account server ip).
Definition forward_to_peer (peer_ip command : string) : Eff St string :=
  invoke (ForwardToPeer peer_ip command) (srv_forward_to_peer server peer_ip command).
Definition get_balance (n : string) : Eff St (option Z) :=
  invoke (GetBalance n) (repo_get_balance (srv_account_repository server) n).
Definition deposit (n : string) (amount : Z) : Eff St bool :=
  invoke (Deposit n amount) (repo_deposit (srv_account_repository server) n amount).
Definition withdraw (n : string) (amount : Z) : Eff St bool :=
  invoke (Withdraw n amount) (repo_withdraw (srv_account_repository server) n amount).
Definition remove (n : string) : Eff St bool :=
  invoke (Remove n) (repo_remove (srv_account_repository server) n).
Definition get_total_balance : Eff St (option Z) :=
  invoke GetTotalBalance (repo_get_total_balance (srv_account_repository server)).
Definition count_accounts : Eff St (option Z) :=
  invoke CountAccounts (repo_count_accounts (srv_account_repository server)).

Definition handle_bc : Eff St string :=
  try_except_Exception
    (ip_address <- get_local_ip ;;
     ret ("BC " ++ ip_address))
    (fun _ => ret "ER Unable to retrieve IP").

Definition handle_ac (ip_address : string) : Eff St string :=
  create_account ip_address.

Definition handle_ad (parts : list string) : Eff St string :=
  if negb (List.length parts =? 3)%nat then ret "ER Invalid AD format"
  else
    try_except_ValueError
      (let account_info := nth 1 parts "" in
       amount <- int_of (nth 2 parts "") ;;
       '(account_number, bank_ip) <- unpack2 (Py.split_on "/" account_info) ;;
       local <- get_local_ip ;;
       if negb (bank_ip =? local)%string then
         forward_to_peer bank_ip
           ("AD " ++ account_number ++ "/" ++ bank_ip ++ " " ++ Py.str amount)
       else
         ok <- deposit account_number amount ;;
         ret (if ok then "AD" else "ER Deposit failed"))
      (ret "ER Invalid deposit format").

Definition handle_aw (parts : list string) : Eff St string :=
  if negb (List.length parts =? 3)%nat then ret "ER Invalid AW format"
  else
    try_except_ValueError
      (let account_info := nth 1 parts "" in
       amount <- int_of (nth 2 parts "") ;;
       '(account_number, bank_ip) <- unpack2 (Py.split_on "/" account_info) ;;
       local <- get_local_ip ;;
       if negb (bank_ip =? local)%string then
         forward_to_peer bank_ip
           ("AW " ++ account_number ++ "/" ++ bank_ip ++ " " ++ Py.str amount)
       else
         ok <- withdraw account_number amount ;;
         ret (if ok then "AW" else "ER Not enough funds"))
      (ret "ER Invalid withdrawal format").

Definition handle_ab (parts : list string) : Eff St string :=
  if negb (List.length parts =? 2)%nat then ret "ER Invalid AB format"
  else
    try_except_ValueError
      (let account_info := nth 1 parts "" in
       '(account_number, bank_ip) <- unpack2 (Py.split_on "/" account_info) ;;
       local <- get_local_ip ;;
       if negb (bank_ip =? local)%string then
         forward_to_peer bank_ip ("AB " ++ account_number ++ "/" ++ bank_ip)
       else
         balance <- get_balance account_number ;;
         ret (match balance with
              | Some b => "AB " ++ Py.str b
              | None => "ER Account not found"
              end))
      (ret "ER Invalid account format").

Definition handle_ar (parts : list string) : Eff St string :=
  if negb (List.length parts =? 2)%nat then ret "ER Invalid AR format"
  else
    try_except_ValueError
      (let account_info := nth 1 parts "" in
       '(account_number, bank_ip) <- unpack2 (Py.split_on "/" account_info) ;;
       local <- get_local_ip ;;
       if negb (bank_ip =? local)%string then
         forward_to_peer bank_ip ("AR " ++ account_number ++ "/" ++ bank_ip)
       else
         ok <- remove account_number ;;
         ret (if ok then "AR" else "ER Cannot remove account"))
      (ret "ER Invalid account format").

Definition handle_ba : Eff St string :=
  total <- get_total_balance ;;
  ret ("BA " ++ str_opt total).

Definition handle_bn : Eff St string :=
  count <- count_accounts ;;
  ret ("BN " ++ str_opt count).

(** The [if]/[elif] chain inside the [try] of [process_command]. *)
Definition dispatch (cmd : string) (parts : list string) (address : string * Z)
  : Eff St string :=
  if (cmd =? "BC")%string then handle_bc
  else if (cmd =? "AC")%string then handle_ac (fst address)
  else if (cmd =? "AD")%string then handle_ad parts
  else if (cmd =? "AW")%string then handle_aw parts
  else if (cmd =? "AB")%string then handle_ab parts
  else if (cmd =? "AR")%string then handle_ar parts
  else if (cmd =? "BA")%string then handle_ba
  else if (cmd =? "BN")%string then handle_bn
  else ret "ER Unknown command".

Definition process_command (command : string) (address : string * Z)
  : Eff St string :=
  let parts := Py.split (Py.strip command) in
  match parts with
  | [] => ret "ER Invalid command"
  | p0 :: _ =>
      let cmd := Py.upper p0 in
      try_except_Exception
        (dispatch cmd parts address)
        (fun _ => ret "ER Internal processing error")
  end.

End WithServer.
End CommandHandler.

(* ------------------------------------------------------------------ *)
(** ** The world a bank server runs in *)

(** A row of the [accounts] table. *)
Record account_row : Type := {
  account_number : Z;
  ip_address : string;
  balance : Z
}.

(** The database behind [DatabaseConnection].  Whether a use of it
    raises (connection lost, statement rejected) is not decided by the
    program: [db_fails n] tells it for the [n]-th use.  Three settings of
    the database client and server that the sources do not fix are kept
    as fields: [found_rows] (whether [rowcount] of an UPDATE counts the
    rows matched or only the rows changed), [text_key] (the number
    the server reads a text parameter as when it compares it with the
    [account_number] column) and [closed_rowcount] (what
    [cursor.rowcount] reads once the cursor is closed, from the count
    the statement left: the count itself with the C extension of the
    connector; -1 with its pure Python implementation, whose [close]
    resets the cursor). *)
Record Database : Type := {
  rows : list account_row;
  db_fails : nat -> bool;
  db_uses : nat;
  found_rows : bool;
  text_key : string -> Z;
  closed_rowcount : Z -> Z
}.

(** What the server does to the outside, and what the outside answers,
    in order.  The last two are lines on the standard output, which is
    what the console program is about: [LoggedError message e] is the
    line "[ERROR] ", [message] and the text of [e] that [Logger.error]
    prints, [Printed line] a line of [print].  (What the logger prints
    and writes while the server runs is not recorded.) *)
Inductive event : Type :=
| Time (t : Z)
| Randint (a b n : Z)
| Connect (peer_ip : string) (peer_port : Z) (timeout : Z) (payload : string)
    (reply : option string)
| Sent (data : string)
| RepoCreateAccount (n : Z) (ip : string) (ok : bool)
| RepoGetBalance (n : string) (found : option Z)
| RepoDeposit (n : string) (amount : Z) (ok : bool)
| RepoWithdraw (n : string) (amount : Z) (ok : bool)
| RepoRemove (n : string) (ok : bool)
| RepoGetTotalBalance (total : option Z)
| RepoCountAccounts (count : option Z)
| RepoAccountExists (n : Z) (found : bool)
| LoggedError (message : string) (e : exn)
| Printed (line : string).

(** - [clock k] is the [k]-th reading of [time.time()];
    - [entropy k] is the [k]-th draw of the random generator;
    - [peers k ip port timeout payload] is what the [k]-th connection
      attempt receives after sending [payload]: the text of the first
      [recv], or [None] when connecting, sending, receiving or decoding
      raises. *)
Record World : Type := {
  db : Database;
  clock : nat -> Z;
  clock_reads : nat;
  entropy : nat -> Z;
  draws : nat;
  peers : nat -> string -> Z -> Z -> string -> option string;
  attempts : nat;
  events : list event
}.

Definition set_db (d : Database) (w : World) : World :=
  {| db := d; clock := clock w; clock_reads := clock_reads w;
     entropy := entropy w; draws := draws w;
     peers := peers w; attempts := attempts w; events := events w |}.

Definition log (e : event) (w : World) : World :=
  {| db := db w; clock := clock w; clock_reads := clock_reads w;
     entropy := entropy w; draws := draws w;
     peers := peers w; attempts := attempts w;
     events := (events w ++ [e])%list |}.

(** [time.time()] *)
Definition time_time : Eff World Z :=
  fun w =>
    let t := clock w (clock_reads w) in
    (Ret t,
     log (Time t)
       {| db := db w; clock := clock w; clock_reads := S (clock_reads w);
          entropy := entropy w; draws := draws w;
          peers := peers w; attempts := attempts w; events := events w |}).

(** [random.randint(a, b)]: [a] plus a draw below [b - a + 1]. *)
Definition randint (a b : Z) : Eff World Z :=
  fun w =>
    let n := a + entropy w (draws w) mod (b - a + 1) in
    (Ret n,
     log (Randint a b n)
       {| db := db w; clock := clock w; clock_reads := clock_reads w;
          entropy := entropy w; draws := S (draws w);
          peers := peers w; attempts := attempts w; events := events w |}).

(** [with socket.create_connection((peer_ip, peer_port), timeout) as s:
       s.sendall(payload); data = s.recv(1024).decode("utf-8")] *)
Definition exchange (peer_ip : string) (peer_port timeout : Z) (payload : string)
  : Eff World string :=
  fun w =>
    let reply := peers w (attempts w) peer_ip peer_port timeout payload in
    let w' :=
      log (Connect peer_ip peer_port timeout payload reply)
        {| db := db w; clock := clock w; clock_reads := clock_reads w;
           entropy := entropy w; draws := draws w;
           peers := peers w; attempts := S (attempts w); events := events w |} in
    match reply with
    | Some data => (Ret data, w')
    | None => (Raise (OtherError "OSError"), w')
    end.

(** [client_socket.sendall(data)] *)
Definition sendall (data : string) : Eff World unit :=
  fun w => (Ret tt, log (Sent data) w).

(** Record what a repository method returned. *)
Definition logged {A} (ev : A -> event) (m : Eff World A) : Eff World A :=
  fun w =>
    match m w with
    | (Ret a, w') => (Ret a, log (ev a) w')
    | r => r
    end.

(** [print(line)] *)
Definition print (line : string) : Eff World unit :=
  fun w => (Ret tt, log (Printed line) w).

(* ------------------------------------------------------------------ *)
(** ** utils/logger.py: class Logger *)

Module Logger.

(** [error(f"{message}{e}")]: the line it prints.  (The record it
    writes to the log file is left out.) *)
Definition error (message : string) (e : exn) : Eff World unit :=
  fun w => (Ret tt, log (LoggedError message e) w).

End Logger.

(* ------------------------------------------------------------------ *)
(** ** database/account_repository.py: class AccountRepository *)

Module AccountRepository.

(** [conn = self.db.connect(); cursor = conn.cursor()]: one use of the
    database, which raises when the world says so. *)
Definition connect : Eff World unit :=
  fun w =>
    let d := db w in
    let w' := set_db {| rows := rows d; db_fails := db_fails d;
                        db_uses := S (db_uses d);
                        found_rows := found_rows d; text_key := text_key d;
                        closed_rowcount := closed_rowcount d |} w in
    if db_fails d (db_uses d) then (Raise (OtherError "Error"), w')
    else (Ret tt, w').

Definition set_rows (rs : list account_row) : Eff World unit :=
  fun w =>
    let d := db w in
    (Ret tt, set_db {| rows := rs; db_fails := db_fails d; db_uses := db_uses d;
                       found_rows := found_rows d; text_key := text_key d;
                       closed_rowcount := closed_rowcount d |} w).

Definition get_rows : Eff World (list account_row) :=
  fun w => (Ret (rows (db w)), w).

Definition has_number (n : Z) (r : account_row) : bool := account_number r =? n.

(** Modelled from the spec: the declaration of the [accounts] table is
    not among the sources.  Account numbers are unique in the store, so
    an INSERT of a number that is present is rejected; balances are
    unbounded integers.

    [INSERT INTO accounts (account_number, ip_address, balance) VALUES (n, ip, b)] *)
Definition sql_insert (n : Z) (ip : string) (b : Z) : Eff World unit :=
  rs <- get_rows ;;
  if existsb (has_number n) rs then raise (OtherError "IntegrityError")
  else set_rows (rs ++ [{| account_number := n; ip_address := ip; balance := b |}])%list.

(** [UPDATE accounts SET balance = balance + delta WHERE cond]; the
    value is [cursor.rowcount]. *)
Definition sql_update_balance (cond : account_row -> bool) (delta : Z) : Eff World Z :=
  fun w =>
    let rs := rows (db w) in
    let rs' := map (fun r => if cond r
                             then {| account_number := account_number r;
                                     ip_address := ip_address r;
                                     balance := balance r + delta |}
                             else r) rs in
    let matched := List.length (filter cond rs) in
    let rowcount := if found_rows (db w) then matched
                    else if delta =? 0 then 0%nat else matched in
    match set_rows rs' w with
    | (_, w') => (Ret (Z.of_nat rowcount), w')
    end.

(** [DELETE FROM accounts WHERE cond]; the value is [cursor.rowcount]. *)
Definition sql_delete (cond : account_row -> bool) : Eff World Z :=
  fun w =>
    let rs := rows (db w) in
    match set_rows (filter (fun r => negb (cond r)) rs) w with
    | (_, w') => (Ret (Z.of_nat (List.length (filter cond rs))), w')
    end.

(** [cursor.close()] and then a reading of [cursor.rowcount], after a
    statement that left [rowcount]. *)
Definition close_then_rowcount (rowcount : Z) : Eff World Z :=
  fun w => (Ret (closed_rowcount (db w) rowcount), w).

(** [cursor.fetchone()] and then [cursor.close()], after a SELECT that
    gives the rows [found]: the first row, or [None] when there is no
    row; when a row is left unread the closing raises ("Unread result
    found").  (What an unread result does to the later uses of the
    connection is among what [db_fails] decides.) *)
Definition fetchone_then_close {A} (found : list A) : Eff World (option A) :=
  match found with
  | [] => ret None
  | [r] => ret (Some r)
  | _ :: _ :: _ => raise (OtherError "InternalError")
  end.

Definition create_account (account_number : Z) (ip_address : string) : Eff World bool :=
  logged (RepoCreateAccount account_number ip_address)
    (try_except_Exception
       (_ <- connect ;;
        _ <- sql_insert account_number ip_address 0 ;;
        ret true)
       (fun _ => ret false)).

Definition get_balance (account_number : string) : Eff World (option Z) :=
  logged (RepoGetBalance account_number)
    (try_except_Exception
       (_ <- connect ;;
        rs <- get_rows ;;
        key <- (fun w => (Ret (text_key (db w) account_number), w)) ;;
        row <- fetchone_then_close (filter (has_number key) rs) ;;
        ret (option_map balance row))
       (fun _ => ret None)).

Definition deposit (account_number : string) (amount : Z) : Eff World bool :=
  logged (RepoDeposit account_number amount)
    (try_except_Exception
       (_ <- connect ;;
        n <- int_of account_number ;;
        rowcount <- sql_update_balance (has_number n) amount ;;
        rowcount <- close_then_rowcount rowcount ;;
        ret (0 <? rowcount))
       (fun _ => ret false)).

Definition withdraw (account_number : string) (amount : Z) : Eff World bool :=
  logged (RepoWithdraw account_number amount)
    (try_except_Exception
       (_ <- connect ;;
        n <- int_of account_number ;;
        rowcount <- sql_update_balance
                      (fun r => has_number n r && (amount <=? balance r)) (- amount) ;;
        rowcount <- close_then_rowcount rowcount ;;
        ret (0 <? rowcount))
       (fun _ => ret false)).

Definition remove (account_number : string) : Eff World bool :=
  logged (RepoRemove account_number)
    (try_except_Exception
       (_ <- connect ;;
        n <- int_of account_number ;;
        rowcount <- sql_delete (fun r => has_number n r && (balance r =? 0)) ;;
        rowcount <- close_then_rowcount rowcount ;;
        ret (0 <? rowcount))
       (fun _ => ret false)).

Definition get_total_balance : Eff World (option Z) :=
  logged RepoGetTotalBalance
    (try_except_Exception
       (_ <- connect ;;
        rs <- get_rows ;;
        ret (Some (fold_right Z.add 0 (map balance rs))))
       (fun _ => ret None)).

Definition count_accounts : Eff World (option Z) :=
  logged RepoCountAccounts
    (try_except_Exception
       (_ <- connect ;;
        rs <- get_rows ;;
        ret (Some (Z.of_nat (List.length rs))))
       (fun _ => ret None)).

Definition account_exists (account_number : Z) : Eff World bool :=
  logged (RepoAccountExists account_number)
    (try_except_Exception
       (_ <- connect ;;
        rs <- get_rows ;;
        ret (0 <? Z.of_nat (List.length (filter (has_number account_number) rs))))
       (fun _ => ret false)).

Definition ops : AccountRepositoryOps World :=
  {| repo_create_account := create_account;
     repo_get_balance := get_balance;
     repo_deposit := deposit;
     repo_withdraw := withdraw;
     repo_remove := remove;
     repo_get_total_balance := get_total_balance;
     repo_count_accounts := count_accounts;
     repo_account_exists := account_exists |}.

(** The value is the list of the pairs of account number and balance
    that the rows hold, in the order of the table.  Only the console
    program calls it, and there the line that the logger prints when
    the use of the database raises is part of what is shown, so it is
    recorded.  (The call itself is not recorded among the events of
    the server.) *)
Definition get_all_accounts : Eff World (list (Z * Z)) :=
  try_except_Exception
    (_ <- connect ;;
     rs <- get_rows ;;
     ret (map (fun r => (account_number r, balance r)) rs))
    (fun e =>
       _ <- Logger.error "Error fetching accounts: " e ;;
       ret []).

End AccountRepository.

(* ------------------------------------------------------------------ *)
(** ** server.py: class BankServer *)

Module BankServer.
Section WithConfig.

Variable cfg : Config.

(** Returns the address of the configuration. *)
Definition get_local_ip : Eff World string := ret (HOST cfg).

Definition create_account (ip_address : string) : Eff World string :=
  for_in (Py.range 0 5)
    (fun _ =>
       account_number <- randint 10000 99999 ;;
       found <- AccountRepository.account_exists account_number ;;
       if negb found then
         success <- AccountRepository.create_account account_number ip_address ;;
         if success
         then ret (Some ("AC " ++ Py.str account_number ++ "/" ++ ip_address))
         else ret (Some "ER Database error")
       else ret None)
    (ret "ER Unable to create account").

Definition possible_ports : list Z := Py.range 65525 65536.

(** One turn of the loop of [forward_to_peer]. *)
Definition try_port (peer_ip command : string) (start_time peer_port : Z)
  : Eff World (option string) :=
  now <- time_time ;;
  if TIMEOUT cfg <? now - start_time then ret (Some "ER Request timeout")
  else
    try_except_Exception
      (data <- exchange peer_ip peer_port (TIMEOUT cfg) (command ++ Py.str_nl) ;;
       ret (Some (Py.strip data)))
      (fun _ => ret None).

Definition forward_to_peer (peer_ip command : string) : Eff World string :=
  start_time <- time_time ;;
  for_in possible_ports
    (try_port peer_ip command start_time)
    (ret "ER Peer connection failed").

Definition ops : ServerOps World :=
  {| srv_get_local_ip := get_local_ip;
     srv_create_account := create_account;
     srv_forward_to_peer := forward_to_peer;
     srv_account_repository := AccountRepository.ops |}.

(** A step of the server on the handler's state. *)
Definition on_world {A} (m : Eff World A) : Eff (CommandHandler.St (W:=World)) A :=
  fun s => let (r, w') := m (fst s) in (r, (w', snd s)).

(** The body of the inner loop of [handle_client] for one line taken
    from the buffer: nothing for a blank line; otherwise the command is
    processed between two readings of the clock and one response line
    is sent. *)
Definition handle_client_line (line : string) (address : string * Z)
  : Eff (CommandHandler.St (W:=World)) unit :=
  let command := Py.strip line in
  if (command =? "")%string then ret tt
  else
    start_time <- on_world time_time ;;
    response <- CommandHandler.process_command ops command address ;;
    now <- on_world time_time ;;
    let response := if TIMEOUT cfg <? now - start_time
                    then "ER Processing timeout" else response in
    on_world (sendall (response ++ Py.str_nl)).

(** What one [client_socket.recv(1024).decode("utf-8")] gives: text
    (empty when the peer has closed), [socket.timeout], or another
    exception of receiving or decoding. *)
Inductive received : Type :=
| Data (text : string)
| TimedOut
| Broken (e : exn).

(** The inner loop of [handle_client]:
    [while "\n" in buffer: line, buffer = buffer.split("\n", 1); ...].
    The value is the buffer that is left.  Every turn shortens the
    buffer, so the length of the buffer is fuel enough. *)
Fixpoint take_lines (fuel : nat) (buffer : string) (address : string * Z)
  : Eff (CommandHandler.St (W:=World)) string :=
  match fuel with
  | O => ret buffer
  | S fuel' =>
      match Py.split1 (ascii_of_nat 10) buffer with
      | None => ret buffer
      | Some (line, rest) =>
          _ <- handle_client_line line address ;;
          take_lines fuel' rest address
      end
  end.

(** The outer loop of [handle_client], inside the two [try]s.  [inbox]
    is what the successive [recv]s give; after the last of them the peer
    has closed. *)
Fixpoint receive (inbox : list received) (buffer : string) (address : string * Z)
  : Eff (CommandHandler.St (W:=World)) unit :=
  match inbox with
  | [] => ret tt
  | Data text :: inbox' =>
      if (text =? "")%string then ret tt
      else
        let buffer := buffer ++ text in
        buffer <- take_lines (String.length buffer) buffer address ;;
        receive inbox' buffer address
  | TimedOut :: _ =>
      on_world (sendall ("ER Connection timed out" ++ Py.str_nl))
  | Broken e :: _ => raise e
  end.

Definition handle_client (inbox : list received) (address : string * Z)
  : Eff (CommandHandler.St (W:=World)) unit :=
  try_except_Exception
    (receive inbox "" address)
    (fun _ => on_world (sendall ("ER Internal server error" ++ Py.str_nl))).

End WithConfig.
End BankServer.

(* ------------------------------------------------------------------ *)
(** ** mainConsole.py *)

Module Console.

(** [f"Account: {account['account_number']} | Balance: {account['balance']}"] *)
Definition account_line (account : Z * Z) : string :=
  "Account: " ++ Py.str (fst account) ++ " | Balance: " ++ Py.str (snd account).

(** [main]: what it shows is the lines of the standard output among
    the events. *)
Definition main : Eff World unit :=
  accounts <- AccountRepository.get_all_accounts ;;
  match accounts with
  | [] => print "No accounts found in the database."
  | _ =>
      _ <- print "List of all accounts:" ;;
      _ <- print (Py.repeat "-" 40) ;;
      for_in accounts
        (fun account => _ <- print (account_line account) ;; ret None)
        (print (Py.repeat "-" 40))
  end.

End Console.

(* ------------------------------------------------------------------ *)
(** ** A concrete node, for running the model *)

Module Sample.

(** A node configured with the loopback address. *)
Definition cfg : Config :=
  {| HOST := "127.0.0.1"; PORT := 65530; TIMEOUT := 5; CLIENT_TIMEOUT := 5 |}.

Definition database : Database :=
  {| rows := [ {| account_number := 12345; ip_address := "127.0.0.1"; balance := 100 |} ];
     db_fails := fun _ => false;
     db_uses := 0;
     found_rows := false;
     text_key := fun s => match Py.int s with Some n => n | None => 0 end;
     closed_rowcount := fun rowcount => rowcount |}.

(** A world whose clock reads 0, 0, 3, 6, ..., whose peers answer on
    port 65527 only, and whose draws are 2345, 2346, ... *)
Definition world : World :=
  {| db := database;
     clock := fun k => 3 * Z.of_nat (Nat.pred k);
     clock_reads := 0;
     entropy := fun k => 2345 + Z.of_nat k;
     draws := 0;
     peers := fun _ _ port _ _ =>
                if port =? 65527 then Some ("AB 7" ++ Py.str_nl) else None;
     attempts := 0;
     events := [] |}.

(** The same world with a clock that stands still. *)
Definition still_world : World :=
  {| db := database;
     clock := fun _ => 0;
     clock_reads := 0;
     entropy := entropy world;
     draws := 0;
     peers := peers world;
     attempts := 0;
     events := [] |}.

(** The same world with a clock that reads 0, 10, 20, ... *)
Definition slow_world : World :=
  {| db := database;
     clock := fun k => 10 * Z.of_nat k;
     clock_reads := 0;
     entropy := entropy world;
     draws := 0;
     peers := peers world;
     attempts := 0;
     events := [] |}.

(** A server object all of whose methods raise. *)
Definition faulty : ServerOps unit :=
  {| srv_get_local_ip := raise (OtherError "RuntimeError");
     srv_create_account := fun _ => raise (OtherError "RuntimeError");
     srv_forward_to_peer := fun _ _ => raise (OtherError "RuntimeError");
     srv_account_repository :=
       {| repo_create_account := fun _ _ => raise (OtherError "RuntimeError");
          repo_get_balance := fun _ => raise (OtherError "RuntimeError");
          repo_deposit := fun _ _ => raise (OtherError "RuntimeError");
          repo_withdraw := fun _ _ => raise (OtherError "RuntimeError");
          repo_remove := fun _ => raise (OtherError "RuntimeError");
          repo_get_total_balance := raise (OtherError "RuntimeError");
          repo_count_accounts := raise (OtherError "RuntimeError");
          repo_account_exists := fun _ => raise (OtherError "RuntimeError") |} |}.

Definition client : string * Z := ("10.0.0.7", 50000).

(** Run one command line on the sample node: the response and the calls
    the handler made. *)
Definition run (w : World) (command : string) : result string * list call :=
  let (r, s) := CommandHandler.process_command (BankServer.ops cfg) command client (w, []) in
  (r, snd s).

(** The sample world behind the pure Python implementation of the
    connector, where a closed cursor counts -1. *)
Definition pure_world : World :=
  {| db := {| rows := rows database; db_fails := db_fails database;
              db_uses := 0; found_rows := false;
              text_key := text_key database;
              closed_rowcount := fun _ => -1 |};
     clock := fun _ => 0;
     clock_reads := 0;
     entropy := entropy world;
     draws := 0;
     peers := peers world;
     attempts := 0;
     events := [] |}.

(** The sample world with a second row for the account number 12345. *)
Definition doubled_world : World :=
  {| db := {| rows := (rows database
                         ++ [{| account_number := 12345;
                                ip_address := "127.0.0.1";
                                balance := 7 |}])%list;
              db_fails := db_fails database;
              db_uses := 0; found_rows := false;
              text_key := text_key database;
              closed_rowcount := closed_rowcount database |};
     clock := fun _ => 0;
     clock_reads := 0;
     entropy := entropy world;
     draws := 0;
     peers := peers world;
     attempts := 0;
     events := [] |}.

(** The sample world with a database out of reach. *)
Definition down_world : World :=
  {| db := {| rows := rows database; db_fails := fun _ => true; db_uses := 0;
              found_rows := false; text_key := text_key database;
              closed_rowcount := closed_rowcount database |};
     clock := fun _ => 0;
     clock_reads := 0;
     entropy := entropy world;
     draws := 0;
     peers := peers world;
     attempts := 0;
     events := [] |}.

End Sample.

(* ------------------------------------------------------------------ *)
(** ** Vocabulary of the properties *)

(** An error line of the protocol. *)
Definition is_er (response : string) : bool := String.prefix "ER " response.


Fixpoint has_char (c : ascii) (s : string) : bool :=
  match s with
  | EmptyString => false
  | String c' s' => Ascii.eqb c' c || has_char c s'
  end.

(** The arguments of the four account verbs, as the protocol describes
    them: an account reference, and for AD and AW an integer amount. *)
Definition account_args (verb : string) (rest : list string)
  : option (string * option Z) :=
  if ((verb =? "AD") || (verb =? "AW"))%string then
    match rest with
    | [ref; amt] => option_map (fun a => (ref, Some a)) (Py.int amt)
    | _ => None
    end
  else if ((verb =? "AB") || (verb =? "AR"))%string then
    match rest with
    | [ref] => Some (ref, None)
    | _ => None
    end
  else None.

(** A command written out again: verb, account reference, amount. *)
Definition serialize (verb ref : string) (amount : option Z) : string :=
  verb ++ " " ++ ref ++ match amount with
                        | Some a => " " ++ Py.str a
                        | None => ""
                        end.

(** The connection attempts of a trace, each as the clock reading that
    precedes it and the timeout it was given; [last] is the reading
    before the trace. *)
Fixpoint attempts_of (last : Z) (evs : list event) : list (Z * Z) :=
  match evs with
  | [] => []
  | Time t :: evs' => attempts_of t evs'
  | Connect _ _ timeout _ _ :: evs' => (last, timeout) :: attempts_of last evs'
  | _ :: evs' => attempts_of last evs'
  end.

(** The ports a trace connects to, each with what came back. *)
Fixpoint connects (evs : list event) : list (Z * option string) :=
  match evs with
  | [] => []
  | Connect _ port _ _ reply :: evs' => (port, reply) :: connects evs'
  | _ :: evs' => connects evs'
  end.

Definition is_repo_event (e : event) : bool :=
  match e with
  | Time _ | Randint _ _ _ | Connect _ _ _ _ _ | Sent _ => false
  | _ => true
  end.

(** What the loop of [forward_to_peer] does over a list of ports, as a
    relation between the ports, the events and the response. *)
Inductive probe (cfg : Config) (peer_ip payload : string) (start : Z)
  : list Z -> list event -> string -> Prop :=
| probe_exhausted :
    probe cfg peer_ip payload start [] [] "ER Peer connection failed"
| probe_timeout port ports now :
    TIMEOUT cfg < now - start ->
    probe cfg peer_ip payload start (port :: ports) [Time now] "ER Request timeout"
| probe_answer port ports now data :
    now - start <= TIMEOUT cfg ->
    probe cfg peer_ip payload start (port :: ports)
      [Time now; Connect peer_ip port (TIMEOUT cfg) payload (Some data)]
      (Py.strip data)
| probe_next port ports now evs response :
    now - start <= TIMEOUT cfg ->
    probe cfg peer_ip payload start ports evs response ->
    probe cfg peer_ip payload start (port :: ports)
      (Time now :: Connect peer_ip port (TIMEOUT cfg) payload None :: evs)
      response.

(** The events of the turns of the loop of [forward_to_peer] that make
    an attempt: for each port in order, the reading of the clock and
    then the connection, with the whole budget as its timeout, and what
    came back. *)
Fixpoint turn_events (cfg : Config) (peer_ip payload : string)
  (ports : list Z) (turns : list (Z * option string)) : list event :=
  match ports, turns with
  | port :: ports', (now, reply) :: turns' =>
      Time now :: Connect peer_ip port (TIMEOUT cfg) payload reply
      :: turn_events cfg peer_ip payload ports' turns'
  | _, _ => []
  end.

(** The turns of attempts that all fail, from the readings of the clock
    that precede them. *)
Definition failed_turns (readings : list Z) : list (Z * option string) :=
  map (fun now => (now, @None string)) readings.

(** The events of one turn of the loop of [create_account] that finds
    the number taken. *)
Definition taken (n : Z) : list event :=
  [Randint 10000 99999 n; RepoAccountExists n true].

(** The [k] numbers drawn from a world on. *)
Definition drawn (w : World) (k : nat) : list Z :=
  map (fun i => 10000 + entropy w (draws w + i) mod 90000) (seq 0 k).


(** The response of an account handler to a wrong number of arguments. *)
Definition arity_error (verb : string) : string :=
  "ER Invalid " ++ verb ++ " format".

(** The response of an account handler to a [ValueError]. *)
Definition format_error (verb : string) : string :=
  if (verb =? "AD")%string then "ER Invalid deposit format"
  else if (verb =? "AW")%string then "ER Invalid withdrawal format"
  else "ER Invalid account format".

(** The call an account handler makes on the repository of the local
    bank. *)
Definition local_call (verb acct : string) (amount : option Z) : call :=
  let a := match amount with Some a => a | None => 0 end in
  if (verb =? "AD")%string then Deposit acct a
  else if (verb =? "AW")%string then Withdraw acct a
  else if (verb =? "AB")%string then GetBalance acct
  else Remove acct.

Definition account_verbs : list string := ["AD"; "AW"; "AB"; "AR"].
Definition bare_verbs : list string := ["BC"; "AC"; "BA"; "BN"].

(** The sum of the balances of a table. *)
Definition total (rs : list account_row) : Z :=
  fold_right Z.add 0 (map balance rs).

(** The account numbers of a table. *)
Definition numbers (rs : list account_row) : list Z := map account_number rs.

(** A table with [delta] added to the balance of the rows that satisfy
    [cond]. *)
Definition adjust (cond : account_row -> bool) (delta : Z)
  (rs : list account_row) : list account_row :=
  map (fun r => if cond r
                then {| account_number := account_number r;
                        ip_address := ip_address r;
                        balance := balance r + delta |}
                else r) rs.

(** What [cursor.rowcount] holds after an UPDATE that adds [delta] to
    the balance of the rows that satisfy [cond]: the number of the rows
    matched, or of the rows changed. *)
Definition update_rowcount (d : Database) (cond : account_row -> bool)
  (delta : Z) : Z :=
  Z.of_nat (if found_rows d then List.length (filter cond (rows d))
            else if delta =? 0 then 0%nat
                 else List.length (filter cond (rows d))).

(** The next use of the database succeeds. *)
Definition db_up (w : World) : Prop :=
  db_fails (db w) (db_uses (db w)) = false.

(** The data sent to the client in a trace. *)
Fixpoint sent (evs : list event) : list string :=
  match evs with
  | [] => []
  | Sent data :: evs' => data :: sent evs'
  | _ :: evs' => sent evs'
  end.

(** The lines of a buffer that a line feed ends, and the text after the
    last line feed. *)
Fixpoint complete_lines (line buffer : string) : list string :=
  match buffer with
  | EmptyString => []
  | String c rest =>
      if Ascii.eqb c (ascii_of_nat 10) then line :: complete_lines "" rest
      else complete_lines (line ++ String c "") rest
  end.

Fixpoint after_lines (line buffer : string) : string :=
  match buffer with
  | EmptyString => line
  | String c rest =>
      if Ascii.eqb c (ascii_of_nat 10) then after_lines "" rest
      else after_lines (line ++ String c "") rest
  end.

(** A relation on worlds that every method of a server object keeps. *)
Definition kept_by {W : Type} (server : ServerOps W) (P : W -> W -> Prop) : Prop :=
  (forall w, P w (snd (srv_get_local_ip server w)))
  /\ (forall ip w, P w (snd (srv_create_account server ip w)))
  /\ (forall ip c w, P w (snd (srv_forward_to_peer server ip c w)))
  /\ (forall n w, P w (snd (repo_get_balance (srv_account_repository server) n w)))
  /\ (forall n a w, P w (snd (repo_deposit (srv_account_repository server) n a w)))
  /\ (forall n a w, P w (snd (repo_withdraw (srv_account_repository server) n a w)))
  /\ (forall n w, P w (snd (repo_remove (srv_account_repository server) n w)))
  /\ (forall w, P w (snd (repo_get_total_balance (srv_account_repository server) w)))
  /\ (forall w, P w (snd (repo_count_accounts (srv_account_repository server) w))).

(** A line that holds white space only. *)
Definition blank (line : string) : bool := (Py.strip line =? "")%string.

(** The lines of a list handled one after the other, as the inner loop
    of [handle_client] handles a line. *)
Fixpoint each_line (cfg : Config) (lines : list string) (address : string * Z)
  : Eff (CommandHandler.St (W:=World)) unit :=
  match lines with
  | [] => ret tt
  | line :: lines' =>
      _ <- BankServer.handle_client_line cfg line address ;;
      each_line cfg lines' address
  end.

(** The chunks of a list put end to end. *)
Definition joined (chunks : list string) : string :=
  fold_right append "" chunks.

(** What ends the loop of [handle_client]: no text, a timeout, or an
    exception. *)
Definition stops (r : BankServer.received) : bool :=
  match r with
  | BankServer.Data text => (text =? "")%string
  | _ => true
  end.

(** The line the session handler sends when its loop ends. *)
Definition farewell (inbox : list BankServer.received) : list string :=
  match inbox with
  | BankServer.TimedOut :: _ => ["ER Connection timed out" ++ Py.str_nl]
  | BankServer.Broken _ :: _ => ["ER Internal server error" ++ Py.str_nl]
  | _ => []
  end.

(** A handler keeps a relation on worlds when the world it leaves is
    related to the world it started from. *)
Definition keeps {W A : Type} (P : W -> W -> Prop)
  (m : Eff (W * list call) A) : Prop :=
  forall s, P (fst s) (fst (snd (m s))).

(** The events of [w'] are those of [w] followed by events that send
    nothing to the client. *)
Definition grows_silently (w w' : World) : Prop :=
  exists evs, events w' = (events w ++ evs)%list /\ sent evs = [].

(** ** Tactics *)

(** Read one digit of a literal. *)
Ltac read_digit :=
  cbn [NilEmpty.string_of_uint Py.int_digits Pos.of_uint_acc Pos.of_uint];
  match goal with
  | |- context [Py.digit_of ?c] =>
      let v := eval vm_compute in (Py.digit_of c) in
      change (Py.digit_of c) with v
  end;
  cbv beta iota.


(** Open the combinators of [Eff]. *)
Ltac eff :=
  unfold try_except_Exception, try_except_ValueError, bind, ret, raise,
    int_of, unpack2 in *.

(* ================================================================== *)
(** * Properties *)

(** ** The primitives on examples *)

Example split_ex : Py.split (Py.strip "  ad  1/2	 -5 ") = ["ad"; "1/2"; "-5"].
Proof. reflexivity. Qed.

Example split_on_ex :
  (Py.split_on "/" "/10.0.0.1", Py.split_on "/" "1/2/3", Py.split_on "/" "12")
  = ([""; "10.0.0.1"], ["1"; "2"; "3"], ["12"]).
Proof. reflexivity. Qed.

Example int_ex :
  (Py.int "-5", Py.int "1_000", Py.int "1__0", Py.int "+007", Py.int "5.0",
   Py.int "", Py.int "-")
  = (Some (-5), Some 1000, None, Some 7, None, None, None).
Proof. reflexivity. Qed.

Example str_ex : (Py.str 0, Py.str (-12), Py.str 65535) = ("0", "-12", "65535").
Proof. reflexivity. Qed.

Example upper_ex : Py.upper "bc" = "BC".
Proof. reflexivity. Qed.

(** ** Strings *)

Lemma append_assoc (a b c : string) : (a ++ b) ++ c = a ++ b ++ c.
Proof. induction a as [|x a IH]; simpl; [reflexivity | now rewrite IH]. Qed.

Lemma split_on_nonempty sep s : Py.split_on sep s <> [].
Proof.
  destruct s as [|c s]; simpl; [discriminate|].
  destruct (Ascii.eqb c sep); [discriminate|].
  destruct (Py.split_on sep s); discriminate.
Qed.


Lemma split_on_one sep s b : Py.split_on sep s = [b] -> s = b.
Proof.
  revert b; induction s as [|c s IH]; simpl; intros b H.
  - now injection H.
  - destruct (Ascii.eqb c sep).
    + injection H as _ H. now apply split_on_nonempty in H.
    + destruct (Py.split_on sep s) as [|p ps] eqn:E.
      * now apply split_on_nonempty in E.
      * injection H as <- ->. f_equal. now apply IH.
Qed.

(** Two parts are the text before and after the one separator. *)
Lemma split_on_two sep s a b :
  Py.split_on sep s = [a; b] -> s = a ++ String sep b.
Proof.
  revert a; induction s as [|c s IH]; simpl; intros a H; [discriminate|].
  destruct (Ascii.eqb_spec c sep) as [-> | Hne].
  - injection H as <- H. simpl. f_equal. now apply split_on_one in H.
  - destruct (Py.split_on sep s) as [|p ps] eqn:E; [discriminate|].
    injection H as <- ->. simpl. f_equal. now apply IH.
Qed.

Lemma split_on_absent sep s : has_char sep s = false -> Py.split_on sep s = [s].
Proof.
  induction s as [|c s IH]; simpl; [reflexivity|].
  destruct (Ascii.eqb c sep); simpl; [discriminate|].
  intros H. now rewrite IH.
Qed.

Lemma split_on_join sep a b :
  has_char sep a = false -> has_char sep b = false ->
  Py.split_on sep (a ++ String sep b) = [a; b].
Proof.
  intros Ha Hb. induction a as [|c a IH]; simpl in *.
  - rewrite Ascii.eqb_refl. now rewrite split_on_absent.
  - destruct (Ascii.eqb c sep); simpl in *; [discriminate|].
    now rewrite IH.
Qed.

(** ** Integers written and read *)

Lemma int_digits_acc d acc :
  Py.int_digits (Zpos acc) true (NilEmpty.string_of_uint d)
  = Some (Zpos (Pos.of_uint_acc d acc)).
Proof.
  revert acc; induction d; intros acc; [reflexivity|..];
    read_digit; rewrite <- IHd; f_equal; lia.
Qed.

Lemma int_digits_uint d b :
  d <> Decimal.Nil \/ b = true ->
  Py.int_digits 0 b (NilEmpty.string_of_uint d) = Some (Z.of_N (Pos.of_uint d)).
Proof.
  revert b; induction d; intros b H.
  - destruct H as [H | ->]; [now destruct H | reflexivity].
  - read_digit. apply IHd. now right.
  - read_digit. apply (int_digits_acc d 1).
  - read_digit. apply (int_digits_acc d 2).
  - read_digit. apply (int_digits_acc d 3).
  - read_digit. apply (int_digits_acc d 4).
  - read_digit. apply (int_digits_acc d 5).
  - read_digit. apply (int_digits_acc d 6).
  - read_digit. apply (int_digits_acc d 7).
  - read_digit. apply (int_digits_acc d 8).
  - read_digit. apply (int_digits_acc d 9).
Qed.

(** A positive number is written with digits only, the first of them
    not a sign. *)
Lemma str_pos p :
  Py.str (Zpos p) = NilEmpty.string_of_uint (Pos.to_uint p)
  /\ Pos.to_uint p <> Decimal.Nil.
Proof.
  assert (N : Pos.to_uint p <> Decimal.Nil).
  { intros E. assert (H := DecimalPos.Unsigned.of_to p). rewrite E in H.
    discriminate. }
  split; [|exact N].
  unfold Py.str, Z.to_int, NilZero.string_of_int, NilZero.string_of_uint.
  destruct (Pos.to_uint p); [now destruct N | reflexivity ..].
Qed.

Lemma int_digits_pos p :
  Py.int_digits 0 false (Py.str (Zpos p)) = Some (Zpos p).
Proof.
  destruct (str_pos p) as [-> N].
  rewrite int_digits_uint by now left.
  now rewrite DecimalPos.Unsigned.of_to.
Qed.

Lemma uint_first_char d c r :
  NilEmpty.string_of_uint d = String c r -> Py.digit_of c <> None.
Proof. destruct d; simpl; intros [= <- _]; discriminate. Qed.

Lemma str_neg p : Py.str (Zneg p) = String "-" (Py.str (Zpos p)).
Proof. reflexivity. Qed.

(** What [str] writes, [int] reads back. *)
Lemma int_str (a : Z) : Py.int (Py.str a) = Some a.
Proof.
  destruct a as [|p|p].
  - reflexivity.
  - assert (H := int_digits_pos p). destruct (str_pos p) as [E N].
    unfold Py.int. rewrite E in *.
    destruct (NilEmpty.string_of_uint (Pos.to_uint p)) as [|c r] eqn:S.
    + exact H.
    + apply uint_first_char in S.
      destruct c as [[|] [|] [|] [|] [|] [|] [|] [|]];
        try (exfalso; apply S; reflexivity); exact H.
  - rewrite str_neg. unfold Py.int. now rewrite int_digits_pos.
Qed.

(** ** The router over any server object *)

Section Router.

Context {W : Type}.
Variable server : ServerOps W.

Local Abbreviation process := (CommandHandler.process_command server).


(** An empty line. *)
Lemma process_blank command address s :
  Py.split (Py.strip command) = [] ->
  process command address s = (Ret "ER Invalid command", s).
Proof. intros H. unfold CommandHandler.process_command. now rewrite H. Qed.

(** The router is the dispatch with every exception turned into a
    response. *)
Lemma process_dispatch command address s v rest :
  Py.split (Py.strip command) = v :: rest ->
  process command address s =
    match CommandHandler.dispatch server (Py.upper v) (v :: rest) address s with
    | (Ret r, s') => (Ret r, s')
    | (Raise _, s') => (Ret "ER Internal processing error", s')
    end.
Proof.
  intros H. unfold CommandHandler.process_command. rewrite H.
  unfold try_except_Exception.
  destruct (CommandHandler.dispatch _ _ _ _ _) as [[r|e] s']; reflexivity.
Qed.

(** A wrong number of arguments for an account verb. *)
Lemma process_arity command address s v rest :
  Py.split (Py.strip command) = v :: rest ->
  (In (Py.upper v) ["AD"; "AW"] /\ List.length rest <> 2%nat
   \/ In (Py.upper v) ["AB"; "AR"] /\ List.length rest <> 1%nat) ->
  process command address s = (Ret (arity_error (Py.upper v)), s).
Proof.
  intros H Hv. rewrite (process_dispatch _ _ _ _ _ H).
  destruct Hv as [[Hv Hn]|[Hv Hn]]; simpl in Hv;
    destruct Hv as [<-|[<-|[]]]; unfold CommandHandler.dispatch; simpl;
    unfold CommandHandler.handle_ad, CommandHandler.handle_aw,
      CommandHandler.handle_ab, CommandHandler.handle_ar; simpl;
    destruct rest as [|x [|y [|z r]]]; simpl in *;
    try (exfalso; apply Hn; reflexivity); reflexivity.
Qed.


Lemma dispatch_account parts address :
  CommandHandler.dispatch server "AD" parts address = CommandHandler.handle_ad server parts
  /\ CommandHandler.dispatch server "AW" parts address = CommandHandler.handle_aw server parts
  /\ CommandHandler.dispatch server "AB" parts address = CommandHandler.handle_ab server parts
  /\ CommandHandler.dispatch server "AR" parts address = CommandHandler.handle_ar server parts.
Proof. repeat split; reflexivity. Qed.

Lemma dispatch_bare parts address :
  CommandHandler.dispatch server "BC" parts address = CommandHandler.handle_bc server
  /\ CommandHandler.dispatch server "AC" parts address
     = CommandHandler.handle_ac server (fst address)
  /\ CommandHandler.dispatch server "BA" parts address = CommandHandler.handle_ba server
  /\ CommandHandler.dispatch server "BN" parts address = CommandHandler.handle_bn server.
Proof. repeat split; reflexivity. Qed.

Lemma account_args_cases verb rest ref amount :
  account_args verb rest = Some (ref, amount) ->
  (exists amt a, (verb = "AD" \/ verb = "AW") /\ rest = [ref; amt]
                 /\ Py.int amt = Some a /\ amount = Some a)
  \/ ((verb = "AB" \/ verb = "AR") /\ rest = [ref] /\ amount = None).
Proof.
  unfold account_args. intros H.
  destruct (verb =? "AD")%string eqn:E1; [apply String.eqb_eq in E1|];
  [|destruct (verb =? "AW")%string eqn:E2; [apply String.eqb_eq in E2|]];
  [| |destruct (verb =? "AB")%string eqn:E3; [apply String.eqb_eq in E3|]];
  [| | |destruct (verb =? "AR")%string eqn:E4; [apply String.eqb_eq in E4|]];
  simpl in H; try discriminate;
  destruct rest as [|x [|y [|z r]]]; try discriminate.
  1,2: destruct (Py.int y) as [a|] eqn:Ea; simpl in H; [|discriminate];
       injection H as <- <-; left; exists y, a; intuition.
  1,2: injection H as <- <-; right; intuition.
Qed.

Lemma append_empty_r (a : string) : a ++ "" = a.
Proof. induction a as [|x a IH]; simpl; [reflexivity | now rewrite IH]. Qed.

Lemma serialize_parts verb acct ip amount :
  serialize verb (acct ++ String "/" ip) amount
  = verb ++ " " ++ acct ++ "/" ++ ip
    ++ match amount with Some a => " " ++ Py.str a | None => "" end.
Proof.
  unfold serialize. f_equal. f_equal. rewrite append_assoc. f_equal.
Qed.

(** Where an account command with well-formed arguments goes. *)
Lemma route command address s v rest ref amount acct ip :
  Py.split (Py.strip command) = v :: rest ->
  account_args (Py.upper v) rest = Some (ref, amount) ->
  Py.split_on "/" ref = [acct; ip] ->
  let verb := Py.upper v in
  let fwd := serialize verb ref amount in
  exists resp s',
    process command address s = (Ret resp, s') /\
    match srv_get_local_ip server (fst s) with
    | (Raise e, w1) =>
        s' = (w1, (snd s ++ [GetLocalIp])%list) /\
        resp = match e with
               | ValueError => format_error verb
               | _ => "ER Internal processing error"
               end
    | (Ret local, w1) =>
        if (ip =? local)%string then
          exists w2,
            s' = (w2, (snd s ++ [GetLocalIp; local_call verb acct amount])%list)
        else
          let (res, w2) := srv_forward_to_peer server ip fwd w1 in
          s' = (w2, (snd s ++ [GetLocalIp; ForwardToPeer ip fwd])%list) /\
          resp = match res with
                 | Ret r => r
                 | Raise ValueError => format_error verb
                 | Raise _ => "ER Internal processing error"
                 end
    end.
Proof.
  intros H Ha Hs verb fwd. subst fwd verb.
  rewrite (process_dispatch _ _ _ _ _ H).
  assert (Hr := split_on_two _ _ _ _ Hs).
  apply account_args_cases in Ha.
  destruct Ha as [(amt & a & Hv & -> & Hi & ->)|(Hv & -> & ->)];
    destruct Hv as [Hv|Hv]; rewrite Hv; clear Hv;
    match goal with
    | |- context [CommandHandler.dispatch server _ ?p ?a] =>
        destruct (dispatch_account p a) as (D1 & D2 & D3 & D4)
    end;
    rewrite ?D1, ?D2, ?D3, ?D4; clear D1 D2 D3 D4;
    unfold CommandHandler.handle_ad, CommandHandler.handle_aw,
      CommandHandler.handle_ab, CommandHandler.handle_ar;
    cbn [List.length Nat.eqb negb nth]; eff; rewrite ?Hi, Hs;
    unfold ret, raise; cbv beta iota;
    unfold CommandHandler.get_local_ip, CommandHandler.invoke; cbn [fst snd];
    destruct (srv_get_local_ip server (fst s)) as [[local|[|cls]] w1];
    try (eexists _, _; split; [reflexivity|split; reflexivity]);
    destruct (ip =? local)%string; cbn [negb];
    unfold CommandHandler.forward_to_peer, CommandHandler.deposit,
      CommandHandler.withdraw, CommandHandler.get_balance,
      CommandHandler.remove, CommandHandler.invoke; cbn [fst snd];
    rewrite ?Hr, ?serialize_parts, ?append_empty_r; cbn [append];
    rewrite <- ?app_assoc; cbn [app];
    match goal with
    | |- context [srv_forward_to_peer server ?i ?c ?w] =>
        destruct (srv_forward_to_peer server i c w) as [[r|[|cls]] w2]
    | |- context [repo_deposit ?o ?n ?x ?w] =>
        destruct (repo_deposit o n x w) as [[r|[|cls]] w2]
    | |- context [repo_withdraw ?o ?n ?x ?w] =>
        destruct (repo_withdraw o n x w) as [[r|[|cls]] w2]
    | |- context [repo_get_balance ?o ?n ?w] =>
        destruct (repo_get_balance o n w) as [[r|[|cls]] w2]
    | |- context [repo_remove ?o ?n ?w] =>
        destruct (repo_remove o n w) as [[r|[|cls]] w2]
    end;
    eexists _, _; (split; [reflexivity|]).
  all: first [split; reflexivity | eexists; reflexivity].
Qed.


(** An account reference that does not split into two parts. *)
Lemma process_bad_reference command address s v rest ref amount :
  Py.split (Py.strip command) = v :: rest ->
  account_args (Py.upper v) rest = Some (ref, amount) ->
  List.length (Py.split_on "/" ref) <> 2%nat ->
  process command address s = (Ret (format_error (Py.upper v)), s).
Proof.
  intros H Ha Hs.
  rewrite (process_dispatch _ _ _ _ _ H).
  apply account_args_cases in Ha.
  destruct Ha as [(amt & a & Hv & -> & Hi & ->)|(Hv & -> & ->)];
    destruct Hv as [Hv|Hv]; rewrite Hv; clear Hv;
    match goal with
    | |- context [CommandHandler.dispatch server _ ?p ?a] =>
        destruct (dispatch_account p a) as (D1 & D2 & D3 & D4)
    end;
    rewrite ?D1, ?D2, ?D3, ?D4; clear D1 D2 D3 D4;
    unfold CommandHandler.handle_ad, CommandHandler.handle_aw,
      CommandHandler.handle_ab, CommandHandler.handle_ar;
    cbn [List.length Nat.eqb negb nth]; eff; rewrite ?Hi;
    destruct (Py.split_on "/" ref) as [|p1 [|p2 [|p3 ps]]];
    try (exfalso; apply Hs; reflexivity); reflexivity.
Qed.

(** An amount that is not an integer literal. *)
Lemma process_bad_amount command address s v ref amt :
  Py.split (Py.strip command) = [v; ref; amt] ->
  In (Py.upper v) ["AD"; "AW"] ->
  Py.int amt = None ->
  process command address s = (Ret (format_error (Py.upper v)), s).
Proof.
  intros H Hv Hi.
  rewrite (process_dispatch _ _ _ _ _ H).
  simpl in Hv. destruct Hv as [<-|[<-|[]]];
    match goal with
    | |- context [CommandHandler.dispatch server _ ?p ?a] =>
        destruct (dispatch_account p a) as (D1 & D2 & D3 & D4)
    end;
    rewrite ?D1, ?D2, ?D3, ?D4; clear D1 D2 D3 D4;
    unfold CommandHandler.handle_ad, CommandHandler.handle_aw;
    cbn [List.length Nat.eqb negb nth]; eff; rewrite Hi; reflexivity.
Qed.

Lemma account_args_amount v ref amt a :
  In (Py.upper v) ["AD"; "AW"] -> Py.int amt = Some a ->
  account_args (Py.upper v) [ref; amt] = Some (ref, Some a).
Proof.
  intros Hv Hi. simpl in Hv.
  destruct Hv as [<-|[<-|[]]]; unfold account_args; simpl; now rewrite Hi.
Qed.

(** An AD or AW line with well-formed arguments for the bank of the
    server itself: the one call on the store, and the answer from what
    the store returns. *)
Lemma amount_local command address s v ref amt a acct ip w1 :
  Py.split (Py.strip command) = [v; ref; amt] ->
  In (Py.upper v) ["AD"; "AW"] ->
  Py.int amt = Some a ->
  Py.split_on "/" ref = [acct; ip] ->
  srv_get_local_ip server (fst s) = (Ret ip, w1) ->
  let repo := srv_account_repository server in
  let verb := Py.upper v in
  let (res, w2) :=
    (if (verb =? "AD")%string then repo_deposit repo acct a
     else repo_withdraw repo acct a) w1 in
  process command address s
  = (Ret match res with
         | Ret ok =>
             if ok then verb
             else if (verb =? "AD")%string then "ER Deposit failed"
                  else "ER Not enough funds"
         | Raise ValueError => format_error verb
         | Raise _ => "ER Internal processing error"
         end,
     (w2, (snd s ++ [GetLocalIp; local_call verb acct (Some a)])%list)).
Proof.
  intros H Hv Hi Hs Hl repo verb. subst repo verb.
  rewrite (process_dispatch _ _ _ _ _ H).
  simpl in Hv. destruct Hv as [<-|[<-|[]]];
    match goal with
    | |- context [CommandHandler.dispatch server _ ?p ?a] =>
        destruct (dispatch_account p a) as (D1 & D2 & D3 & D4)
    end;
    rewrite ?D1, ?D2; clear D1 D2 D3 D4;
    unfold CommandHandler.handle_ad, CommandHandler.handle_aw;
    cbn [List.length Nat.eqb negb nth String.eqb Ascii.eqb Bool.eqb]; eff;
    rewrite Hi, Hs; unfold ret, raise; cbv beta iota;
    unfold CommandHandler.get_local_ip, CommandHandler.invoke; cbn [fst snd];
    rewrite Hl; cbv beta iota; rewrite String.eqb_refl; cbn [negb];
    unfold CommandHandler.deposit, CommandHandler.withdraw,
      CommandHandler.invoke; cbn [fst snd];
    match goal with
    | |- context [repo_deposit ?o ?n ?x ?w] =>
        destruct (repo_deposit o n x w) as [[ok|[|cls]] w2]
    | |- context [repo_withdraw ?o ?n ?x ?w] =>
        destruct (repo_withdraw o n x w) as [[ok|[|cls]] w2]
    end;
    rewrite <- ?app_assoc; reflexivity.
Qed.

(** C1, amended.  In an AD or AW line the amount is the third token.
    When it is not an integer literal the response is an error line (the
    handler's format error, or the argument-count error when the line
    does not have two arguments) and the state is untouched: no call is
    made on the server or on the account repository.  When it is an
    integer literal the handler goes on whatever its sign: every amount
    handed to the account repository is the integer it denotes, and
    with a well-formed account reference and a server that gives its
    address the calls are the request for that address and then, for
    the server's own bank, the one deposit or withdrawal of that very
    integer, answered with the verb when the store returns [True]; for
    another bank they are the forwarding of the line written out again
    with that integer.  There is no case for a negative amount. *)
Theorem amount_token_guard command address s v rest :
  Py.split (Py.strip command) = v :: rest ->
  In (Py.upper v) ["AD"; "AW"] ->
  match Py.int (nth 1 rest "") with
  | None =>
      process command address s
      = (Ret (if (List.length rest =? 2)%nat then format_error (Py.upper v)
              else arity_error (Py.upper v)), s)
      /\ is_er (format_error (Py.upper v)) = true
      /\ is_er (arity_error (Py.upper v)) = true
  | Some a =>
      exists resp s' cs,
        process command address s = (Ret resp, s') /\
        snd s' = (snd s ++ cs)%list /\
        (forall x, In x (store_amounts cs) -> x = a) /\
        (forall ref amt acct ip local w1,
           rest = [ref; amt] ->
           Py.split_on "/" ref = [acct; ip] ->
           srv_get_local_ip server (fst s) = (Ret local, w1) ->
           if (ip =? local)%string then
             cs = [GetLocalIp; local_call (Py.upper v) acct (Some a)]
             /\ store_amounts cs = [a]
             /\ (forall w2,
                   (if (Py.upper v =? "AD")%string
                    then repo_deposit (srv_account_repository server) acct a
                    else repo_withdraw (srv_account_repository server) acct a) w1
                   = (Ret true, w2) ->
                   resp = Py.upper v /\ fst s' = w2)
           else
             cs = [GetLocalIp;
                   ForwardToPeer ip (serialize (Py.upper v) ref (Some a))]
             /\ store_amounts cs = [])
  end.
Proof.
  intros H Hv.
  assert (Her : is_er (format_error (Py.upper v)) = true
                /\ is_er (arity_error (Py.upper v)) = true).
  { simpl in Hv. destruct Hv as [<-|[<-|[]]]; split; reflexivity. }
  destruct (Nat.eqb_spec (List.length rest) 2) as [L|L].
  - destruct rest as [|ref [|amt [|z r]]]; try discriminate. cbn [nth].
    destruct (Py.int amt) as [a|] eqn:Hi.
    + assert (Ha := account_args_amount v ref amt a Hv Hi).
      destruct (Nat.eq_dec (List.length (Py.split_on "/" ref)) 2) as [E|E].
      * destruct (Py.split_on "/" ref) as [|acct [|ip [|p3 ps]]] eqn:Hs;
          try discriminate.
        destruct (route command address s v _ ref (Some a) acct ip H Ha Hs)
          as (resp & s' & Hp & Hm).
        exists resp, s'.
        destruct (srv_get_local_ip server (fst s)) as [[local|e] w1] eqn:Hl.
        -- destruct (String.eqb_spec ip local) as [<- | Hne].
           ++ destruct Hm as [w2 ->].
              exists [GetLocalIp; local_call (Py.upper v) acct (Some a)].
              split; [exact Hp|]. split; [reflexivity|].
              assert (Hsa : store_amounts
                              [GetLocalIp; local_call (Py.upper v) acct (Some a)]
                            = [a])
                by (simpl in Hv; destruct Hv as [<-|[<-|[]]]; reflexivity).
              split; [rewrite Hsa; simpl; intuition|].
              intros ref' amt' acct' ip' local' w1' [= <- <-] Hs'.
              rewrite Hs in Hs'. injection Hs' as <- <-.
              intros [= <- <-]. rewrite String.eqb_refl.
              split; [reflexivity|]. split; [exact Hsa|].
              intros w3 Hst.
              assert (Q := amount_local command address s v ref amt a acct ip
                             w1 H Hv Hi Hs Hl).
              cbv zeta in Q. rewrite Hst, Hp in Q.
              injection Q as -> ->. now split.
           ++ destruct (srv_forward_to_peer _ _ _ _) as [res w2].
              destruct Hm as [-> _]. eexists. split; [exact Hp|].
              split; [reflexivity|]. split; [simpl; intuition|].
              intros ref' amt' acct' ip' local' w1' [= <- <-] Hs'.
              rewrite Hs in Hs'. injection Hs' as <- <-.
              intros [= <- <-].
              apply String.eqb_neq in Hne. rewrite Hne. now split.
        -- destruct Hm as [-> _]. eexists. split; [exact Hp|].
           split; [reflexivity|]. split; [simpl; intuition|].
           intros ref' amt' acct' ip' local' w1' _ _ [=].
      * exists (format_error (Py.upper v)), s, [].
        rewrite (process_bad_reference _ _ _ _ _ _ _ H Ha E).
        rewrite app_nil_r. split; [reflexivity|]. split; [reflexivity|].
        split; [simpl; intuition|].
        intros ref' amt' acct' ip' local' w1' [= <- <-] Hs'.
        rewrite Hs' in E. now destruct E.
    + split; [|exact Her]. now apply process_bad_amount with ref amt.
  - assert (Hp : process command address s = (Ret (arity_error (Py.upper v)), s))
      by (apply process_arity with rest; [exact H | left; now split]).
    destruct (Py.int (nth 1 rest "")) as [a|].
    + exists (arity_error (Py.upper v)), s, []. rewrite app_nil_r.
      split; [exact Hp|]. split; [reflexivity|]. split; [simpl; intuition|].
      intros ref' amt' acct' ip' local' w1' ->. now destruct L.
    + split; [exact Hp | exact Her].
Qed.



Lemma not_in_cons {A} (x a : A) l : ~ In x (a :: l) -> x <> a /\ ~ In x l.
Proof. simpl. intuition. Qed.

(** C6, amended.  An empty line is answered "ER Invalid command".  An
    account verb with the wrong number of arguments is answered with the
    format error of that verb, and a first token that is no verb with
    "ER Unknown command"; in these three cases the state is untouched,
    so nothing is executed.  The verbs BC, AC, BA and BN do not look at
    what follows them: such a line is processed exactly as the verb
    alone. *)
Theorem argument_count_check command address s :
  (Py.split (Py.strip command) = [] ->
   process command address s = (Ret "ER Invalid command", s))
  /\ forall v rest,
      Py.split (Py.strip command) = v :: rest ->
      (In (Py.upper v) ["AD"; "AW"] -> List.length rest <> 2%nat ->
       process command address s = (Ret (arity_error (Py.upper v)), s)
       /\ is_er (arity_error (Py.upper v)) = true)
      /\ (In (Py.upper v) ["AB"; "AR"] -> List.length rest <> 1%nat ->
          process command address s = (Ret (arity_error (Py.upper v)), s)
          /\ is_er (arity_error (Py.upper v)) = true)
      /\ (In (Py.upper v) bare_verbs ->
          process command address s = process (Py.upper v) address s)
      /\ (~ In (Py.upper v) (account_verbs ++ bare_verbs) ->
          process command address s = (Ret "ER Unknown command", s)).
Proof.
  split; [apply process_blank|].
  intros v rest H. split; [|split; [|split]].
  - intros Hv Hn. split.
    + apply process_arity with rest; [exact H | left; now split].
    + simpl in Hv. destruct Hv as [<-|[<-|[]]]; reflexivity.
  - intros Hv Hn. split.
    + apply process_arity with rest; [exact H | right; now split].
    + simpl in Hv. destruct Hv as [<-|[<-|[]]]; reflexivity.
  - intros Hv. rewrite (process_dispatch _ _ _ _ _ H).
    destruct (dispatch_bare (v :: rest) address) as (D1 & D2 & D3 & D4).
    unfold bare_verbs in Hv. simpl in Hv.
    destruct Hv as [<-|[<-|[<-|[<-|[]]]]];
      match goal with
      | |- context [CommandHandler.dispatch server ?verb (v :: rest)] =>
          rewrite (process_dispatch verb address s verb [] eq_refl);
          change (Py.upper verb) with verb;
          destruct (dispatch_bare [verb] address) as (E1 & E2 & E3 & E4)
      end;
      rewrite ?D1, ?D2, ?D3, ?D4, ?E1, ?E2, ?E3, ?E4; reflexivity.
  - intros Hv. rewrite (process_dispatch _ _ _ _ _ H).
    unfold account_verbs, bare_verbs in Hv. cbn [app] in Hv.
    repeat (apply not_in_cons in Hv; destruct Hv as [? Hv]).
    unfold CommandHandler.dispatch.
    repeat match goal with
           | N : Py.upper v <> ?c |- _ =>
               apply String.eqb_neq in N; rewrite N; clear N
           end.
    reflexivity.
Qed.

(** C8.  [process_command] returns a response for every command line,
    client address, server object and state: it never raises.  When the
    handler of the verb raises, whatever the exception, the response is
    "ER Internal processing error", and the state is the one the handler
    left. *)
Theorem process_command_never_raises command address s :
  exists resp s',
    process command address s = (Ret resp, s') /\
    forall v rest e s1,
      Py.split (Py.strip command) = v :: rest ->
      CommandHandler.dispatch server (Py.upper v) (v :: rest) address s
      = (Raise e, s1) ->
      resp = "ER Internal processing error" /\ s' = s1.
Proof.
  destruct (Py.split (Py.strip command)) as [|v rest] eqn:H.
  - exists "ER Invalid command", s. split; [now apply process_blank|].
    discriminate.
  - rewrite (process_dispatch _ _ _ _ _ H).
    destruct (CommandHandler.dispatch _ _ _ _ _) as [[r|e] s1] eqn:D.
    + exists r, s1. split; [reflexivity|].
      intros v' rest' e' s1' [= <- <-] D'. rewrite D in D'. discriminate.
    + exists "ER Internal processing error", s1. split; [reflexivity|].
      intros v' rest' e' s1' [= <- <-] D'. rewrite D in D'.
      injection D' as _ <-. now split.
Qed.

End Router.

(** ** The peer forwarder *)

Section Forwarder.

Variable cfg : Config.
Variables peer_ip command : string.

Local Abbreviation payload := (command ++ Py.str_nl).

(** The loop of [forward_to_peer] over any list of ports: it returns,
    leaves the database alone, and its events are those of [probe]. *)
Lemma forward_loop start ports w :
  exists resp w' evs,
    for_in ports (BankServer.try_port cfg peer_ip command start)
      (ret "ER Peer connection failed") w = (Ret resp, w')
    /\ events w' = (events w ++ evs)%list
    /\ db w' = db w
    /\ probe cfg peer_ip payload start ports evs resp.
Proof.
  revert w; induction ports as [|port ports IH]; intros w.
  - exists "ER Peer connection failed", w, []. rewrite app_nil_r.
    repeat split. constructor.
  - cbn [for_in]. unfold bind at 1. unfold BankServer.try_port at 1.
    unfold bind at 1. unfold time_time at 1.
    set (now := clock w (clock_reads w)).
    destruct (TIMEOUT cfg <? now - start) eqn:T.
    + apply Z.ltb_lt in T.
      eexists _, _, [Time now]. unfold ret. repeat split.
      now constructor.
    + apply Z.ltb_ge in T.
      unfold try_except_Exception, bind, exchange. cbn [peers attempts log].
      destruct (peers w (attempts w) peer_ip port (TIMEOUT cfg) payload)
        as [data|] eqn:P.
      * eexists _, _, [Time now; Connect peer_ip port (TIMEOUT cfg) payload (Some data)].
        unfold ret. split; [reflexivity|]. split.
        { cbn [events log]. now rewrite <- app_assoc. }
        split; [reflexivity|]. now constructor.
      * unfold ret.
        match goal with
        | |- context [for_in ports _ _ ?w2] =>
            destruct (IH w2) as (resp & w' & evs & E & Ev & Db & Pr)
        end.
        exists resp, w',
          (Time now :: Connect peer_ip port (TIMEOUT cfg) payload None :: evs).
        split; [exact E|]. split.
        { rewrite Ev. cbn [events log]. now rewrite <- !app_assoc. }
        split; [rewrite Db; reflexivity|]. now constructor.
Qed.

Lemma forward_probe w :
  let start := clock w (clock_reads w) in
  exists resp w' evs,
    BankServer.forward_to_peer cfg peer_ip command w = (Ret resp, w')
    /\ events w' = (events w ++ Time start :: evs)%list
    /\ db w' = db w
    /\ probe cfg peer_ip payload start BankServer.possible_ports evs resp.
Proof.
  intros start. unfold BankServer.forward_to_peer, bind at 1.
  unfold time_time at 1. fold start.
  match goal with
  | |- context [for_in _ _ _ ?w1] =>
      destruct (forward_loop start BankServer.possible_ports w1)
        as (resp & w' & evs & E & Ev & Db & Pr)
  end.
  exists resp, w', evs. split; [exact E|]. split.
  { rewrite Ev. cbn [events log]. now rewrite <- app_assoc. }
  split; [rewrite Db; reflexivity | exact Pr].
Qed.


Lemma probe_attempts start ports evs resp :
  probe cfg peer_ip payload start ports evs resp ->
  forall last now timeout,
    In (now, timeout) (attempts_of last evs) ->
    now - start <= TIMEOUT cfg /\ timeout = TIMEOUT cfg.
Proof.
  induction 1; intros last t tm Hin; simpl in Hin.
  - contradiction.
  - contradiction.
  - destruct Hin as [[= <- <-]|[]]. now split.
  - destruct Hin as [[= <- <-]|Hin]; [now split|]. eapply IHprobe; eassumption.
Qed.

Lemma probe_expired start ports evs resp :
  probe cfg peer_ip payload start ports evs resp ->
  forall pre t post,
    evs = (pre ++ Time t :: post)%list ->
    TIMEOUT cfg < t - start ->
    post = [] /\ resp = "ER Request timeout".
Proof.
  induction 1; intros pre t post E Ht.
  - now destruct pre.
  - destruct pre as [|x pre]; simpl in E.
    + injection E as _ <-. now split.
    + injection E as _ E. now destruct pre.
  - destruct pre as [|x [|y pre]]; simpl in E.
    + injection E as E _. lia.
    + discriminate.
    + injection E as _ _ E. now destruct pre.
  - destruct pre as [|x [|y pre]]; simpl in E.
    + injection E as E _. lia.
    + discriminate.
    + injection E as _ _ E. eapply IHprobe; eassumption.
Qed.

Lemma probe_connects start ports evs resp :
  probe cfg peer_ip payload start ports evs resp ->
  exists k, (k <= List.length ports)%nat /\
    let failed := map (fun p => (p, @None string)) (firstn k ports) in
    (connects evs = failed /\ k = List.length ports
       /\ resp = "ER Peer connection failed"
     \/ connects evs = failed /\ (k < List.length ports)%nat
       /\ resp = "ER Request timeout"
     \/ exists data,
         (k < List.length ports)%nat
         /\ connects evs = (failed ++ [(nth k ports 0, Some data)])%list
         /\ resp = Py.strip data).
Proof.
  induction 1.
  - exists 0%nat. split; [simpl; lia|]. left. now repeat split.
  - exists 0%nat. split; [simpl; lia|]. right; left. simpl.
    repeat split. lia.
  - exists 0%nat. split; [simpl; lia|]. right; right. exists data. simpl.
    repeat split. lia.
  - destruct IHprobe as (k & Hk & [(C & K & R)|[(C & K & R)|(data & K & C & R)]]);
      exists (S k); (split; [simpl; lia|]); cbn [connects firstn map nth List.length].
    + left. rewrite C. repeat split; [lia | exact R].
    + right; left. rewrite C. repeat split; [lia | exact R].
    + right; right. exists data. rewrite C. repeat split; [lia | exact R].
Qed.

Lemma probe_no_repo start ports evs resp :
  probe cfg peer_ip payload start ports evs resp ->
  forallb (fun e => negb (is_repo_event e)) evs = true.
Proof. induction 1; simpl; auto. Qed.

(** The events of [probe] written out: the turns that fail, each a
    reading within the budget and a connection to the next port, and
    then what ends the loop. *)
Lemma probe_turns start ports evs resp :
  probe cfg peer_ip payload start ports evs resp ->
  exists readings last,
    (List.length readings <= List.length ports)%nat
    /\ Forall (fun now => now - start <= TIMEOUT cfg) readings
    /\ evs = (turn_events cfg peer_ip payload ports (failed_turns readings)
              ++ last)%list
    /\ ((exists now data,
           (List.length readings < List.length ports)%nat
           /\ now - start <= TIMEOUT cfg
           /\ last = [Time now;
                      Connect peer_ip (nth (List.length readings) ports 0)
                        (TIMEOUT cfg) payload (Some data)]
           /\ resp = Py.strip data)
        \/ (List.length readings = List.length ports
            /\ last = [] /\ resp = "ER Peer connection failed")
        \/ (exists now,
             (List.length readings < List.length ports)%nat
             /\ last = [Time now] /\ TIMEOUT cfg < now - start
             /\ resp = "ER Request timeout")).
Proof.
  induction 1.
  - exists [], []. split; [simpl; lia|]. split; [constructor|].
    split; [reflexivity|]. right; left. now repeat split.
  - exists [], [Time now]. split; [simpl; lia|]. split; [constructor|].
    split; [reflexivity|]. right; right. exists now. simpl.
    repeat split; [lia | assumption].
  - exists [], [Time now; Connect peer_ip port (TIMEOUT cfg) payload (Some data)].
    split; [simpl; lia|]. split; [constructor|]. split; [reflexivity|].
    left. exists now, data. simpl. repeat split; [lia | assumption].
  - destruct IHprobe as (readings & last & L & F & -> & C).
    exists (now :: readings), last. split; [simpl; lia|].
    split; [now constructor|]. split; [reflexivity|].
    cbn [List.length nth].
    destruct C as [(t & data & K & B & -> & ->)|[(K & -> & ->)|(t & K & -> & T & ->)]].
    + left. exists t, data. repeat split; [lia | assumption].
    + right; left. repeat split. lia.
    + right; right. exists t. repeat split; [lia | assumption].
Qed.

Lemma turn_events_nil ports : turn_events cfg peer_ip payload ports [] = [].
Proof. now destruct ports. Qed.

Lemma turn_events_snoc ports turns now reply :
  (List.length turns < List.length ports)%nat ->
  turn_events cfg peer_ip payload ports (turns ++ [(now, reply)])
  = (turn_events cfg peer_ip payload ports turns
     ++ [Time now;
         Connect peer_ip (nth (List.length turns) ports 0) (TIMEOUT cfg)
           payload reply])%list.
Proof.
  revert turns; induction ports as [|port ports IH]; intros turns L.
  - simpl in L. lia.
  - destruct turns as [|[t r] turns];
      [cbn [app turn_events List.length nth]; now rewrite turn_events_nil|].
    cbn [app turn_events List.length nth]. rewrite IH; [reflexivity|].
    simpl in L. lia.
Qed.

(** C4, amended.  [forward_to_peer] reads the clock once at the start
    and then, at every turn of its loop, once more before anything
    else: each connection attempt comes right after a reading of its
    own.  An attempt is made only when the time elapsed at that reading
    does not exceed the budget, and its timeout is the whole budget
    [TIMEOUT], whatever has elapsed.  A reading that exceeds the budget
    is the last thing the forwarder does: no attempt follows, and the
    response is "ER Request timeout".  The forwarder does not give up
    otherwise: when no reading exceeds the budget it goes through all
    eleven ports or stops at an attempt that received data. *)
Theorem forward_budget_check w :
  let start := clock w (clock_reads w) in
  exists resp w' turns stop,
    let evs :=
      (turn_events cfg peer_ip payload BankServer.possible_ports turns
       ++ stop)%list in
    BankServer.forward_to_peer cfg peer_ip command w = (Ret resp, w')
    /\ events w' = (events w ++ Time start :: evs)%list
    /\ (forall now timeout,
          In (now, timeout) (attempts_of start evs) ->
          now - start <= TIMEOUT cfg /\ timeout = TIMEOUT cfg)
    /\ (forall pre t post,
          evs = (pre ++ Time t :: post)%list ->
          TIMEOUT cfg < t - start ->
          post = [] /\ resp = "ER Request timeout")
    /\ (List.length turns <= 11)%nat
    /\ Forall (fun turn => fst turn - start <= TIMEOUT cfg) turns
    /\ (stop = []
        \/ exists now,
            stop = [Time now] /\ TIMEOUT cfg < now - start
            /\ resp = "ER Request timeout")
    /\ (stop = [] ->
        List.length turns = 11%nat
        \/ exists now data, last turns (0, None) = (now, Some data)).
Proof.
  intros start.
  destruct (forward_probe w) as (resp & w' & evs & E & Ev & _ & Pr).
  fold start in Ev, Pr.
  destruct (probe_turns _ _ _ _ Pr) as (readings & last_ & L & F & Hev & C).
  change (List.length BankServer.possible_ports) with 11%nat in L, C.
  assert (Ff : Forall (fun turn : Z * option string =>
                         fst turn - start <= TIMEOUT cfg)
                 (failed_turns readings)).
  { unfold failed_turns. apply Forall_map. exact F. }
  assert (Old : (forall now timeout,
                   In (now, timeout) (attempts_of start evs) ->
                   now - start <= TIMEOUT cfg /\ timeout = TIMEOUT cfg)
                /\ (forall pre t post,
                      evs = (pre ++ Time t :: post)%list ->
                      TIMEOUT cfg < t - start ->
                      post = [] /\ resp = "ER Request timeout")).
  { split; [eapply probe_attempts | eapply probe_expired]; eassumption. }
  destruct Old as [O1 O2].
  assert (Lf : List.length (failed_turns readings) = List.length readings)
    by (unfold failed_turns; apply length_map).
  destruct C as [(t & data & K & B & Hl & R)|[(K & Hl & R)|(t & K & Hl & T & R)]].
  - assert (Sh : (turn_events cfg peer_ip payload BankServer.possible_ports
                    (failed_turns readings ++ [(t, Some data)]) ++ [])%list
                 = evs).
    { rewrite app_nil_r, turn_events_snoc
        by (rewrite Lf; exact K).
      rewrite Lf, Hev, Hl. reflexivity. }
    exists resp, w', (failed_turns readings ++ [(t, Some data)])%list, [].
    cbv zeta. rewrite Sh.
    split; [exact E|]. split; [exact Ev|]. split; [exact O1|].
    split; [exact O2|].
    split; [rewrite length_app, Lf; simpl; lia|].
    split; [apply Forall_app; split; [exact Ff | now repeat constructor]|].
    split; [now left|]. intros _. right. exists t, data.
    now rewrite last_last.
  - assert (Sh : (turn_events cfg peer_ip payload BankServer.possible_ports
                    (failed_turns readings) ++ [])%list = evs)
      by (rewrite Hev, Hl; reflexivity).
    exists resp, w', (failed_turns readings), []. cbv zeta. rewrite Sh.
    split; [exact E|]. split; [exact Ev|]. split; [exact O1|].
    split; [exact O2|].
    split; [rewrite Lf; lia|].
    split; [exact Ff|]. split; [now left|]. intros _. left.
    now rewrite Lf.
  - assert (Sh : (turn_events cfg peer_ip payload BankServer.possible_ports
                    (failed_turns readings) ++ [Time t])%list = evs)
      by (rewrite Hev, Hl; reflexivity).
    exists resp, w', (failed_turns readings), [Time t]. cbv zeta. rewrite Sh.
    split; [exact E|]. split; [exact Ev|]. split; [exact O1|].
    split; [exact O2|].
    split; [rewrite Lf; lia|].
    split; [exact Ff|]. split; [right; exists t; auto|].
    discriminate.
Qed.


End Forwarder.

(** ** Account creation *)

Lemma account_exists_spec n w :
  exists found w',
    AccountRepository.account_exists n w = (Ret found, w')
    /\ events w' = (events w ++ [RepoAccountExists n found])%list
    /\ entropy w' = entropy w /\ draws w' = draws w.
Proof.
  unfold AccountRepository.account_exists, logged, try_except_Exception, bind,
    AccountRepository.connect, AccountRepository.get_rows, ret.
  destruct (db_fails (db w) (db_uses (db w)));
    eexists _, _; repeat split; reflexivity.
Qed.

Lemma repo_create_account_spec n ip w :
  exists ok w',
    AccountRepository.create_account n ip w = (Ret ok, w')
    /\ events w' = (events w ++ [RepoCreateAccount n ip ok])%list
    /\ entropy w' = entropy w /\ draws w' = draws w
    /\ (ok = true ->
        In {| account_number := n; ip_address := ip; balance := 0 |}
          (rows (db w'))).
Proof.
  unfold AccountRepository.create_account, logged, try_except_Exception, bind,
    AccountRepository.connect, AccountRepository.sql_insert,
    AccountRepository.get_rows, AccountRepository.set_rows, ret, raise, bind.
  destruct (db_fails (db w) (db_uses (db w))).
  - eexists _, _; repeat split; try reflexivity. discriminate.
  - cbn [db set_db rows].
    destruct (existsb (AccountRepository.has_number n) (rows (db w))).
    + eexists _, _; repeat split; try reflexivity. discriminate.
    + eexists _, _; repeat split; try reflexivity.
      intros _. cbn. apply in_or_app. right. now left.
Qed.

Lemma drawn_succ w k :
  drawn w (S k)
  = 10000 + entropy w (draws w) mod 90000
    :: map (fun i => 10000 + entropy w (S (draws w) + i) mod 90000) (seq 0 k).
Proof.
  unfold drawn. cbn [seq map]. rewrite Nat.add_0_r. f_equal.
  rewrite <- seq_shift, map_map. apply map_ext. intros i.
  now rewrite Nat.add_succ_r.
Qed.

(** The loop of [create_account] over any number of turns. *)
Lemma create_loop ip (turns : list Z) w :
  exists resp w' k,
    for_in turns
      (fun _ : Z =>
         bind (randint 10000 99999) (fun account_number =>
         bind (AccountRepository.account_exists account_number) (fun found =>
         if negb found then
           bind (AccountRepository.create_account account_number ip) (fun success =>
           if success
           then ret (Some ("AC " ++ Py.str account_number ++ "/" ++ ip))
           else ret (Some "ER Database error"))
         else ret None)))
      (ret "ER Unable to create account") w = (Ret resp, w')
    /\ (k <= List.length turns)%nat
    /\ (k = List.length turns
          /\ events w' = (events w ++ flat_map taken (drawn w k))%list
          /\ resp = "ER Unable to create account"
        \/ (k < List.length turns)%nat
          /\ exists ok,
              let n := 10000 + entropy w (draws w + k) mod 90000 in
              events w'
              = (events w ++ flat_map taken (drawn w k)
                   ++ [Randint 10000 99999 n; RepoAccountExists n false;
                       RepoCreateAccount n ip ok])%list
              /\ resp = (if ok then "AC " ++ Py.str n ++ "/" ++ ip
                         else "ER Database error")
              /\ (ok = true ->
                  In {| account_number := n; ip_address := ip; balance := 0 |}
                    (rows (db w')))).
Proof.
  revert w; induction turns as [|t turns IH]; intros w.
  - exists "ER Unable to create account", w, 0%nat.
    split; [reflexivity|]. split; [simpl; lia|]. left.
    simpl. rewrite app_nil_r. now repeat split.
  - cbn [for_in]. unfold bind at 1. unfold bind at 1. unfold randint at 1.
    change (99999 - 10000 + 1) with 90000.
    set (n := 10000 + entropy w (draws w) mod 90000).
    unfold bind at 1.
    match goal with
    | |- context [AccountRepository.account_exists n ?w1] =>
        set (w1' := w1);
        destruct (account_exists_spec n w1') as (found & w2 & E & Ev & En & Dr)
    end.
    rewrite E. destruct found; cbn [negb].
    + unfold ret at 1.
      destruct (IH w2) as (resp & w' & k & L & Hk & Hc).
      exists resp, w', (S k). split; [exact L|]. split; [simpl; lia|].
      assert (D : drawn w (S k) = n :: drawn w2 k).
      { rewrite drawn_succ. fold n. f_equal. unfold drawn.
        rewrite En, Dr. reflexivity. }
      assert (Ev2 : events w2 = (events w ++ taken n)%list).
      { rewrite Ev. subst w1'. cbn [events log]. now rewrite <- app_assoc. }
      destruct Hc as [(K & Evs & R)|(K & ok & Evs & R & I)].
      * left. split; [simpl; lia|]. split; [|exact R].
        rewrite Evs, Ev2, D. cbn [flat_map]. now rewrite <- !app_assoc.
      * right. split; [simpl; lia|]. exists ok.
        assert (N : entropy w (draws w + S k) = entropy w2 (draws w2 + k)).
        { rewrite En, Dr. subst w1'. cbn [entropy draws log]. f_equal. lia. }
        cbv zeta. rewrite N. split; [|split; [exact R | exact I]].
        rewrite Evs, Ev2, D. cbn [flat_map]. now rewrite <- !app_assoc.
    + destruct (repo_create_account_spec n ip w2)
        as (ok & w3 & E3 & Ev3 & _ & _ & I).
      unfold bind at 1. rewrite E3.
      exists (if ok then "AC " ++ Py.str n ++ "/" ++ ip else "ER Database error"),
        w3, 0%nat.
      split; [now destruct ok|]. split; [simpl; lia|]. right.
      split; [simpl; lia|]. exists ok. cbv zeta. rewrite Nat.add_0_r. fold n.
      split; [|split; [reflexivity | exact I]].
      rewrite Ev3, Ev. subst w1'. cbn [events log drawn flat_map seq map app].
      now rewrite <- !app_assoc.
Qed.

(** C7.  [create_account] always returns.  It draws account numbers
    with [randint 10000 99999]: every draw lies between 10000 and 99999,
    and every number of that range is the image of exactly one of the
    90000 residues of the generator's draw.  It makes [k + 1] draws at
    most, [k <= 5], asks the repository about each number drawn, and
    stops at the first one reported absent: that number is handed to
    the repository's [create_account] with the client address, and the
    response is "AC number/address" when the row was inserted (the row
    is then in the table with balance 0) and "ER Database error" when
    not.  When five numbers in a row are reported present nothing is
    created and the response is "ER Unable to create account". *)
Theorem create_account_bounded_retry (ip : string) (w : World) :
  exists resp w' k,
    BankServer.create_account ip w = (Ret resp, w')
    /\ (k <= 5)%nat
    /\ Forall (fun n => 10000 <= n <= 99999) (drawn w (S k))
    /\ (forall n, 10000 <= n <= 99999 ->
        exists! e, 0 <= e < 90000 /\ 10000 + e mod 90000 = n)
    /\ (k = 5%nat
          /\ events w' = (events w ++ flat_map taken (drawn w 5))%list
          /\ resp = "ER Unable to create account"
        \/ (k < 5)%nat
          /\ exists ok,
              let n := 10000 + entropy w (draws w + k) mod 90000 in
              events w'
              = (events w ++ flat_map taken (drawn w k)
                   ++ [Randint 10000 99999 n; RepoAccountExists n false;
                       RepoCreateAccount n ip ok])%list
              /\ resp = (if ok then "AC " ++ Py.str n ++ "/" ++ ip
                         else "ER Database error")
              /\ (ok = true ->
                  In {| account_number := n; ip_address := ip; balance := 0 |}
                    (rows (db w')))).
Proof.
  destruct (create_loop ip (Py.range 0 5) w) as (resp & w' & k & E & Hk & Hc).
  change (List.length (Py.range 0 5)) with 5%nat in *.
  exists resp, w', k. split; [exact E|]. split; [exact Hk|]. split.
  { unfold drawn. apply Forall_forall. intros n Hn.
    apply in_map_iff in Hn. destruct Hn as (i & <- & _).
    assert (B := Z.mod_pos_bound (entropy w (draws w + i)) 90000). lia. }
  split.
  { intros n Hn. exists (n - 10000). split.
    - split; [lia|]. rewrite Z.mod_small; lia.
    - intros e [He Hm]. rewrite Z.mod_small in Hm; lia. }
  destruct Hc as [(K & Evs & R)|(K & ok & Hok)].
  - left. subst k. now repeat split.
  - right. split; [exact K|]. exists ok. exact Hok.
Qed.

(** ** Commands for accounts of another bank *)

Lemma uint_no_slash d : has_char "/" (NilEmpty.string_of_uint d) = false.
Proof. induction d; simpl; auto. Qed.

Lemma str_no_slash n : has_char "/" (Py.str n) = false.
Proof.
  destruct n as [|p|p].
  - reflexivity.
  - destruct (str_pos p) as [-> _]. apply uint_no_slash.
  - rewrite str_neg. destruct (str_pos p) as [-> _]. simpl.
    apply uint_no_slash.
Qed.

Section Node.

Variable cfg : Config.

Local Abbreviation node := (BankServer.ops cfg).

(** An account command with well-formed arguments whose bank address
    is not the node's goes to the forwarder and nowhere else. *)
Lemma foreign_route command address s v rest ref amount acct ip :
  Py.split (Py.strip command) = v :: rest ->
  account_args (Py.upper v) rest = Some (ref, amount) ->
  Py.split_on "/" ref = [acct; ip] ->
  ip <> HOST cfg ->
  let fwd := serialize (Py.upper v) ref amount in
  exists resp w',
    BankServer.forward_to_peer cfg ip fwd (fst s) = (Ret resp, w')
    /\ CommandHandler.process_command node command address s
       = (Ret resp, (w', (snd s ++ [GetLocalIp; ForwardToPeer ip fwd])%list))
    /\ db w' = db (fst s)
    /\ exists evs,
        events w' = (events (fst s) ++ evs)%list
        /\ forallb (fun e => negb (is_repo_event e)) evs = true.
Proof.
  intros H Ha Hs Hip fwd.
  destruct (route node command address s v rest ref amount acct ip H Ha Hs)
    as (resp & s' & Hp & Hm).
  cbn [srv_get_local_ip BankServer.ops] in Hm.
  unfold BankServer.get_local_ip, ret in Hm.
  apply String.eqb_neq in Hip. rewrite Hip in Hm.
  cbn [srv_forward_to_peer BankServer.ops] in Hm. fold fwd in Hm.
  destruct (forward_probe cfg ip fwd (fst s))
    as (r & w' & evs & E & Ev & Db & Pr).
  rewrite E in Hm. destruct Hm as [-> ->].
  exists r, w'. split; [exact E|]. split; [exact Hp|]. split; [exact Db|].
  eexists. split; [exact Ev|]. simpl. eapply probe_no_repo; eassumption.
Qed.

(** C3.  Take an AD, AW, AB or AR line with well-formed arguments whose
    account reference names a bank address other than the node's [HOST],
    compared as strings.  The forwarder is called, with that address and
    with the command written out again: the verb, the account reference
    as it was received (account number, slash, bank address), and for AD
    and AW the amount, written so that it reads back as the same
    integer.  The response of the forwarder is the response of the
    command.  The handler calls nothing but the local address and the
    forwarder; the database is left as it was and the repository is not
    used, whether or not a peer answered. *)
Theorem foreign_account_is_forwarded command address w cs v rest ref amount acct ip :
  Py.split (Py.strip command) = v :: rest ->
  account_args (Py.upper v) rest = Some (ref, amount) ->
  Py.split_on "/" ref = [acct; ip] ->
  ip <> HOST cfg ->
  let fwd := serialize (Py.upper v) ref amount in
  exists resp w',
    BankServer.forward_to_peer cfg ip fwd w = (Ret resp, w')
    /\ CommandHandler.process_command node command address (w, cs)
       = (Ret resp, (w', (cs ++ [GetLocalIp; ForwardToPeer ip fwd])%list))
    /\ ref = acct ++ "/" ++ ip
    /\ (forall a, amount = Some a -> Py.int (Py.str a) = Some a)
    /\ db w' = db w
    /\ exists evs,
        events w' = (events w ++ evs)%list
        /\ forallb (fun e => negb (is_repo_event e)) evs = true.
Proof.
  intros H Ha Hs Hip fwd.
  destruct (foreign_route command address (w, cs) v rest ref amount acct ip
              H Ha Hs Hip) as (resp & w' & E & Hp & Db & Hev).
  exists resp, w'. split; [exact E|]. split; [exact Hp|].
  split; [exact (split_on_two _ _ _ _ Hs)|].
  split; [intros a _; apply int_str|]. split; [exact Db | exact Hev].
Qed.

(** C9.  For a line that is not blank, [handle_client] reads the clock,
    lets the router process the command, and reads the clock again.
    When the second reading exceeds the first by more than [TIMEOUT],
    what is sent is "ER Processing timeout" and a line feed, not the
    router's response; the database is the one the router left, so
    whatever the router changed stays changed. *)
Theorem slow_command_gets_timeout_response line address w cs resp w2 cs2 :
  Py.strip line <> "" ->
  CommandHandler.process_command node (Py.strip line) address
    (snd (time_time w), cs) = (Ret resp, (w2, cs2)) ->
  TIMEOUT cfg < clock w2 (clock_reads w2) - clock w (clock_reads w) ->
  exists w3,
    BankServer.handle_client_line cfg line address (w, cs) = (Ret tt, (w3, cs2))
    /\ events w3
       = (events w2 ++ [Time (clock w2 (clock_reads w2));
                        Sent ("ER Processing timeout" ++ Py.str_nl)])%list
    /\ db w3 = db w2.
Proof.
  intros Hl Hp Ht.
  unfold BankServer.handle_client_line.
  apply String.eqb_neq in Hl. rewrite Hl.
  unfold bind at 1. unfold BankServer.on_world at 1. cbn [fst snd].
  destruct (time_time w) as [r0 w1] eqn:T0.
  assert (r0 = Ret (clock w (clock_reads w))) by (now injection T0).
  subst r0. cbn [snd] in Hp.
  unfold bind at 1. rewrite Hp.
  unfold bind at 1. unfold BankServer.on_world at 1. cbn [fst snd].
  unfold time_time at 1.
  apply Z.ltb_lt in Ht. rewrite Ht.
  unfold BankServer.on_world, sendall. cbn [fst snd].
  eexists. split; [reflexivity|]. split; [|reflexivity].
  cbn [events log]. now rewrite <- app_assoc.
Qed.

(** C10.  A successful AC answers "AC number/address" where the address
    is the one the client connected from, and the row it inserted
    carries that address.  When that address is not the node's [HOST],
    every later AD, AW, AB or AR line with well-formed arguments that
    uses the returned reference is handed to the forwarder, with the
    client's address as the peer, and its response is the forwarder's;
    the handler does not call the repository, and the database, where
    the account was created, is left as it was. *)
Theorem created_account_is_routed_to_client
    client_ip client_port w cs resp s1 ref :
  client_ip <> HOST cfg ->
  has_char "/" client_ip = false ->
  CommandHandler.process_command node "AC" (client_ip, client_port) (w, cs)
  = (Ret resp, s1) ->
  resp = "AC " ++ ref ->
  (exists n,
      10000 <= n <= 99999
      /\ ref = Py.str n ++ "/" ++ client_ip
      /\ In {| account_number := n; ip_address := client_ip; balance := 0 |}
           (rows (db (fst s1))))
  /\ forall command address s2 v rest amount,
      Py.split (Py.strip command) = v :: rest ->
      account_args (Py.upper v) rest = Some (ref, amount) ->
      let fwd := serialize (Py.upper v) ref amount in
      exists resp2 w2,
        BankServer.forward_to_peer cfg client_ip fwd (fst s2) = (Ret resp2, w2)
        /\ CommandHandler.process_command node command address s2
           = (Ret resp2,
              (w2, (snd s2 ++ [GetLocalIp; ForwardToPeer client_ip fwd])%list))
        /\ db w2 = db (fst s2).
Proof.
  intros Hip Hsl Hac Hresp.
  assert (Hn : exists n,
             10000 <= n <= 99999
             /\ ref = Py.str n ++ "/" ++ client_ip
             /\ In {| account_number := n; ip_address := client_ip; balance := 0 |}
                  (rows (db (fst s1)))).
  { rewrite (process_dispatch node "AC" _ _ "AC" [] eq_refl) in Hac.
    change (Py.upper "AC") with "AC" in Hac.
    destruct (dispatch_bare node ["AC"] (client_ip, client_port))
      as (_ & D & _).
    rewrite D in Hac. clear D.
    unfold CommandHandler.handle_ac, CommandHandler.create_account,
      CommandHandler.invoke in Hac.
    cbn [fst snd srv_create_account BankServer.ops] in Hac.
    destruct (create_loop client_ip (Py.range 0 5) w)
      as (r & w' & k & E & Hk & Hc).
    change (for_in (Py.range 0 5) _ _ w)
      with (BankServer.create_account client_ip w) in E.
    rewrite E in Hac. injection Hac as <- <-.
    destruct Hc as [(_ & _ & R)|(_ & ok & _ & R & I)].
    - rewrite R in Hresp. discriminate.
    - destruct ok; [|rewrite R in Hresp; discriminate].
      rewrite R in Hresp. injection Hresp as <-.
      exists (10000 + entropy w (draws w + k) mod 90000).
      split; [|split; [reflexivity | apply I; reflexivity]].
      assert (B := Z.mod_pos_bound (entropy w (draws w + k)) 90000). lia. }
  split; [exact Hn|].
  destruct Hn as (n & _ & -> & _).
  intros command address s2 v rest amount H Ha fwd.
  assert (Hs : Py.split_on "/" (Py.str n ++ "/" ++ client_ip)
               = [Py.str n; client_ip])
    by (apply split_on_join; [apply str_no_slash | exact Hsl]).
  destruct (foreign_route command address s2 v rest _ amount _ _ H Ha Hs Hip)
    as (resp2 & w2 & E & Hp & Db & _).
  exists resp2, w2. split; [exact E|]. split; [exact Hp | exact Db].
Qed.

End Node.

(** ** The model run on the sample node *)

(** A negative amount is parsed and handed to the repository: the
    deposit of -5 is carried out and answered "AD". *)
Lemma negative_amount_reaches_store :
  Py.int "-5" = Some (-5)
  /\ Sample.run Sample.still_world "AD 12345/127.0.0.1 -5"
     = (Ret "AD", [GetLocalIp; Deposit "12345" (-5)])
  /\ store_amounts [GetLocalIp; Deposit "12345" (-5)] = [-5].
Proof. repeat split; reflexivity. Qed.


(** With a budget of 5, a second attempt that starts when 3 have
    elapsed is still given a timeout of 5, more than the 2 that
    remain. *)
Lemma attempt_timeout_exceeds_remaining_budget :
  let (resp, w') :=
    BankServer.forward_to_peer Sample.cfg "10.0.0.9" "AB 1/10.0.0.9" Sample.world in
  clock Sample.world (clock_reads Sample.world) = 0
  /\ attempts_of 0 (events w') = [(0, 5); (3, 5)]
  /\ TIMEOUT Sample.cfg - (3 - 0) < 5.
Proof. vm_compute. repeat split. Qed.

(** Tokens after BC are ignored and the verb is executed; likewise
    after BN. *)
Lemma extra_tokens_after_bare_verb :
  Sample.run Sample.still_world "BC foo bar" = (Ret "BC 127.0.0.1", [GetLocalIp])
  /\ Sample.run Sample.still_world "BN 1" = (Ret "BN 1", [CountAccounts]).
Proof. split; reflexivity. Qed.

Lemma amount_token_guard_witness :
  CommandHandler.process_command (BankServer.ops Sample.cfg)
    "AD 12345/127.0.0.1 abc" Sample.client (Sample.still_world, [])
  = (Ret "ER Invalid deposit format", (Sample.still_world, []))
  /\ exists s',
      CommandHandler.process_command (BankServer.ops Sample.cfg)
        "AD 12345/127.0.0.1 -5" Sample.client (Sample.still_world, [])
      = (Ret "AD", s')
      /\ snd s' = [GetLocalIp; Deposit "12345" (-5)].
Proof.
  split.
  - apply (amount_token_guard (BankServer.ops Sample.cfg)
             "AD 12345/127.0.0.1 abc" Sample.client (Sample.still_world, [])
             "AD" ["12345/127.0.0.1"; "abc"]).
    + reflexivity.
    + left. reflexivity.
  - assert (T := amount_token_guard (BankServer.ops Sample.cfg)
                   "AD 12345/127.0.0.1 -5" Sample.client
                   (Sample.still_world, [])
                   "AD" ["12345/127.0.0.1"; "-5"] eq_refl (or_introl eq_refl)).
    change (Py.int (nth 1 ["12345/127.0.0.1"; "-5"] "")) with (Some (-5)) in T.
    destruct T as (resp & s' & cs & E & Hs & _ & R).
    assert (R' := R "12345/127.0.0.1" "-5" "12345" "127.0.0.1" "127.0.0.1"
                    Sample.still_world eq_refl eq_refl eq_refl).
    change ("127.0.0.1" =? "127.0.0.1")%string with true in R'.
    cbv iota in R'. destruct R' as (Hcs & _ & Hr).
    destruct (Hr (snd (AccountRepository.deposit "12345" (-5)
                         Sample.still_world))) as [-> _].
    + change (Py.upper "AD" =? "AD")%string with true. cbv iota.
      rewrite (surjective_pairing
                 (repo_deposit
                    (srv_account_repository (BankServer.ops Sample.cfg))
                    "12345" (-5) Sample.still_world)) at 1.
      f_equal.
    + exists s'. split; [exact E|]. rewrite Hs, Hcs. reflexivity.
Defined.


Lemma foreign_account_is_forwarded_witness :
  exists resp w',
    BankServer.forward_to_peer Sample.cfg "10.0.0.9" "AD 77/10.0.0.9 5"
      Sample.still_world = (Ret resp, w')
    /\ CommandHandler.process_command (BankServer.ops Sample.cfg)
         "ad 77/10.0.0.9 +5" Sample.client (Sample.still_world, [])
       = (Ret resp,
          (w', [GetLocalIp; ForwardToPeer "10.0.0.9" "AD 77/10.0.0.9 5"]))
    /\ db w' = db Sample.still_world.
Proof.
  destruct (foreign_account_is_forwarded Sample.cfg
              "ad 77/10.0.0.9 +5" Sample.client Sample.still_world []
              "ad" ["77/10.0.0.9"; "+5"] "77/10.0.0.9" (Some 5) "77" "10.0.0.9")
    as (resp & w' & E & P & _ & _ & Db & _).
  - reflexivity.
  - reflexivity.
  - reflexivity.
  - vm_compute. discriminate.
  - exists resp, w'. split; [exact E|]. split; [exact P | exact Db].
Defined.

Lemma forward_budget_check_witness :
  fst (BankServer.forward_to_peer Sample.cfg "10.0.0.9" "AB 1/10.0.0.9" Sample.world)
  = Ret "ER Request timeout".
Proof.
  destruct (forward_budget_check Sample.cfg "10.0.0.9" "AB 1/10.0.0.9" Sample.world)
    as (resp & w' & turns & stop & E & Ev & _ & X & _).
  rewrite E. cbn [fst]. f_equal.
  assert (Hev : events w'
                = events (snd (BankServer.forward_to_peer Sample.cfg
                                 "10.0.0.9" "AB 1/10.0.0.9" Sample.world)))
    by (rewrite E; reflexivity).
  rewrite Hev in Ev. clear Hev.
  vm_compute in Ev. injection Ev as Ev.
  refine (proj2 (X [_; _; _; _] 6 [] _ _)).
  - vm_compute. symmetry. exact Ev.
  - vm_compute. reflexivity.
Defined.

Lemma argument_count_check_witness :
  CommandHandler.process_command (BankServer.ops Sample.cfg)
    "AB 12345/127.0.0.1 7" Sample.client (Sample.still_world, [])
  = (Ret "ER Invalid AB format", (Sample.still_world, []))
  /\ CommandHandler.process_command (BankServer.ops Sample.cfg)
       "ba now" Sample.client (Sample.still_world, [])
     = CommandHandler.process_command (BankServer.ops Sample.cfg)
         "BA" Sample.client (Sample.still_world, []).
Proof.
  destruct (proj2 (argument_count_check (BankServer.ops Sample.cfg)
                     "AB 12345/127.0.0.1 7" Sample.client (Sample.still_world, []))
              "AB" ["12345/127.0.0.1"; "7"] eq_refl) as (_ & A & _).
  destruct (proj2 (argument_count_check (BankServer.ops Sample.cfg)
                     "ba now" Sample.client (Sample.still_world, []))
              "ba" ["now"] eq_refl) as (_ & _ & B & _).
  split.
  - apply A.
    + left. reflexivity.
    + simpl. discriminate.
  - apply B. right. right. left. reflexivity.
Defined.

Lemma create_account_bounded_retry_witness :
  exists w' n,
    BankServer.create_account "10.0.0.7" Sample.world
    = (Ret "AC 12346/10.0.0.7", w')
    /\ In {| account_number := n; ip_address := "10.0.0.7"; balance := 0 |}
         (rows (db w')).
Proof.
  destruct (create_account_bounded_retry "10.0.0.7" Sample.world)
    as (resp & w' & k & E & _ & _ & _ & H).
  assert (Hr := f_equal fst E). vm_compute in Hr. injection Hr as <-.
  destruct H as [(_ & _ & R)|(_ & ok & Hok)]; [discriminate R|].
  cbv zeta in Hok. destruct Hok as (_ & R & I).
  destruct ok; [|discriminate R].
  exists w'. eexists. split; [exact E | apply I; reflexivity].
Defined.

Lemma process_command_never_raises_witness :
  CommandHandler.dispatch Sample.faulty "AC" ["AC"] Sample.client (tt, [])
  = (Raise (OtherError "RuntimeError"), (tt, [CreateAccount "10.0.0.7"]))
  /\ CommandHandler.process_command Sample.faulty "AC" Sample.client (tt, [])
     = (Ret "ER Internal processing error", (tt, [CreateAccount "10.0.0.7"])).
Proof.
  split; [reflexivity|].
  destruct (process_command_never_raises Sample.faulty "AC" Sample.client (tt, []))
    as (resp & s' & E & X).
  destruct (X "AC" [] (OtherError "RuntimeError") (tt, [CreateAccount "10.0.0.7"])
              eq_refl eq_refl) as [-> ->].
  exact E.
Defined.

Lemma slow_command_gets_timeout_response_witness :
  exists w3,
    BankServer.handle_client_line Sample.cfg "AD 12345/127.0.0.1 50" Sample.client
      (Sample.slow_world, [])
    = (Ret tt, (w3, [GetLocalIp; Deposit "12345" 50]))
    /\ map balance (rows (db w3)) = [150]
    /\ events w3
       = [Time 0; RepoDeposit "12345" 50 true; Time 10;
          Sent ("ER Processing timeout" ++ Py.str_nl)].
Proof.
  destruct (CommandHandler.process_command (BankServer.ops Sample.cfg)
              (Py.strip "AD 12345/127.0.0.1 50") Sample.client
              (snd (time_time Sample.slow_world), []))
    as [r [w2 cs2]] eqn:P.
  assert (Hr := f_equal fst P). vm_compute in Hr. subst r.
  assert (Hc := f_equal (fun p => snd (snd p)) P). vm_compute in Hc. subst cs2.
  assert (Hw : w2 = fst (snd (CommandHandler.process_command
                                 (BankServer.ops Sample.cfg)
                                 (Py.strip "AD 12345/127.0.0.1 50") Sample.client
                                 (snd (time_time Sample.slow_world), []))))
    by (rewrite P; reflexivity).
  destruct (slow_command_gets_timeout_response Sample.cfg
              "AD 12345/127.0.0.1 50" Sample.client Sample.slow_world [] _ _ _
              ltac:(discriminate) P)
    as (w3 & E & Ev & Db).
  - rewrite Hw. vm_compute. reflexivity.
  - exists w3. split; [exact E|]. split.
    + rewrite Db, Hw. vm_compute. reflexivity.
    + rewrite Ev, Hw. vm_compute. reflexivity.
Defined.

Lemma created_account_is_routed_to_client_witness :
  exists resp2 w2,
    CommandHandler.process_command (BankServer.ops Sample.cfg)
      "AB 12346/10.0.0.7" Sample.client (Sample.still_world, [])
    = (Ret resp2,
       (w2, [GetLocalIp; ForwardToPeer "10.0.0.7" "AB 12346/10.0.0.7"]))
    /\ db w2 = db Sample.still_world.
Proof.
  destruct (CommandHandler.process_command (BankServer.ops Sample.cfg)
              "AC" ("10.0.0.7", 50000) (Sample.still_world, []))
    as [r s1] eqn:P.
  assert (Hr := f_equal fst P). vm_compute in Hr. subst r.
  destruct (created_account_is_routed_to_client Sample.cfg
              "10.0.0.7" 50000 Sample.still_world [] _ s1 "12346/10.0.0.7"
              ltac:(discriminate) eq_refl P eq_refl)
    as (_ & F).
  destruct (F "AB 12346/10.0.0.7" Sample.client (Sample.still_world, [])
              "AB" ["12346/10.0.0.7"] None eq_refl eq_refl)
    as (resp2 & w2 & _ & Hp & Db).
  exists resp2, w2. split; [exact Hp | exact Db].
Defined.

(* ================================================================== *)
(** * Further properties *)

(** ** The account repository *)

Lemma row_eta r d :
  d = 0 ->
  {| account_number := account_number r; ip_address := ip_address r;
     balance := balance r + d |} = r.
Proof. intros ->. destruct r; simpl. f_equal. lia. Qed.

Lemma adjust_zero cond rs : adjust cond 0 rs = rs.
Proof.
  unfold adjust. induction rs as [|r rs IH]; simpl; [reflexivity|].
  rewrite IH. destruct (cond r); [|reflexivity]. now rewrite row_eta.
Qed.

Lemma adjust_none cond d rs : filter cond rs = [] -> adjust cond d rs = rs.
Proof.
  unfold adjust. induction rs as [|r rs IH]; simpl; [reflexivity|].
  destruct (cond r); [discriminate|]. intros H. now rewrite IH.
Qed.

Lemma total_adjust cond d rs :
  total (adjust cond d rs) = total rs + d * Z.of_nat (List.length (filter cond rs)).
Proof.
  unfold total, adjust. induction rs as [|r rs IH]; simpl; [lia|].
  rewrite IH. destruct (cond r); simpl List.length; simpl balance; lia.
Qed.

Lemma numbers_adjust cond d rs : numbers (adjust cond d rs) = numbers rs.
Proof.
  unfold numbers, adjust. rewrite map_map. apply map_ext.
  intros r. now destruct (cond r).
Qed.

Lemma filter_number_in n rs :
  filter (AccountRepository.has_number n) rs <> [] <-> In n (numbers rs).
Proof.
  unfold numbers, AccountRepository.has_number.
  induction rs as [|r rs IH]; simpl; [tauto|].
  destruct (Z.eqb_spec (account_number r) n); simpl.
  - split; [now left | discriminate].
  - rewrite IH. tauto.
Qed.

Lemma filter_number_unique n rs :
  NoDup (numbers rs) ->
  (List.length (filter (AccountRepository.has_number n) rs) <= 1)%nat.
Proof.
  unfold numbers, AccountRepository.has_number.
  induction rs as [|r rs IH]; simpl; intros H; [lia|].
  inversion H as [|x l Hn Hd]; subst.
  destruct (Z.eqb_spec (account_number r) n); [|auto].
  simpl. subst n.
  destruct (filter _ rs) as [|r' l'] eqn:F; [simpl; lia|]. exfalso.
  assert (I : In r' (filter (fun r0 => account_number r0 =? account_number r) rs))
    by (rewrite F; now left).
  apply filter_In in I. destruct I as [I E]. apply Z.eqb_eq in E.
  apply Hn. rewrite <- E. now apply in_map.
Qed.

Lemma filter_sub_length {A} (f g : A -> bool) l :
  (forall x, f x = true -> g x = true) ->
  (List.length (filter f l) <= List.length (filter g l))%nat.
Proof.
  intros H. induction l as [|x l IH]; simpl; [lia|].
  destruct (f x) eqn:F.
  - rewrite (H x F). simpl. lia.
  - destruct (g x); simpl; lia.
Qed.

Lemma length_pos_nonempty {A} (l : list A) :
  (0 <? Z.of_nat (List.length l)) = true <-> l <> [].
Proof.
  destruct l; split; intros H.
  - discriminate H.
  - now destruct H.
  - discriminate.
  - reflexivity.
Qed.

Lemma update_rowcount_pos d cond delta :
  0 < update_rowcount d cond delta
  <-> filter cond (rows d) <> [] /\ (found_rows d = true \/ delta <> 0).
Proof.
  unfold update_rowcount. destruct (found_rows d).
  - rewrite <- (length_pos_nonempty (filter cond (rows d))), Z.ltb_lt.
    intuition.
  - destruct (Z.eqb_spec delta 0) as [-> | N].
    + split; [simpl; lia|]. intros [_ [?|?]]; [discriminate | congruence].
    + rewrite <- (length_pos_nonempty (filter cond (rows d))), Z.ltb_lt.
      intuition.
Qed.

Lemma update_rowcount_none d cond delta :
  update_rowcount d cond delta <= 0 -> adjust cond delta (rows d) = rows d.
Proof.
  intros H. destruct (Z.eq_dec delta 0) as [-> | N]; [apply adjust_zero|].
  apply adjust_none. destruct (filter cond (rows d)) eqn:F; [reflexivity|].
  exfalso. assert (P : 0 < update_rowcount d cond delta).
  { apply update_rowcount_pos. rewrite F. split; [discriminate | now right]. }
  lia.
Qed.

Lemma total_adjust_one cond d rs :
  List.length (filter cond rs) = 1%nat ->
  total (adjust cond d rs) = total rs + d.
Proof. intros L. rewrite total_adjust, L. lia. Qed.

Lemma adjust_changes cond d rs :
  filter cond rs <> [] -> d <> 0 -> adjust cond d rs <> rs.
Proof.
  intros F D E. assert (T := total_adjust cond d rs). rewrite E in T.
  destruct (filter cond rs); [now destruct F|]. simpl List.length in T. nia.
Qed.

Lemma number_matched_once n rs :
  NoDup (numbers rs) -> In n (numbers rs) ->
  List.length (filter (AccountRepository.has_number n) rs) = 1%nat.
Proof.
  intros U I. assert (L := filter_number_unique n rs U).
  apply filter_number_in in I.
  destruct (filter _ rs) as [|x [|y l]]; simpl in *; try lia. now destruct I.
Qed.

(** [deposit], run: what it returns and the table it leaves, from
    whether the database can be used and whether the account number is
    an integer literal. *)
Lemma deposit_run acct amount w :
  let target :=
    if db_fails (db w) (db_uses (db w)) then None else Py.int acct in
  let ok :=
    match target with
    | Some n =>
        0 <? closed_rowcount (db w)
               (update_rowcount (db w) (AccountRepository.has_number n) amount)
    | None => false
    end in
  exists w',
    AccountRepository.deposit acct amount w = (Ret ok, w')
    /\ rows (db w')
       = match target with
         | Some n => adjust (AccountRepository.has_number n) amount (rows (db w))
         | None => rows (db w)
         end
    /\ events w' = (events w ++ [RepoDeposit acct amount ok])%list.
Proof.
  unfold AccountRepository.deposit, logged, try_except_Exception, bind,
    AccountRepository.connect, int_of.
  destruct (db_fails (db w) (db_uses (db w)));
    [eexists; repeat split; reflexivity|].
  destruct (Py.int acct) as [n|]; unfold ret, raise;
    [|eexists; repeat split; reflexivity].
  unfold AccountRepository.sql_update_balance, AccountRepository.set_rows,
    AccountRepository.close_then_rowcount.
  eexists. repeat split; reflexivity.
Qed.

Lemma deposit_facts acct amount w :
  exists ok w',
    AccountRepository.deposit acct amount w = (Ret ok, w')
    /\ numbers (rows (db w')) = numbers (rows (db w))
    /\ (db_up w ->
        forall n, Py.int acct = Some n ->
          rows (db w')
          = adjust (AccountRepository.has_number n) amount (rows (db w))
          /\ ok = (0 <? closed_rowcount (db w)
                          (update_rowcount (db w)
                             (AccountRepository.has_number n) amount))
          /\ (NoDup (numbers (rows (db w))) -> In n (numbers (rows (db w))) ->
              total (rows (db w')) = total (rows (db w)) + amount))
    /\ (db_fails (db w) (db_uses (db w)) = true \/ Py.int acct = None ->
        ok = false /\ rows (db w') = rows (db w))
    /\ ((forall k, closed_rowcount (db w) k = k) ->
        (ok = false -> rows (db w') = rows (db w))
        /\ (ok = true <->
            db_up w
            /\ exists n, Py.int acct = Some n /\ In n (numbers (rows (db w)))
                         /\ (found_rows (db w) = true \/ amount <> 0)))
    /\ ((forall k, closed_rowcount (db w) k = -1) ->
        ok = false
        /\ (db_up w ->
            forall n, Py.int acct = Some n -> In n (numbers (rows (db w))) ->
              amount <> 0 -> rows (db w') <> rows (db w)))
    /\ events w' = (events w ++ [RepoDeposit acct amount ok])%list.
Proof.
  destruct (deposit_run acct amount w) as (w' & E & R & Ev). cbv zeta in *.
  unfold db_up.
  destruct (db_fails (db w) (db_uses (db w))) eqn:Up;
    [|destruct (Py.int acct) as [n|] eqn:Hi];
    eexists _, w'; (split; [exact E|]); rewrite R.
  - split; [reflexivity|]. split; [discriminate|]. split; [now split|].
    split; [|split; [|exact Ev]]; intros K.
    + split; [reflexivity|]. split; [discriminate|]. intros [? _]. discriminate.
    + split; [reflexivity | discriminate].
  - split; [apply numbers_adjust|]. split; [|split; [|split; [|split; [|exact Ev]]]].
    + intros _ n' [= <-]. split; [reflexivity|]. split; [reflexivity|].
      intros U I. apply total_adjust_one. now apply number_matched_once.
    + intros [?|?]; discriminate.
    + intros K. rewrite K. split.
      * intros H. apply update_rowcount_none. apply Z.ltb_ge. exact H.
      * rewrite Z.ltb_lt, update_rowcount_pos, filter_number_in. split.
        -- intros [I F]. split; [reflexivity|]. exists n. auto.
        -- intros (_ & n' & [= <-] & I & F). auto.
    + intros K. rewrite K. split; [reflexivity|].
      intros _ n' [= <-] I D. apply adjust_changes; [|exact D].
      now apply filter_number_in.
  - split; [reflexivity|]. split; [intros _ n' ?; discriminate|].
    split; [now split|]. split; [|split; [|exact Ev]]; intros K.
    + split; [reflexivity|]. split; [discriminate|].
      intros (_ & n' & ? & _). discriminate.
    + split; [reflexivity|]. intros _ n' ?. discriminate.
Qed.


Lemma funded_matched n amount rs :
  filter (fun r => AccountRepository.has_number n r && (amount <=? balance r)) rs
  <> []
  <-> exists r, In r rs /\ account_number r = n /\ amount <= balance r.
Proof.
  set (cond := fun r => AccountRepository.has_number n r && (amount <=? balance r)).
  split.
  - intros M. destruct (filter cond rs) as [|r l] eqn:F; [now destruct M|].
    assert (I : In r (filter cond rs)) by (rewrite F; now left).
    apply filter_In in I. destruct I as [I Hc]. unfold cond in Hc.
    apply andb_true_iff in Hc. destruct Hc as [C1 C2].
    exists r. split; [exact I|]. split.
    + now apply Z.eqb_eq in C1.
    + now apply Z.leb_le in C2.
  - intros (r & I & N & B) F.
    assert (I' : In r (filter cond rs)).
    { apply filter_In. split; [exact I|]. unfold cond. apply andb_true_iff.
      split; [now apply Z.eqb_eq | now apply Z.leb_le]. }
    rewrite F in I'. contradiction.
Qed.

Lemma funded_once n amount rs :
  NoDup (numbers rs) ->
  (exists r, In r rs /\ account_number r = n /\ amount <= balance r) ->
  List.length
    (filter (fun r => AccountRepository.has_number n r && (amount <=? balance r))
       rs) = 1%nat.
Proof.
  set (cond := fun r => AccountRepository.has_number n r && (amount <=? balance r)).
  intros U X. apply funded_matched in X. fold cond in X.
  assert (L := filter_number_unique n rs U).
  assert (L' : (List.length (filter cond rs)
                <= List.length (filter (AccountRepository.has_number n) rs))%nat).
  { apply filter_sub_length. intros x Hx. unfold cond in Hx.
    now apply andb_true_iff in Hx. }
  destruct (filter cond rs) as [|x [|y l]]; simpl in *; try lia.
  now destruct X.
Qed.

Lemma adjust_funded n amount rs r' :
  In r' (adjust (fun r => AccountRepository.has_number n r
                          && (amount <=? balance r)) (- amount) rs) ->
  In r' rs \/ 0 <= balance r'.
Proof.
  intros Hr'. unfold adjust in Hr'. apply in_map_iff in Hr'.
  destruct Hr' as (r & <- & Hr).
  destruct (AccountRepository.has_number n r && (amount <=? balance r)) eqn:Hc;
    [|now left].
  right. apply andb_true_iff in Hc. destruct Hc as [_ Hc].
  apply Z.leb_le in Hc. simpl. lia.
Qed.

(** [withdraw], run. *)
Lemma withdraw_run acct amount w :
  let target :=
    if db_fails (db w) (db_uses (db w)) then None else Py.int acct in
  let cond n :=
    fun r => AccountRepository.has_number n r && (amount <=? balance r) in
  let ok :=
    match target with
    | Some n =>
        0 <? closed_rowcount (db w) (update_rowcount (db w) (cond n) (- amount))
    | None => false
    end in
  exists w',
    AccountRepository.withdraw acct amount w = (Ret ok, w')
    /\ rows (db w')
       = match target with
         | Some n => adjust (cond n) (- amount) (rows (db w))
         | None => rows (db w)
         end
    /\ events w' = (events w ++ [RepoWithdraw acct amount ok])%list.
Proof.
  unfold AccountRepository.withdraw, logged, try_except_Exception, bind,
    AccountRepository.connect, int_of.
  destruct (db_fails (db w) (db_uses (db w)));
    [eexists; repeat split; reflexivity|].
  destruct (Py.int acct) as [n|]; unfold ret, raise;
    [|eexists; repeat split; reflexivity].
  unfold AccountRepository.sql_update_balance, AccountRepository.set_rows,
    AccountRepository.close_then_rowcount.
  eexists. repeat split; reflexivity.
Qed.

Lemma withdraw_facts acct amount w :
  exists ok w',
    AccountRepository.withdraw acct amount w = (Ret ok, w')
    /\ numbers (rows (db w')) = numbers (rows (db w))
    /\ (forall r', In r' (rows (db w')) -> In r' (rows (db w)) \/ 0 <= balance r')
    /\ (db_up w ->
        forall n, Py.int acct = Some n ->
          let cond := fun r => AccountRepository.has_number n r
                               && (amount <=? balance r) in
          rows (db w') = adjust cond (- amount) (rows (db w))
          /\ ok = (0 <? closed_rowcount (db w)
                          (update_rowcount (db w) cond (- amount)))
          /\ (NoDup (numbers (rows (db w))) ->
              (exists r, In r (rows (db w)) /\ account_number r = n
                         /\ amount <= balance r) ->
              total (rows (db w')) = total (rows (db w)) - amount))
    /\ (db_fails (db w) (db_uses (db w)) = true \/ Py.int acct = None ->
        ok = false /\ rows (db w') = rows (db w))
    /\ ((forall k, closed_rowcount (db w) k = k) ->
        (ok = false -> rows (db w') = rows (db w))
        /\ (ok = true <->
            db_up w
            /\ exists n, Py.int acct = Some n
                         /\ (exists r, In r (rows (db w)) /\ account_number r = n
                                       /\ amount <= balance r)
                         /\ (found_rows (db w) = true \/ amount <> 0)))
    /\ ((forall k, closed_rowcount (db w) k = -1) ->
        ok = false
        /\ (db_up w ->
            forall n, Py.int acct = Some n ->
              (exists r, In r (rows (db w)) /\ account_number r = n
                         /\ amount <= balance r) ->
              amount <> 0 -> rows (db w') <> rows (db w)))
    /\ events w' = (events w ++ [RepoWithdraw acct amount ok])%list.
Proof.
  destruct (withdraw_run acct amount w) as (w' & E & R & Ev). cbv zeta in *.
  unfold db_up.
  destruct (db_fails (db w) (db_uses (db w))) eqn:Up;
    [|destruct (Py.int acct) as [n|] eqn:Hi];
    eexists _, w'; (split; [exact E|]); rewrite R.
  - split; [reflexivity|]. split; [now left|]. split; [discriminate|].
    split; [now split|].
    split; [|split; [|exact Ev]]; intros K.
    + split; [reflexivity|]. split; [discriminate|]. intros [? _]. discriminate.
    + split; [reflexivity | discriminate].
  - split; [apply numbers_adjust|]. split; [apply adjust_funded|].
    split; [|split; [|split; [|split; [|exact Ev]]]].
    + intros _ n' [= <-]. split; [reflexivity|]. split; [reflexivity|].
      intros U I. rewrite total_adjust_one by now apply funded_once. lia.
    + intros [?|?]; discriminate.
    + intros K. rewrite K. split.
      * intros H. apply update_rowcount_none. apply Z.ltb_ge. exact H.
      * rewrite Z.ltb_lt, update_rowcount_pos, funded_matched. split.
        -- intros [I F]. split; [reflexivity|]. exists n.
           split; [reflexivity|]. split; [exact I|].
           destruct F as [F|F]; [now left | right; lia].
        -- intros (_ & n' & [= <-] & I & F). split; [exact I|].
           destruct F as [F|F]; [now left | right; lia].
    + intros K. rewrite K. split; [reflexivity|].
      intros _ n' [= <-] I D. apply adjust_changes; [|lia].
      now apply funded_matched.
  - split; [reflexivity|]. split; [now left|].
    split; [intros _ n' ?; discriminate|].
    split; [now split|]. split; [|split; [|exact Ev]]; intros K.
    + split; [reflexivity|]. split; [discriminate|].
      intros (_ & n' & ? & _). discriminate.
    + split; [reflexivity|]. intros _ n' ?. discriminate.
Qed.


Lemma total_filter_zero (cond : account_row -> bool) rs :
  (forall r, cond r = true -> balance r = 0) ->
  total (filter (fun r => negb (cond r)) rs) = total rs.
Proof.
  intros H. unfold total. induction rs as [|r rs IH]; simpl; [reflexivity|].
  destruct (cond r) eqn:C; simpl.
  - rewrite IH, (H r C). lia.
  - now rewrite IH.
Qed.

Lemma filter_negb_all (cond : account_row -> bool) rs :
  filter cond rs = [] -> filter (fun r => negb (cond r)) rs = rs.
Proof.
  induction rs as [|r rs IH]; simpl; [reflexivity|].
  destruct (cond r); simpl; [discriminate|]. intros H. now rewrite IH.
Qed.

Lemma filter_split_length {A} (cond : A -> bool) l :
  (List.length (filter (fun x => negb (cond x)) l)
   + List.length (filter cond l))%nat = List.length l.
Proof.
  induction l as [|x l IH]; simpl; [reflexivity|].
  destruct (cond x); simpl; lia.
Qed.

Lemma filter_negb_shorter {A} (cond : A -> bool) l :
  filter cond l <> [] -> filter (fun x => negb (cond x)) l <> l.
Proof.
  intros F E. assert (L := filter_split_length cond l). rewrite E in L.
  destruct (filter cond l); [now destruct F | simpl in L; lia].
Qed.

Lemma emptied_matched n rs :
  filter (fun r => AccountRepository.has_number n r && (balance r =? 0)) rs <> []
  <-> exists r, In r rs /\ account_number r = n /\ balance r = 0.
Proof.
  set (cond := fun r => AccountRepository.has_number n r && (balance r =? 0)).
  split.
  - intros M. destruct (filter cond rs) as [|r l] eqn:F; [now destruct M|].
    assert (I : In r (filter cond rs)) by (rewrite F; now left).
    apply filter_In in I. destruct I as [I Hc]. unfold cond in Hc.
    apply andb_true_iff in Hc. destruct Hc as [C1 C2].
    exists r. split; [exact I|]. split; now apply Z.eqb_eq.
  - intros (r & I & N & B) F.
    assert (I' : In r (filter cond rs)).
    { apply filter_In. split; [exact I|]. unfold cond. apply andb_true_iff.
      split; now apply Z.eqb_eq. }
    rewrite F in I'. contradiction.
Qed.

(** [remove], run. *)
Lemma remove_run acct w :
  let target :=
    if db_fails (db w) (db_uses (db w)) then None else Py.int acct in
  let cond n :=
    fun r => AccountRepository.has_number n r && (balance r =? 0) in
  let ok :=
    match target with
    | Some n =>
        0 <? closed_rowcount (db w)
               (Z.of_nat (List.length (filter (cond n) (rows (db w)))))
    | None => false
    end in
  exists w',
    AccountRepository.remove acct w = (Ret ok, w')
    /\ rows (db w')
       = match target with
         | Some n => filter (fun r => negb (cond n r)) (rows (db w))
         | None => rows (db w)
         end
    /\ events w' = (events w ++ [RepoRemove acct ok])%list.
Proof.
  unfold AccountRepository.remove, logged, try_except_Exception, bind,
    AccountRepository.connect, int_of.
  destruct (db_fails (db w) (db_uses (db w)));
    [eexists; repeat split; reflexivity|].
  destruct (Py.int acct) as [n|]; unfold ret, raise;
    [|eexists; repeat split; reflexivity].
  unfold AccountRepository.sql_delete, AccountRepository.set_rows,
    AccountRepository.close_then_rowcount.
  eexists. repeat split; reflexivity.
Qed.

Lemma remove_facts acct w :
  exists ok w',
    AccountRepository.remove acct w = (Ret ok, w')
    /\ total (rows (db w')) = total (rows (db w))
    /\ (forall r, In r (rows (db w')) -> In r (rows (db w)))
    /\ (forall r, In r (rows (db w)) -> balance r <> 0 -> In r (rows (db w')))
    /\ (db_up w ->
        forall n, Py.int acct = Some n ->
          let cond := fun r => AccountRepository.has_number n r
                               && (balance r =? 0) in
          rows (db w') = filter (fun r => negb (cond r)) (rows (db w))
          /\ ok = (0 <? closed_rowcount (db w)
                          (Z.of_nat (List.length (filter cond (rows (db w)))))))
    /\ (db_fails (db w) (db_uses (db w)) = true \/ Py.int acct = None ->
        ok = false /\ rows (db w') = rows (db w))
    /\ ((forall k, closed_rowcount (db w) k = k) ->
        (ok = false -> rows (db w') = rows (db w))
        /\ (ok = true <->
            db_up w
            /\ exists n, Py.int acct = Some n
                         /\ exists r, In r (rows (db w)) /\ account_number r = n
                                      /\ balance r = 0))
    /\ ((forall k, closed_rowcount (db w) k = -1) ->
        ok = false
        /\ (db_up w ->
            forall n, Py.int acct = Some n ->
              (exists r, In r (rows (db w)) /\ account_number r = n
                         /\ balance r = 0) ->
              rows (db w') <> rows (db w)))
    /\ events w' = (events w ++ [RepoRemove acct ok])%list.
Proof.
  destruct (remove_run acct w) as (w' & E & R & Ev). cbv zeta in *.
  unfold db_up.
  destruct (db_fails (db w) (db_uses (db w))) eqn:Up;
    [|destruct (Py.int acct) as [n|] eqn:Hi];
    eexists _, w'; (split; [exact E|]); rewrite R.
  - split; [reflexivity|]. split; [auto|]. split; [auto|].
    split; [discriminate|]. split; [now split|].
    split; [|split; [|exact Ev]]; intros K.
    + split; [reflexivity|]. split; [discriminate|]. intros [? _]. discriminate.
    + split; [reflexivity | discriminate].
  - set (cond := fun r => AccountRepository.has_number n r && (balance r =? 0)).
    assert (Z0 : forall r, cond r = true -> balance r = 0).
    { intros r C. unfold cond in C. apply andb_true_iff in C.
      destruct C as [_ C]. now apply Z.eqb_eq in C. }
    split; [now apply total_filter_zero|].
    split; [intros r Hr; now apply filter_In in Hr|].
    split.
    { intros r Hr Hb. apply filter_In. split; [exact Hr|].
      change (negb (cond r) = true).
      destruct (cond r) eqn:Hc; [|reflexivity]. now apply Z0 in Hc. }
    split; [|split; [|split; [|split; [|exact Ev]]]].
    + intros _ n' [= <-]. split; reflexivity.
    + intros [?|?]; discriminate.
    + intros K. rewrite K. split.
      * intros H. apply filter_negb_all.
        change (filter cond (rows (db w)) = []).
        change (filter _ (rows (db w))) with (filter cond (rows (db w))) in H.
        destruct (filter cond (rows (db w))); [reflexivity | discriminate].
      * rewrite length_pos_nonempty. unfold cond. rewrite emptied_matched.
        split.
        -- intros I. split; [reflexivity|]. exists n. auto.
        -- intros (_ & n' & [= <-] & I). exact I.
    + intros K. rewrite K. split; [reflexivity|].
      intros _ n' [= <-] I. apply filter_negb_shorter.
      now apply emptied_matched.
  - split; [reflexivity|]. split; [auto|]. split; [auto|].
    split; [intros _ n' ?; discriminate|].
    split; [now split|]. split; [|split; [|exact Ev]]; intros K.
    + split; [reflexivity|]. split; [discriminate|].
      intros (_ & n' & ? & _). discriminate.
    + split; [reflexivity|]. intros _ n' ?. discriminate.
Qed.


(** X4.  When the use of the database raises, every method of the
    repository returns its failure value ([False], [None] or the empty
    list) instead of raising, and the table is as it was. *)
Theorem database_failure n ip acct amount w :
  db_fails (db w) (db_uses (db w)) = true ->
  (fst (AccountRepository.create_account n ip w) = Ret false
   /\ fst (AccountRepository.get_balance acct w) = Ret None
   /\ fst (AccountRepository.deposit acct amount w) = Ret false
   /\ fst (AccountRepository.withdraw acct amount w) = Ret false
   /\ fst (AccountRepository.remove acct w) = Ret false
   /\ fst (AccountRepository.get_total_balance w) = Ret None
   /\ fst (AccountRepository.count_accounts w) = Ret None
   /\ fst (AccountRepository.account_exists n w) = Ret false
   /\ fst (AccountRepository.get_all_accounts w) = Ret [])
  /\ (rows (db (snd (AccountRepository.create_account n ip w))) = rows (db w)
      /\ rows (db (snd (AccountRepository.get_balance acct w))) = rows (db w)
      /\ rows (db (snd (AccountRepository.deposit acct amount w))) = rows (db w)
      /\ rows (db (snd (AccountRepository.withdraw acct amount w))) = rows (db w)
      /\ rows (db (snd (AccountRepository.remove acct w))) = rows (db w)
      /\ rows (db (snd (AccountRepository.get_total_balance w))) = rows (db w)
      /\ rows (db (snd (AccountRepository.count_accounts w))) = rows (db w)
      /\ rows (db (snd (AccountRepository.account_exists n w))) = rows (db w)
      /\ rows (db (snd (AccountRepository.get_all_accounts w))) = rows (db w)).
Proof.
  intros F.
  unfold AccountRepository.create_account, AccountRepository.get_balance,
    AccountRepository.deposit, AccountRepository.withdraw,
    AccountRepository.remove, AccountRepository.get_total_balance,
    AccountRepository.count_accounts, AccountRepository.account_exists,
    AccountRepository.get_all_accounts,
    logged, try_except_Exception, bind, AccountRepository.connect.
  rewrite F. repeat split; reflexivity.
Qed.

(** X5.  When [create_account] returns [True] the table has gained
    exactly one row, at its end, with the number and the address given
    and balance 0: the sum of the balances is as it was, and while the
    database can be reached [account_exists] finds the number and
    [count_accounts] counts one account more. *)
Theorem create_account_then_exists n ip w w1 :
  AccountRepository.create_account n ip w = (Ret true, w1) ->
  rows (db w1)
  = (rows (db w)
       ++ [{| account_number := n; ip_address := ip; balance := 0 |}])%list
  /\ total (rows (db w1)) = total (rows (db w))
  /\ (db_up w1 ->
      fst (AccountRepository.account_exists n w1) = Ret true
      /\ fst (AccountRepository.count_accounts w1)
         = Ret (Some (Z.of_nat (List.length (rows (db w))) + 1))).
Proof.
  unfold AccountRepository.create_account, logged, try_except_Exception, bind,
    AccountRepository.connect, AccountRepository.sql_insert,
    AccountRepository.get_rows, AccountRepository.set_rows, ret, raise, bind.
  destruct (db_fails (db w) (db_uses (db w))); [discriminate|].
  cbn [db set_db rows].
  destruct (existsb (AccountRepository.has_number n) (rows (db w)));
    [discriminate|].
  intros [= <-]. cbn [db set_db rows log].
  split; [reflexivity|]. split.
  - unfold total. rewrite map_app, fold_right_app. reflexivity.
  - unfold db_up. cbn [db set_db rows log db_fails db_uses]. intros U.
    unfold AccountRepository.account_exists, AccountRepository.count_accounts,
      logged, try_except_Exception, bind, AccountRepository.connect,
      AccountRepository.get_rows, ret.
    cbn [db set_db rows log db_fails db_uses]. rewrite U.
    cbn [fst db set_db rows log].
    split.
    + f_equal. apply length_pos_nonempty. rewrite filter_app. simpl.
      unfold AccountRepository.has_number at 2. cbn [account_number].
      rewrite Z.eqb_refl. intros E. apply app_eq_nil in E.
      destruct E as [_ E]. discriminate.
    + do 2 f_equal. rewrite length_app. simpl. lia.
Qed.

(** ** More on the router over any server object *)

Section RouterMore.

Context {W : Type}.
Variable server : ServerOps W.

Local Abbreviation process := (CommandHandler.process_command server).

(** X6.  A BC line is answered "BC" and the address the server object
    gives.  When the server object raises instead, whatever the
    exception, the answer is "ER Unable to retrieve IP": the handler
    catches it itself and the router's own handler is not reached.
    Either way the local address is the only thing asked of the
    server. *)
Theorem bank_code_response command address s v rest :
  Py.split (Py.strip command) = v :: rest ->
  Py.upper v = "BC" ->
  process command address s
  = (Ret match fst (srv_get_local_ip server (fst s)) with
         | Ret ip_address => "BC " ++ ip_address
         | Raise _ => "ER Unable to retrieve IP"
         end,
     (snd (srv_get_local_ip server (fst s)), (snd s ++ [GetLocalIp])%list)).
Proof.
  intros H Hv. rewrite (process_dispatch _ _ _ _ _ _ H), Hv.
  destruct (dispatch_bare server (v :: rest) address) as (D & _).
  rewrite D. unfold CommandHandler.handle_bc, CommandHandler.get_local_ip,
    CommandHandler.invoke. eff.
  destruct (srv_get_local_ip server (fst s)) as [[ip|e] w1]; reflexivity.
Qed.

Lemma dispatch_tokens cmd v1 v2 rest ip p1 p2 s :
  CommandHandler.dispatch server cmd (v1 :: rest) (ip, p1) s
  = CommandHandler.dispatch server cmd (v2 :: rest) (ip, p2) s.
Proof.
  unfold CommandHandler.dispatch, CommandHandler.handle_ad,
    CommandHandler.handle_aw, CommandHandler.handle_ab,
    CommandHandler.handle_ar.
  cbn [List.length nth fst]. reflexivity.
Qed.

(** X7.  The response to a line, and what it does, depend only on the
    first token in upper case, on the tokens after it, and on the
    address of the client without its port: the case of the verb, the
    amount of white space between and around the tokens, and the
    client's port make no difference. *)
Theorem tokens_decide command1 command2 ip port1 port2 s v1 v2 rest :
  Py.split (Py.strip command1) = v1 :: rest ->
  Py.split (Py.strip command2) = v2 :: rest ->
  Py.upper v1 = Py.upper v2 ->
  process command1 (ip, port1) s = process command2 (ip, port2) s.
Proof.
  intros H1 H2 Hv.
  rewrite (process_dispatch _ _ _ _ _ _ H1), (process_dispatch _ _ _ _ _ _ H2).
  rewrite Hv. now rewrite (dispatch_tokens _ v1 v2 rest ip port1 port2).
Qed.

Section Frame.

Variable P : W -> W -> Prop.
Hypothesis P_refl : forall w, P w w.
Hypothesis P_trans : forall w1 w2 w3, P w1 w2 -> P w2 w3 -> P w1 w3.
Hypothesis P_kept : kept_by server P.

Lemma keeps_ret {A} (a : A) : keeps P (ret a).
Proof. intros s. apply P_refl. Qed.

Lemma keeps_raise {A} e : keeps P (@raise _ A e).
Proof. intros s. apply P_refl. Qed.

Lemma keeps_bind {A B} (m : Eff (W * list call) A) (k : A -> Eff (W * list call) B) :
  keeps P m -> (forall a, keeps P (k a)) -> keeps P (bind m k).
Proof.
  intros Hm Hk s. unfold bind. specialize (Hm s).
  destruct (m s) as [[a|e] s1]; cbn [fst snd] in *; [|exact Hm].
  eapply P_trans; [exact Hm | apply Hk].
Qed.

Lemma keeps_try_ValueError {A} (body handler : Eff (W * list call) A) :
  keeps P body -> keeps P handler ->
  keeps P (try_except_ValueError body handler).
Proof.
  intros Hb Hh s. unfold try_except_ValueError. specialize (Hb s).
  destruct (body s) as [[a|[|cls]] s1]; cbn [fst snd] in *; try exact Hb.
  eapply P_trans; [exact Hb | apply Hh].
Qed.

Lemma keeps_try_Exception {A} (body : Eff (W * list call) A) handler :
  keeps P body -> (forall e, keeps P (handler e)) ->
  keeps P (try_except_Exception body handler).
Proof.
  intros Hb Hh s. unfold try_except_Exception. specialize (Hb s).
  destruct (body s) as [[a|e] s1]; cbn [fst snd] in *; [exact Hb|].
  eapply P_trans; [exact Hb | apply Hh].
Qed.

Lemma keeps_invoke {A} c (m : Eff W A) :
  (forall w, P w (snd (m w))) -> keeps P (CommandHandler.invoke c m).
Proof.
  intros Hm s. unfold CommandHandler.invoke. specialize (Hm (fst s)).
  destruct (m (fst s)) as [r w']. exact Hm.
Qed.

Lemma keeps_int_of token : keeps P (int_of token).
Proof. unfold int_of. destruct (Py.int token); [apply keeps_ret | apply keeps_raise]. Qed.

Lemma keeps_unpack2 parts : keeps P (unpack2 parts).
Proof.
  unfold unpack2. destruct parts as [|a [|b [|c l]]];
    first [apply keeps_ret | apply keeps_raise].
Qed.

Ltac keeps_tac K :=
  destruct K as (K1 & K2 & K3 & K4 & K5 & K6 & K7 & K8 & K9);
  repeat first
    [ apply keeps_ret
    | apply keeps_raise
    | apply keeps_int_of
    | apply keeps_unpack2
    | apply keeps_invoke; solve [auto]
    | apply keeps_bind; [|intros ?]
    | apply keeps_try_ValueError
    | apply keeps_try_Exception; [|intros ?]
    | match goal with
      | |- keeps _ (if ?b then _ else _) => destruct b
      | |- keeps _ (let (_, _) := ?x in _) => destruct x
      end ].

Lemma dispatch_kept cmd parts address :
  keeps P (CommandHandler.dispatch server cmd parts address).
Proof.
  unfold CommandHandler.dispatch, CommandHandler.handle_bc,
    CommandHandler.handle_ac, CommandHandler.handle_ad,
    CommandHandler.handle_aw, CommandHandler.handle_ab,
    CommandHandler.handle_ar, CommandHandler.handle_ba,
    CommandHandler.handle_bn,
    CommandHandler.get_local_ip, CommandHandler.create_account,
    CommandHandler.forward_to_peer, CommandHandler.get_balance,
    CommandHandler.deposit, CommandHandler.withdraw, CommandHandler.remove,
    CommandHandler.get_total_balance, CommandHandler.count_accounts.
  keeps_tac P_kept.
Qed.

Lemma process_kept command address :
  keeps P (process command address).
Proof.
  intros s. destruct (Py.split (Py.strip command)) as [|v rest] eqn:H.
  - rewrite (process_blank _ _ _ _ H). apply P_refl.
  - rewrite (process_dispatch _ _ _ _ _ _ H).
    assert (D := dispatch_kept (Py.upper v) (v :: rest) address s).
    destruct (CommandHandler.dispatch _ _ _ _ _) as [[r|e] s']; exact D.
Qed.

End Frame.


End RouterMore.

(** ** Commands for accounts of the node's own bank *)

Lemma get_balance_spec acct w :
  exists w',
    let found :=
      if db_fails (db w) (db_uses (db w)) then None
      else match filter (AccountRepository.has_number (text_key (db w) acct))
                   (rows (db w)) with
           | [r] => Some (balance r)
           | _ => None
           end in
    AccountRepository.get_balance acct w = (Ret found, w')
    /\ rows (db w') = rows (db w)
    /\ events w' = (events w ++ [RepoGetBalance acct found])%list.
Proof.
  unfold AccountRepository.get_balance, logged, try_except_Exception, bind,
    AccountRepository.connect, AccountRepository.get_rows, ret.
  destruct (db_fails (db w) (db_uses (db w))).
  - eexists. repeat split; reflexivity.
  - cbn [db set_db rows text_key].
    destruct (filter _ (rows (db w))) as [|r [|r' l]];
      eexists; repeat split; reflexivity.
Qed.

Lemma get_total_balance_spec w :
  exists w',
    let found := if db_fails (db w) (db_uses (db w)) then None
                 else Some (total (rows (db w))) in
    AccountRepository.get_total_balance w = (Ret found, w')
    /\ rows (db w') = rows (db w)
    /\ events w' = (events w ++ [RepoGetTotalBalance found])%list.
Proof.
  unfold AccountRepository.get_total_balance, logged, try_except_Exception,
    bind, AccountRepository.connect, AccountRepository.get_rows, ret.
  destruct (db_fails (db w) (db_uses (db w)));
    eexists; repeat split; reflexivity.
Qed.

Lemma count_accounts_spec w :
  exists w',
    let found := if db_fails (db w) (db_uses (db w)) then None
                 else Some (Z.of_nat (List.length (rows (db w)))) in
    AccountRepository.count_accounts w = (Ret found, w')
    /\ rows (db w') = rows (db w)
    /\ events w' = (events w ++ [RepoCountAccounts found])%list.
Proof.
  unfold AccountRepository.count_accounts, logged, try_except_Exception,
    bind, AccountRepository.connect, AccountRepository.get_rows, ret.
  destruct (db_fails (db w) (db_uses (db w)));
    eexists; repeat split; reflexivity.
Qed.

Section NodeLocal.

Variable cfg : Config.

Local Abbreviation node := (BankServer.ops cfg).

(** Open the handler of an account verb of the node up to the call on
    the repository. *)
Ltac to_repository :=
  match goal with
  | |- context [CommandHandler.dispatch ?n _ ?p ?a] =>
      first [ rewrite (proj1 (dispatch_account n p a))
            | rewrite (proj1 (proj2 (dispatch_account n p a)))
            | rewrite (proj1 (proj2 (proj2 (dispatch_account n p a))))
            | rewrite (proj2 (proj2 (proj2 (dispatch_account n p a)))) ]
  end;
  unfold CommandHandler.handle_ad, CommandHandler.handle_aw,
    CommandHandler.handle_ab, CommandHandler.handle_ar;
  cbn [List.length Nat.eqb negb nth]; eff;
  repeat match goal with
         | E : Py.int _ = Some _ |- _ => rewrite E
         | E : Py.split_on _ _ = _ |- _ => rewrite E
         end;
  unfold ret; cbv beta iota;
  unfold CommandHandler.get_local_ip, CommandHandler.deposit,
    CommandHandler.withdraw, CommandHandler.get_balance,
    CommandHandler.remove, CommandHandler.invoke;
  cbn [fst snd srv_get_local_ip srv_account_repository BankServer.ops
         repo_deposit repo_withdraw repo_get_balance repo_remove
         AccountRepository.ops];
  unfold BankServer.get_local_ip, ret; cbn [fst snd];
  rewrite String.eqb_refl; cbn [negb fst snd].

(** X9.  A BA line is answered "BA" and the sum of the balances, a BN
    line "BN" and the number of rows.  When the database cannot be
    reached the answers are "BA None" and "BN None", not an error
    line.  Neither changes the table. *)
Theorem bank_totals command address w cs v rest :
  Py.split (Py.strip command) = v :: rest ->
  (Py.upper v = "BA" ->
   exists w',
     CommandHandler.process_command node command address (w, cs)
     = (Ret ("BA " ++ (if db_fails (db w) (db_uses (db w)) then "None"
                       else Py.str (total (rows (db w))))),
        (w', (cs ++ [GetTotalBalance])%list))
     /\ rows (db w') = rows (db w))
  /\ (Py.upper v = "BN" ->
      exists w',
        CommandHandler.process_command node command address (w, cs)
        = (Ret ("BN " ++ (if db_fails (db w) (db_uses (db w)) then "None"
                          else Py.str (Z.of_nat (List.length (rows (db w)))))),
           (w', (cs ++ [CountAccounts])%list))
        /\ rows (db w') = rows (db w)).
Proof.
  intros H. split; intros Hv.
  - destruct (get_total_balance_spec w) as (w' & E & R & _). cbv zeta in E.
    exists w'. split; [|exact R].
    rewrite (process_dispatch node _ _ _ _ _ H), Hv.
    destruct (dispatch_bare node (v :: rest) address) as (_ & _ & D & _).
    rewrite D. unfold CommandHandler.handle_ba, CommandHandler.get_total_balance,
      CommandHandler.invoke. eff.
    cbn [fst snd srv_account_repository BankServer.ops repo_get_total_balance
           AccountRepository.ops].
    rewrite E. now destruct (db_fails (db w) (db_uses (db w))).
  - destruct (count_accounts_spec w) as (w' & E & R & _). cbv zeta in E.
    exists w'. split; [|exact R].
    rewrite (process_dispatch node _ _ _ _ _ H), Hv.
    destruct (dispatch_bare node (v :: rest) address) as (_ & _ & _ & D).
    rewrite D. unfold CommandHandler.handle_bn, CommandHandler.count_accounts,
      CommandHandler.invoke. eff.
    cbn [fst snd srv_account_repository BankServer.ops repo_count_accounts
           AccountRepository.ops].
    rewrite E. now destruct (db_fails (db w) (db_uses (db w))).
Qed.

(** X10.  An AD line for an account of the node's own bank makes one
    call of [deposit], with the account number as written and the
    amount, and is answered "AD" when that returns [True] and "ER
    Deposit failed" when not.  When the database can be used and the
    account number is an integer literal the amount is added to the
    rows with that number, whatever is answered.  With a connector
    whose closed cursor still holds its count, the answer is "AD"
    exactly when the database can be used, the account number is an
    integer literal naming a row, and the amount is not 0 (or the
    client counts matched rows); the sum of the balances then grows by
    the amount when account numbers are unique, and after "ER Deposit
    failed" the table is as it was.  With a connector whose closing
    resets the count, the answer is "ER Deposit failed" always. *)
Theorem local_deposit command address w cs v ref amt a acct :
  Py.split (Py.strip command) = [v; ref; amt] ->
  Py.upper v = "AD" ->
  Py.int amt = Some a ->
  Py.split_on "/" ref = [acct; HOST cfg] ->
  exists ok w',
    AccountRepository.deposit acct a w = (Ret ok, w')
    /\ CommandHandler.process_command node command address (w, cs)
       = (Ret (if ok then "AD" else "ER Deposit failed"),
          (w', (cs ++ [GetLocalIp; Deposit acct a])%list))
    /\ (db_up w ->
        forall n, Py.int acct = Some n ->
          rows (db w')
          = adjust (AccountRepository.has_number n) a (rows (db w))
          /\ ok = (0 <? closed_rowcount (db w)
                          (update_rowcount (db w)
                             (AccountRepository.has_number n) a)))
    /\ (db_fails (db w) (db_uses (db w)) = true \/ Py.int acct = None ->
        ok = false /\ rows (db w') = rows (db w))
    /\ ((forall k, closed_rowcount (db w) k = k) ->
        (ok = true <->
         db_up w
         /\ exists n, Py.int acct = Some n /\ In n (numbers (rows (db w)))
                      /\ (found_rows (db w) = true \/ a <> 0))
        /\ (ok = true -> NoDup (numbers (rows (db w))) ->
            total (rows (db w')) = total (rows (db w)) + a)
        /\ (ok = false -> rows (db w') = rows (db w)))
    /\ ((forall k, closed_rowcount (db w) k = -1) -> ok = false).
Proof.
  intros H Hv Hi Hs.
  destruct (deposit_facts acct a w) as (ok & w' & E & _ & U & D & K & P & _).
  exists ok, w'. split; [exact E|]. split.
  - rewrite (process_dispatch node _ _ _ _ _ H), Hv. to_repository.
    rewrite E. now rewrite <- app_assoc.
  - split; [intros Up n Hn; destruct (U Up n Hn) as (R & O & _); now split|].
    split; [exact D|]. split.
    + intros Hk. destruct (K Hk) as [F I]. split; [exact I|].
      split; [|exact F].
      intros Hok Nd. destruct (proj1 I Hok) as (Up & n & Hn & In_ & _).
      destruct (U Up n Hn) as (_ & _ & T). now apply T.
    + intros Hp. now destruct (P Hp).
Qed.

(** X11.  An AW line for an account of the node's own bank makes one
    call of [withdraw] and is answered "AW" when that returns [True]
    and "ER Not enough funds" when not, whatever the reason.  When the
    database can be used and the account number is an integer literal
    the amount is taken off the rows with that number that hold at
    least as much, whatever is answered; no row is left with a negative
    balance that it did not have before.  With a connector whose closed
    cursor still holds its count, the answer is "AW" exactly when the
    database can be used, the account number is an integer literal, a
    row with that number holds at least the amount, and the amount is
    not 0 (or the client counts matched rows); the sum of the balances
    then drops by the amount when account numbers are unique, and after
    "ER Not enough funds" the table is as it was.  With a connector
    whose closing resets the count, the answer is "ER Not enough funds"
    always. *)
Theorem local_withdrawal command address w cs v ref amt a acct :
  Py.split (Py.strip command) = [v; ref; amt] ->
  Py.upper v = "AW" ->
  Py.int amt = Some a ->
  Py.split_on "/" ref = [acct; HOST cfg] ->
  exists ok w',
    AccountRepository.withdraw acct a w = (Ret ok, w')
    /\ CommandHandler.process_command node command address (w, cs)
       = (Ret (if ok then "AW" else "ER Not enough funds"),
          (w', (cs ++ [GetLocalIp; Withdraw acct a])%list))
    /\ (forall r', In r' (rows (db w')) -> In r' (rows (db w)) \/ 0 <= balance r')
    /\ (db_up w ->
        forall n, Py.int acct = Some n ->
          let cond := fun r => AccountRepository.has_number n r
                               && (a <=? balance r) in
          rows (db w') = adjust cond (- a) (rows (db w))
          /\ ok = (0 <? closed_rowcount (db w)
                          (update_rowcount (db w) cond (- a))))
    /\ (db_fails (db w) (db_uses (db w)) = true \/ Py.int acct = None ->
        ok = false /\ rows (db w') = rows (db w))
    /\ ((forall k, closed_rowcount (db w) k = k) ->
        (ok = true <->
         db_up w
         /\ exists n, Py.int acct = Some n
                      /\ (exists r, In r (rows (db w)) /\ account_number r = n
                                    /\ a <= balance r)
                      /\ (found_rows (db w) = true \/ a <> 0))
        /\ (ok = true -> NoDup (numbers (rows (db w))) ->
            total (rows (db w')) = total (rows (db w)) - a)
        /\ (ok = false -> rows (db w') = rows (db w)))
    /\ ((forall k, closed_rowcount (db w) k = -1) -> ok = false).
Proof.
  intros H Hv Hi Hs.
  destruct (withdraw_facts acct a w)
    as (ok & w' & E & _ & B & U & D & K & P & _).
  exists ok, w'. split; [exact E|]. split.
  - rewrite (process_dispatch node _ _ _ _ _ H), Hv. to_repository.
    rewrite E. now rewrite <- app_assoc.
  - split; [exact B|].
    split; [intros Up n Hn; destruct (U Up n Hn) as (R & O & _); now split|].
    split; [exact D|]. split.
    + intros Hk. destruct (K Hk) as [F I]. split; [exact I|].
      split; [|exact F].
      intros Hok Nd. destruct (proj1 I Hok) as (Up & n & Hn & X & _).
      destruct (U Up n Hn) as (_ & _ & T). now apply T.
    + intros Hp. now destruct (P Hp).
Qed.

(** X12.  An AB line for an account of the node's own bank makes one
    call of [get_balance] and never changes the table.  The answer is
    "AB" and the balance when exactly one row has the number that the
    database reads the account text as.  It is "ER Account not found"
    when there is no such row, when the database cannot be used, and
    also when several rows have that number: the row left unread makes
    the closing of the cursor raise. *)
Theorem local_balance command address w cs v ref acct :
  Py.split (Py.strip command) = [v; ref] ->
  Py.upper v = "AB" ->
  Py.split_on "/" ref = [acct; HOST cfg] ->
  exists w',
    CommandHandler.process_command node command address (w, cs)
    = (Ret match (if db_fails (db w) (db_uses (db w)) then []
                  else filter
                         (AccountRepository.has_number (text_key (db w) acct))
                         (rows (db w))) with
           | [r] => "AB " ++ Py.str (balance r)
           | _ => "ER Account not found"
           end,
       (w', (cs ++ [GetLocalIp; GetBalance acct])%list))
    /\ rows (db w') = rows (db w).
Proof.
  intros H Hv Hs.
  destruct (get_balance_spec acct w) as (w' & E & R & _). cbv zeta in E.
  exists w'. split; [|exact R].
  rewrite (process_dispatch node _ _ _ _ _ H), Hv. to_repository.
  rewrite E. rewrite <- app_assoc.
  destruct (db_fails (db w) (db_uses (db w))); [reflexivity|].
  now destruct (filter _ (rows (db w))) as [|r [|r' l]].
Qed.

(** X13.  An AR line for an account of the node's own bank makes one
    call of [remove] and is answered "AR" when that returns [True] and
    "ER Cannot remove account" when not.  A row with a balance other
    than 0 is never deleted, and the sum of the balances is never
    changed.  When the database can be used and the account number is
    an integer literal the rows with that number and balance 0 are
    deleted, whatever is answered.  With a connector whose closed
    cursor still holds its count, the answer is "AR" exactly when the
    database can be used and the account number is an integer literal
    naming a row with balance 0, and after "ER Cannot remove account"
    the table is as it was.  With a connector whose closing resets the
    count, the answer is "ER Cannot remove account" always. *)
Theorem local_removal command address w cs v ref acct :
  Py.split (Py.strip command) = [v; ref] ->
  Py.upper v = "AR" ->
  Py.split_on "/" ref = [acct; HOST cfg] ->
  exists ok w',
    AccountRepository.remove acct w = (Ret ok, w')
    /\ CommandHandler.process_command node command address (w, cs)
       = (Ret (if ok then "AR" else "ER Cannot remove account"),
          (w', (cs ++ [GetLocalIp; Remove acct])%list))
    /\ (forall r, In r (rows (db w)) -> balance r <> 0 -> In r (rows (db w')))
    /\ total (rows (db w')) = total (rows (db w))
    /\ (db_up w ->
        forall n, Py.int acct = Some n ->
          let cond := fun r => AccountRepository.has_number n r
                               && (balance r =? 0) in
          rows (db w') = filter (fun r => negb (cond r)) (rows (db w))
          /\ ok = (0 <? closed_rowcount (db w)
                          (Z.of_nat (List.length (filter cond (rows (db w)))))))
    /\ (db_fails (db w) (db_uses (db w)) = true \/ Py.int acct = None ->
        ok = false /\ rows (db w') = rows (db w))
    /\ ((forall k, closed_rowcount (db w) k = k) ->
        (ok = true <->
         db_up w
         /\ exists n, Py.int acct = Some n
                      /\ exists r, In r (rows (db w)) /\ account_number r = n
                                   /\ balance r = 0)
        /\ (ok = false -> rows (db w') = rows (db w)))
    /\ ((forall k, closed_rowcount (db w) k = -1) -> ok = false).
Proof.
  intros H Hv Hs.
  destruct (remove_facts acct w)
    as (ok & w' & E & T & _ & Z0 & U & D & K & P & _).
  exists ok, w'. split; [exact E|]. split.
  - rewrite (process_dispatch node _ _ _ _ _ H), Hv. to_repository.
    rewrite E. now rewrite <- app_assoc.
  - split; [exact Z0|]. split; [exact T|]. split; [exact U|].
    split; [exact D|]. split.
    + intros Hk. destruct (K Hk) as [F I]. now split.
    + intros Hp. now destruct (P Hp).
Qed.

End NodeLocal.

(** ** More on the peer forwarder and on account creation *)

Lemma probe_events cfg peer_ip payload start ports evs resp :
  probe cfg peer_ip payload start ports evs resp ->
  forall e, In e evs ->
    (exists t, e = Time t)
    \/ (exists port reply,
          e = Connect peer_ip port (TIMEOUT cfg) payload reply /\ In port ports).
Proof.
  induction 1; intros e He; simpl in He.
  - contradiction.
  - destruct He as [<-|[]]. left. eauto.
  - destruct He as [<-|[<-|[]]]; [left; eauto|].
    right. exists port, (Some data). split; [reflexivity | now left].
  - destruct He as [<-|[<-|He]]; [left; eauto| |].
    + right. exists port, None. split; [reflexivity | now left].
    + destruct (IHprobe e He) as [?|(p & r & -> & I)]; [now left|].
      right. exists p, r. split; [reflexivity | now right].
Qed.

(** X14.  Whatever the peers do, [forward_to_peer] only reads the clock
    and connects: every connection it makes is to the address it was
    given, on one of the candidate ports, with the budget as timeout,
    and what it sends is the command followed by one line feed.  It
    leaves the database as it was. *)
Theorem forward_sends_the_command cfg peer_ip command w :
  exists resp w' evs,
    BankServer.forward_to_peer cfg peer_ip command w = (Ret resp, w')
    /\ events w' = (events w ++ evs)%list
    /\ db w' = db w
    /\ forall e, In e evs ->
         (exists t, e = Time t)
         \/ (exists port reply,
               e = Connect peer_ip port (TIMEOUT cfg) (command ++ Py.str_nl) reply
               /\ 65525 <= port <= 65535).
Proof.
  destruct (forward_probe cfg peer_ip command w)
    as (resp & w' & evs & E & Ev & Db & Pr).
  exists resp, w', (Time (clock w (clock_reads w)) :: evs).
  split; [exact E|]. split; [exact Ev|]. split; [exact Db|].
  intros e [<-|He]; [left; eauto|].
  destruct (probe_events _ _ _ _ _ _ _ Pr e He) as [?|(p & r & -> & I)];
    [now left|].
  right. exists p, r. split; [reflexivity|].
  change BankServer.possible_ports
    with [65525; 65526; 65527; 65528; 65529; 65530; 65531; 65532; 65533;
          65534; 65535] in I.
  simpl in I. lia.
Qed.

(** X15.  When the database cannot be reached, an account creation
    draws one number, takes the failed existence check for "absent",
    fails to insert, and answers "ER Database error"; it does not try
    another number, and the table is as it was. *)
Theorem create_account_database_down ip w :
  db_fails (db w) (db_uses (db w)) = true ->
  db_fails (db w) (S (db_uses (db w))) = true ->
  exists w',
    BankServer.create_account ip w = (Ret "ER Database error", w')
    /\ rows (db w') = rows (db w)
    /\ draws w' = S (draws w)
    /\ exists n,
        events w'
        = (events w ++ [Randint 10000 99999 n; RepoAccountExists n false;
                        RepoCreateAccount n ip false])%list.
Proof.
  intros F1 F2. unfold BankServer.create_account.
  change (Py.range 0 5) with [0; 1; 2; 3; 4].
  cbn [for_in]. unfold bind at 1. unfold bind at 1. unfold randint at 1.
  unfold bind at 1.
  unfold AccountRepository.account_exists at 1.
  unfold logged, try_except_Exception, bind at 1, AccountRepository.connect.
  cbn [db log set_db db_fails db_uses]. rewrite F1. unfold ret at 1.
  cbn [negb]. unfold bind at 1.
  unfold AccountRepository.create_account at 1.
  unfold logged, try_except_Exception, bind at 1, AccountRepository.connect.
  cbn [db log set_db db_fails db_uses]. rewrite F2. unfold ret.
  eexists. split; [reflexivity|]. cbn [db log set_db rows draws events].
  split; [reflexivity|]. split; [reflexivity|].
  eexists. now rewrite <- !app_assoc.
Qed.

(** ** What the node sends *)

Lemma sent_app evs1 evs2 : sent (evs1 ++ evs2) = (sent evs1 ++ sent evs2)%list.
Proof.
  induction evs1 as [|e evs1 IH]; simpl; [reflexivity|].
  destruct e; simpl; now rewrite ?IH.
Qed.

Lemma grows_silently_refl w : grows_silently w w.
Proof. exists []. now rewrite app_nil_r. Qed.

Lemma grows_silently_trans w1 w2 w3 :
  grows_silently w1 w2 -> grows_silently w2 w3 -> grows_silently w1 w3.
Proof.
  intros (e1 & E1 & S1) (e2 & E2 & S2). exists (e1 ++ e2)%list.
  rewrite E2, E1, <- app_assoc, sent_app, S1, S2. now split.
Qed.

Lemma grows_by_one w w' e :
  events w' = (events w ++ [e])%list -> sent [e] = [] -> grows_silently w w'.
Proof. intros E S. exists [e]. now split. Qed.

Lemma probe_sent cfg peer_ip payload start ports evs resp :
  probe cfg peer_ip payload start ports evs resp -> sent evs = [].
Proof. induction 1; simpl; auto. Qed.

Lemma sent_taken ns : sent (flat_map taken ns) = [].
Proof. induction ns as [|n ns IH]; simpl; auto. Qed.

Lemma node_silent cfg : kept_by (BankServer.ops cfg) grows_silently.
Proof.
  unfold kept_by. cbn [srv_get_local_ip srv_create_account srv_forward_to_peer
                         srv_account_repository BankServer.ops
                         repo_get_balance repo_deposit repo_withdraw
                         repo_remove repo_get_total_balance
                         repo_count_accounts AccountRepository.ops].
  repeat split.
  - intros w. apply grows_silently_refl.
  - intros ip w.
    destruct (create_loop ip (Py.range 0 5) w) as (r & w' & k & E & _ & Hc).
    change (for_in (Py.range 0 5) _ _ w)
      with (BankServer.create_account ip w) in E.
    rewrite E. cbn [snd].
    destruct Hc as [(_ & Ev & _)|(_ & ok & Ev & _)].
    + eexists. split; [exact Ev | apply sent_taken].
    + cbv zeta in Ev. eexists. split; [exact Ev|].
      rewrite sent_app, sent_taken. reflexivity.
  - intros ip c w.
    destruct (forward_probe cfg ip c w) as (r & w' & evs & E & Ev & _ & Pr).
    rewrite E. cbn [snd]. eexists. split; [exact Ev|].
    simpl. eapply probe_sent; eassumption.
  - intros n w. destruct (get_balance_spec n w) as (w' & E & _ & Ev).
    cbv zeta in E, Ev. rewrite E. eapply grows_by_one; [exact Ev | reflexivity].
  - intros n a w.
    destruct (deposit_facts n a w) as (ok & w' & E & _ & _ & _ & _ & _ & Ev).
    rewrite E. eapply grows_by_one; [exact Ev | reflexivity].
  - intros n a w.
    destruct (withdraw_facts n a w)
      as (ok & w' & E & _ & _ & _ & _ & _ & _ & Ev).
    rewrite E. eapply grows_by_one; [exact Ev | reflexivity].
  - intros n w.
    destruct (remove_facts n w)
      as (ok & w' & E & _ & _ & _ & _ & _ & _ & _ & Ev).
    rewrite E. eapply grows_by_one; [exact Ev | reflexivity].
  - intros w. destruct (get_total_balance_spec w) as (w' & E & _ & Ev).
    cbv zeta in E, Ev. rewrite E. eapply grows_by_one; [exact Ev | reflexivity].
  - intros w. destruct (count_accounts_spec w) as (w' & E & _ & Ev).
    cbv zeta in E, Ev. rewrite E. eapply grows_by_one; [exact Ev | reflexivity].
Qed.

Lemma process_returns {W} (server : ServerOps W) command address s :
  exists resp s',
    CommandHandler.process_command server command address s = (Ret resp, s').
Proof.
  destruct (Py.split (Py.strip command)) as [|v rest] eqn:H.
  - rewrite (process_blank _ _ _ _ H). eauto.
  - rewrite (process_dispatch _ _ _ _ _ _ H).
    destruct (CommandHandler.dispatch _ _ _ _ _) as [[r|e] s']; eauto.
Qed.

(** One line of the buffer on the node: the handler returns, and what
    it has sent is nothing for a blank line and one response with a line
    feed otherwise. *)
Lemma line_sent cfg line address s :
  exists s' evs,
    BankServer.handle_client_line cfg line address s = (Ret tt, s')
    /\ events (fst s') = (events (fst s) ++ evs)%list
    /\ (blank line = true -> sent evs = [] /\ s' = s)
    /\ (blank line = false -> exists resp, sent evs = [resp ++ Py.str_nl]).
Proof.
  unfold BankServer.handle_client_line, blank.
  destruct (Py.strip line =? "")%string eqn:B.
  - exists s, []. rewrite app_nil_r. repeat split; auto. discriminate.
  - unfold bind at 1. unfold BankServer.on_world at 1, time_time at 1.
    unfold bind at 1.
    match goal with
    | |- context [CommandHandler.process_command ?n ?c ?a ?s1] =>
        destruct (process_returns n c a s1) as (resp & s2 & E);
        assert (G := process_kept n grows_silently grows_silently_refl
                       grows_silently_trans (node_silent cfg) c a s1);
        rewrite E in *
    end.
    cbn [fst snd] in G. destruct G as (evs & Ev & Sv).
    unfold bind, BankServer.on_world, time_time, sendall. cbn [fst snd].
    eexists _, _. split; [reflexivity|]. cbn [fst events log].
    rewrite Ev. cbn [events log]. split.
    + rewrite <- !app_assoc. reflexivity.
    + split; [discriminate|]. intros _. eexists.
      cbn [app sent]. rewrite sent_app, Sv. reflexivity.
Qed.

(** ** The session handler *)

Lemma bind_assoc {S A B C} (m : Eff S A) (f : A -> Eff S B) (g : B -> Eff S C) s :
  bind (bind m f) g s = bind m (fun a => bind (f a) g) s.
Proof. unfold bind. destruct (m s) as [[a|e] s1]; reflexivity. Qed.

Lemma bind_ext {S A B} (m : Eff S A) (f g : A -> Eff S B) s :
  (forall a s1, f a s1 = g a s1) -> bind m f s = bind m g s.
Proof. intros H. unfold bind. destruct (m s) as [[a|e] s1]; auto. Qed.

Lemma bind_cong {S A B} (m m' : Eff S A) (k : A -> Eff S B) s :
  m s = m' s -> bind m k s = bind m' k s.
Proof. intros H. unfold bind. now rewrite H. Qed.

Lemma bind_ret {S A B} (a : A) (k : A -> Eff S B) s : bind (ret a) k s = k a s.
Proof. reflexivity. Qed.

Lemma has_char_app c a b : has_char c (a ++ b) = has_char c a || has_char c b.
Proof.
  induction a as [|x a IH]; simpl; [reflexivity|].
  now rewrite IH, orb_assoc.
Qed.

Lemma split1_none c s : Py.split1 c s = None -> has_char c s = false.
Proof.
  induction s as [|x s IH]; simpl; [reflexivity|].
  destruct (Ascii.eqb x c); [discriminate|].
  destruct (Py.split1 c s) as [[l r]|]; [discriminate|]. auto.
Qed.

Lemma split1_some c s l r :
  Py.split1 c s = Some (l, r) -> s = l ++ String c r /\ has_char c l = false.
Proof.
  revert l; induction s as [|x s IH]; simpl; intros l H; [discriminate|].
  destruct (Ascii.eqb_spec x c) as [-> | N].
  - injection H as <- <-. now split.
  - destruct (Py.split1 c s) as [[l' r']|]; [|discriminate].
    injection H as <- <-. destruct (IH l' eq_refl) as [-> C].
    split; [reflexivity|]. simpl. rewrite C.
    apply Ascii.eqb_neq in N. now rewrite N.
Qed.

Lemma lines_clean line x y :
  has_char (ascii_of_nat 10) x = false ->
  complete_lines line (x ++ y) = complete_lines (line ++ x) y
  /\ after_lines line (x ++ y) = after_lines (line ++ x) y.
Proof.
  revert line; induction x as [|c x IH]; intros line H.
  - simpl. now rewrite append_empty_r.
  - simpl in H. apply orb_false_iff in H. destruct H as [Hc Hx].
    cbn [append complete_lines after_lines]. rewrite Hc.
    destruct (IH (line ++ String c "") Hx) as [-> ->].
    now rewrite append_assoc.
Qed.

Lemma lines_app line x y :
  complete_lines line (x ++ y)
  = (complete_lines line x ++ complete_lines (after_lines line x) y)%list
  /\ after_lines line (x ++ y) = after_lines (after_lines line x) y.
Proof.
  revert line; induction x as [|c x IH]; intros line.
  - now split.
  - cbn [append complete_lines after_lines].
    destruct (Ascii.eqb c (ascii_of_nat 10)).
    + destruct (IH "") as [-> ->]. now split.
    + apply IH.
Qed.

Lemma after_clean line b :
  has_char (ascii_of_nat 10) line = false ->
  has_char (ascii_of_nat 10) (after_lines line b) = false.
Proof.
  revert line; induction b as [|c b IH]; intros line H; [exact H|].
  cbn [after_lines]. destruct (Ascii.eqb c (ascii_of_nat 10)) eqn:C.
  - now apply IH.
  - apply IH. rewrite has_char_app, H. simpl. now rewrite C.
Qed.

Lemma lines_all_clean line b :
  has_char (ascii_of_nat 10) line = false ->
  Forall (fun l => has_char (ascii_of_nat 10) l = false) (complete_lines line b).
Proof.
  revert line; induction b as [|c b IH]; intros line H; [constructor|].
  cbn [complete_lines]. destruct (Ascii.eqb c (ascii_of_nat 10)) eqn:C.
  - constructor; [exact H | now apply IH].
  - apply IH. rewrite has_char_app, H. simpl. now rewrite C.
Qed.

Lemma lines_rebuild line b :
  fold_right (fun l acc => l ++ Py.str_nl ++ acc) (after_lines line b)
    (complete_lines line b)
  = line ++ b.
Proof.
  revert line; induction b as [|c b IH]; intros line;
    [simpl; now rewrite append_empty_r|].
  cbn [complete_lines after_lines].
  destruct (Ascii.eqb_spec c (ascii_of_nat 10)) as [-> | N].
  - cbn [fold_right]. rewrite IH. reflexivity.
  - rewrite IH. now rewrite append_assoc.
Qed.

Lemma length_append a b : String.length (a ++ b) = (String.length a + String.length b)%nat.
Proof. induction a as [|x a IH]; simpl; [reflexivity | now rewrite IH]. Qed.

Section Session.

Variable cfg : Config.
Variable address : string * Z.

Lemma each_line_app {A} l1 l2 (k : unit -> Eff _ A) s :
  bind (each_line cfg (l1 ++ l2) address) k s
  = bind (each_line cfg l1 address)
      (fun _ => bind (each_line cfg l2 address) k) s.
Proof.
  revert s; induction l1 as [|l l1 IH]; intros s.
  - reflexivity.
  - cbn [app each_line]. rewrite !bind_assoc. apply bind_ext.
    intros _ s1. apply IH.
Qed.

(** The inner loop as the handling of the complete lines. *)
Lemma take_lines_eq fuel buffer s :
  (String.length buffer <= fuel)%nat ->
  BankServer.take_lines cfg fuel buffer address s
  = bind (each_line cfg (complete_lines "" buffer) address)
      (fun _ => ret (after_lines "" buffer)) s.
Proof.
  revert buffer s; induction fuel as [|fuel IH]; intros buffer s L.
  - destruct buffer; [reflexivity | simpl in L; lia].
  - cbn [BankServer.take_lines].
    destruct (Py.split1 (ascii_of_nat 10) buffer) as [[l r]|] eqn:S1.
    + apply split1_some in S1. destruct S1 as [-> C].
      destruct (lines_clean "" l (String (ascii_of_nat 10) r) C) as [-> ->].
      cbn [append complete_lines after_lines Ascii.eqb Bool.eqb ascii_of_nat].
      change (Ascii.eqb (ascii_of_nat 10) (ascii_of_nat 10)) with true.
      cbv iota. cbn [each_line]. rewrite bind_assoc. apply bind_ext.
      intros _ s1. apply IH.
      rewrite length_append in L. simpl in L. lia.
    + apply split1_none in S1.
      destruct (lines_clean "" buffer "" S1) as [E1 E2].
      rewrite append_empty_r in E1, E2. rewrite E1, E2. reflexivity.
Qed.

(** X16.  The inner loop of [handle_client] handles, in order, exactly
    the lines of the buffer that a line feed ends, and leaves the text
    after the last line feed: the lines, each followed by a line feed,
    and the text left make up the buffer, and neither a line nor the
    text left holds a line feed. *)
Theorem take_lines_outcome buffer s :
  BankServer.take_lines cfg (String.length buffer) buffer address s
  = bind (each_line cfg (complete_lines "" buffer) address)
      (fun _ => ret (after_lines "" buffer)) s
  /\ fold_right (fun l acc => l ++ Py.str_nl ++ acc) (after_lines "" buffer)
       (complete_lines "" buffer) = buffer
  /\ has_char (ascii_of_nat 10) (after_lines "" buffer) = false
  /\ Forall (fun l => has_char (ascii_of_nat 10) l = false)
       (complete_lines "" buffer).
Proof.
  split; [apply take_lines_eq; lia|]. split; [apply (lines_rebuild "")|].
  split; [now apply after_clean | now apply lines_all_clean].
Qed.

(** The outer loop over chunks of text as the handling of the complete
    lines of the text put end to end. *)
Lemma receive_chunks chunks rest buffer s :
  Forall (fun c => c <> "") chunks ->
  has_char (ascii_of_nat 10) buffer = false ->
  BankServer.receive cfg (map BankServer.Data chunks ++ rest) buffer address s
  = bind (each_line cfg (complete_lines "" (buffer ++ joined chunks)) address)
      (fun _ => BankServer.receive cfg rest
                  (after_lines "" (buffer ++ joined chunks)) address) s.
Proof.
  intros Hc. revert buffer s; induction Hc as [|c chunks Hne _ IH];
    intros buffer s Hb.
  - cbn [map app joined fold_right]. rewrite append_empty_r.
    destruct (lines_clean "" buffer "" Hb) as [E1 E2].
    rewrite append_empty_r in E1, E2. rewrite E1, E2. reflexivity.
  - cbn [map app BankServer.receive].
    apply String.eqb_neq in Hne. rewrite Hne. cbv zeta.
    rewrite (bind_cong _ _ _ s (take_lines_eq _ _ s (le_n _))).
    rewrite bind_assoc.
    change (joined (c :: chunks)) with (c ++ joined chunks).
    rewrite <- append_assoc.
    destruct (lines_app "" (buffer ++ c) (joined chunks)) as [-> ->].
    rewrite each_line_app. apply bind_ext. intros _ s1.
    rewrite bind_ret.
    assert (Cl := after_clean "" (buffer ++ c) eq_refl).
    rewrite (IH _ s1 Cl).
    destruct (lines_clean "" (after_lines "" (buffer ++ c)) (joined chunks) Cl)
      as [-> ->].
    reflexivity.
Qed.

(** X17.  The text of a session is handled the same however it is
    spread over the chunks of text that the successive [recv]s give
    once decoded: two sequences of such chunks, none of them empty,
    that put end to end give the same text are handled in the same way,
    with the same result and the same world after.  (This is about
    chunks that are text.  Bytes that do not decode on their own, as
    when a character of several bytes is cut in two, are not a chunk of
    text but an exception of receiving, [Broken], which ends the
    session.) *)
Theorem chunking_is_irrelevant chunks1 chunks2 rest s :
  Forall (fun c => c <> "") chunks1 ->
  Forall (fun c => c <> "") chunks2 ->
  joined chunks1 = joined chunks2 ->
  BankServer.handle_client cfg (map BankServer.Data chunks1 ++ rest) address s
  = BankServer.handle_client cfg (map BankServer.Data chunks2 ++ rest) address s.
Proof.
  intros H1 H2 J. unfold BankServer.handle_client, try_except_Exception.
  rewrite (receive_chunks chunks1 rest "" s H1 eq_refl).
  rewrite (receive_chunks chunks2 rest "" s H2 eq_refl).
  now rewrite J.
Qed.

Lemma each_line_sent lines s :
  exists s' evs,
    each_line cfg lines address s = (Ret tt, s')
    /\ events (fst s') = (events (fst s) ++ evs)%list
    /\ List.length (sent evs)
       = List.length (filter (fun l => negb (blank l)) lines)
    /\ Forall (fun r => exists resp, r = resp ++ Py.str_nl) (sent evs).
Proof.
  revert s; induction lines as [|l lines IH]; intros s.
  - exists s, []. rewrite app_nil_r. repeat split. constructor.
  - cbn [each_line filter].
    destruct (line_sent cfg l address s) as (s1 & e1 & E1 & Ev1 & Bt & Bf).
    destruct (IH s1) as (s2 & e2 & E2 & Ev2 & L2 & F2).
    exists s2, (e1 ++ e2)%list. unfold bind. rewrite E1, E2.
    split; [reflexivity|]. split; [now rewrite Ev2, Ev1, <- app_assoc|].
    rewrite sent_app. destruct (blank l) eqn:B; cbn [negb].
    + destruct (Bt eq_refl) as [-> _]. now split.
    + destruct (Bf eq_refl) as [resp ->]. cbn [app List.length]. split.
      * now rewrite L2.
      * constructor; [eauto | exact F2].
Qed.

(** X18.  Take a session that receives chunks of text, none of them
    empty, and then ends: the peer closes, the client times out, or
    receiving raises (or nothing more is at hand).  [handle_client]
    returns without raising, sending being taken not to fail.  What
    it has sent is one response, ended by a line feed, for every line of
    the text that a line feed ends and that is not blank, followed by
    "ER Connection timed out" after a timeout and by "ER Internal server
    error" after an exception, and by nothing when the peer closed.
    Text after the last line feed is never processed, and nothing that
    would be received after the end is looked at. *)
Theorem session_transcript chunks rest s :
  Forall (fun c => c <> "") chunks ->
  (rest = [] \/ exists r rest', rest = r :: rest' /\ stops r = true) ->
  exists s' evs responses,
    BankServer.handle_client cfg (map BankServer.Data chunks ++ rest) address s
    = (Ret tt, s')
    /\ events (fst s') = (events (fst s) ++ evs)%list
    /\ sent evs = (responses ++ farewell rest)%list
    /\ List.length responses
       = List.length (filter (fun l => negb (blank l))
                        (complete_lines "" (joined chunks)))
    /\ Forall (fun r => exists resp, r = resp ++ Py.str_nl) responses.
Proof.
  intros Hc Hr. unfold BankServer.handle_client, try_except_Exception.
  rewrite (receive_chunks chunks rest "" s Hc eq_refl).
  cbn [append].
  destruct (each_line_sent (complete_lines "" (joined chunks)) s)
    as (s1 & evs & E & Ev & L & F).
  unfold bind. rewrite E.
  destruct Hr as [-> | (r & rest' & -> & St)].
  - exists s1, evs, (sent evs). cbn [BankServer.receive farewell].
    rewrite app_nil_r. now repeat split.
  - destruct r as [text| |e]; cbn [BankServer.receive farewell stops] in *.
    + rewrite St. exists s1, evs, (sent evs). rewrite app_nil_r.
      now repeat split.
    + unfold BankServer.on_world, sendall. cbn [fst snd].
      eexists _, (evs ++ [Sent _])%list, (sent evs).
      split; [reflexivity|]. cbn [fst events log].
      split; [now rewrite Ev, <- app_assoc|].
      split; [now rewrite sent_app|]. now split.
    + unfold raise, BankServer.on_world, sendall. cbn [fst snd].
      eexists _, (evs ++ [Sent _])%list, (sent evs).
      split; [reflexivity|]. cbn [fst events log].
      split; [now rewrite Ev, <- app_assoc|].
      split; [now rewrite sent_app|]. now split.
Qed.

End Session.

(** ** The console *)

Lemma print_each accounts closing w :
  exists w',
    for_in accounts
      (fun account =>
         bind (print (Console.account_line account)) (fun _ => ret None))
      (print closing) w
    = (Ret tt, w')
    /\ db w' = db w
    /\ events w'
       = (events w
          ++ map Printed (map Console.account_line accounts ++ [closing]))%list.
Proof.
  revert w; induction accounts as [|a accounts IH]; intros w.
  - eexists. repeat split.
  - cbn [for_in]. unfold bind at 1 2, print at 1, ret at 1.
    destruct (IH (log (Printed (Console.account_line a)) w))
      as (w' & E & D & Ev).
    exists w'. split; [exact E|]. split; [exact D|].
    rewrite Ev. cbn [events log map app]. now rewrite <- app_assoc.
Qed.

(** X19.  What the console program puts on the standard output, and
    nothing else: when the database cannot be used, two lines, the
    error line of the logger ("[ERROR] Error fetching accounts: " and
    the text of the exception) and then "No accounts found in the
    database."; when the table is empty, that last line alone;
    otherwise a heading, a rule of forty dashes, one line for each row
    in the order of the table with its number and balance, and the rule
    again.  It never changes the table. *)
Theorem console_report w :
  exists w' evs,
    Console.main w = (Ret tt, w')
    /\ events w' = (events w ++ evs)%list
    /\ rows (db w') = rows (db w)
    /\ (db_fails (db w) (db_uses (db w)) = true ->
        exists e,
          evs = [LoggedError "Error fetching accounts: " e;
                 Printed "No accounts found in the database."])
    /\ (db_fails (db w) (db_uses (db w)) = false -> rows (db w) = [] ->
        evs = [Printed "No accounts found in the database."])
    /\ (db_fails (db w) (db_uses (db w)) = false -> rows (db w) <> [] ->
        evs
        = map Printed
            ("List of all accounts:" :: Py.repeat "-" 40
             :: List.app
                  (map (fun r => "Account: " ++ Py.str (account_number r)
                                 ++ " | Balance: " ++ Py.str (balance r))
                     (rows (db w)))
                  [Py.repeat "-" 40])
        /\ String.length (Py.repeat "-" 40) = 40%nat).
Proof.
  unfold Console.main, AccountRepository.get_all_accounts,
    try_except_Exception, bind at 1 2 3, AccountRepository.connect,
    AccountRepository.get_rows, ret at 1 2, Logger.error.
  destruct (db_fails (db w) (db_uses (db w))).
  - unfold bind, ret, print. eexists _, [_; _].
    split; [reflexivity|]. cbn [events log db set_db rows].
    split; [now rewrite <- app_assoc|]. split; [reflexivity|].
    split; [intros _; eexists; reflexivity|]. split; discriminate.
  - cbn [db set_db rows].
    destruct (rows (db w)) as [|r rs] eqn:R; cbn [map].
    + unfold print. eexists _, [_]. split; [reflexivity|].
      cbn [events log db set_db rows]. split; [reflexivity|].
      split; [reflexivity|]. split; [discriminate|].
      split; [reflexivity|]. intros _ N. now destruct N.
    + unfold bind at 1 2, print at 1 2.
      match goal with
      | |- context [for_in ?accs _ (print ?c) ?w1] =>
          destruct (print_each accs c w1) as (w' & E & D & Ev)
      end.
      exists w'. eexists. split; [exact E|]. split.
      { rewrite Ev. cbn [events log]. rewrite <- !app_assoc.
        cbn [app]. reflexivity. }
      rewrite D. cbn [db set_db rows log]. split; [reflexivity|].
      split; [discriminate|]. split; [discriminate|]. intros _ _.
      split; [|reflexivity].
      cbn [map app]. unfold Console.account_line. cbn [fst snd].
      do 3 f_equal. rewrite !map_app, !map_map. reflexivity.
Qed.

(** ** The further properties on the sample node *)

Lemma database_failure_witness :
  fst (AccountRepository.deposit "12345" 5 Sample.down_world) = Ret false
  /\ fst (AccountRepository.get_balance "12345" Sample.down_world) = Ret None
  /\ rows (db (snd (AccountRepository.remove "12345" Sample.down_world)))
     = rows (db Sample.down_world).
Proof.
  destruct (database_failure 12345 "127.0.0.1" "12345" 5 Sample.down_world)
    as ((_ & B & D & _) & (_ & _ & _ & _ & R & _)).
  - reflexivity.
  - split; [exact D|]. split; [exact B | exact R].
Defined.

Lemma create_account_then_exists_witness :
  total (rows (db (snd (AccountRepository.create_account 777 "10.0.0.7"
                          Sample.still_world))))
  = total (rows (db Sample.still_world)).
Proof.
  destruct (AccountRepository.create_account 777 "10.0.0.7" Sample.still_world)
    as [r w1] eqn:E.
  assert (F : fst (AccountRepository.create_account 777 "10.0.0.7"
                     Sample.still_world) = Ret true)
    by (vm_compute; reflexivity).
  rewrite E in F. cbn [fst snd] in *. subst r.
  exact (proj1 (proj2 (create_account_then_exists 777 "10.0.0.7"
                         Sample.still_world w1 E))).
Defined.

Lemma bank_code_response_witness :
  fst (CommandHandler.process_command (BankServer.ops Sample.cfg)
         " bc " Sample.client (Sample.still_world, []))
  = Ret "BC 127.0.0.1".
Proof.
  rewrite (bank_code_response (BankServer.ops Sample.cfg) " bc " Sample.client
             (Sample.still_world, []) "bc" [] eq_refl eq_refl).
  reflexivity.
Defined.

Lemma tokens_decide_witness :
  CommandHandler.process_command (BankServer.ops Sample.cfg)
    "  ad   12345/127.0.0.1  5 " ("10.0.0.7", 50000) (Sample.still_world, [])
  = CommandHandler.process_command (BankServer.ops Sample.cfg)
      "AD 12345/127.0.0.1 5" ("10.0.0.7", 50001) (Sample.still_world, []).
Proof.
  apply (tokens_decide (BankServer.ops Sample.cfg) _ _ "10.0.0.7" 50000 50001
           (Sample.still_world, []) "ad" "AD" ["12345/127.0.0.1"; "5"]);
    reflexivity.
Defined.


Lemma bank_totals_witness :
  fst (CommandHandler.process_command (BankServer.ops Sample.cfg)
         "BA" Sample.client (Sample.down_world, []))
  = Ret "BA None"
  /\ fst (CommandHandler.process_command (BankServer.ops Sample.cfg)
            "bn" Sample.client (Sample.still_world, []))
     = Ret "BN 1".
Proof.
  split.
  - destruct (bank_totals Sample.cfg "BA" Sample.client Sample.down_world []
                "BA" [] eq_refl) as [A _].
    destruct (A eq_refl) as (w' & E & _). rewrite E. reflexivity.
  - destruct (bank_totals Sample.cfg "bn" Sample.client Sample.still_world []
                "bn" [] eq_refl) as [_ N].
    destruct (N eq_refl) as (w' & E & _). rewrite E. reflexivity.
Defined.

Lemma local_deposit_witness :
  fst (CommandHandler.process_command (BankServer.ops Sample.cfg)
         "AD 12345/127.0.0.1 5" Sample.client (Sample.still_world, []))
  = Ret "AD"
  /\ fst (CommandHandler.process_command (BankServer.ops Sample.cfg)
            "AD 12345/127.0.0.1 5" Sample.client (Sample.pure_world, []))
     = Ret "ER Deposit failed"
  /\ total (rows (db (fst (snd (CommandHandler.process_command
                                  (BankServer.ops Sample.cfg)
                                  "AD 12345/127.0.0.1 5" Sample.client
                                  (Sample.pure_world, []))))))
     = 105.
Proof.
  split.
  - destruct (local_deposit Sample.cfg "AD 12345/127.0.0.1 5" Sample.client
                Sample.still_world [] "AD" "12345/127.0.0.1" "5" 5 "12345"
                eq_refl eq_refl eq_refl eq_refl)
      as (ok & w' & _ & E & _ & _ & K & _).
    rewrite E. cbn [fst].
    destruct (K (fun k => eq_refl)) as (I & _).
    assert (O : ok = true).
    { apply I. split; [reflexivity|]. exists 12345.
      split; [reflexivity|]. split; [now left | right; discriminate]. }
    now rewrite O.
  - destruct (local_deposit Sample.cfg "AD 12345/127.0.0.1 5" Sample.client
                Sample.pure_world [] "AD" "12345/127.0.0.1" "5" 5 "12345"
                eq_refl eq_refl eq_refl eq_refl)
      as (ok & w' & _ & E & U & _ & _ & P).
    rewrite E. cbn [fst snd]. rewrite (P (fun k => eq_refl)).
    split; [reflexivity|].
    destruct (U eq_refl 12345 eq_refl) as [R _]. rewrite R. reflexivity.
Defined.

Lemma local_withdrawal_witness :
  fst (CommandHandler.process_command (BankServer.ops Sample.cfg)
         "AW 12345/127.0.0.1 40" Sample.client (Sample.still_world, []))
  = Ret "AW"
  /\ fst (CommandHandler.process_command (BankServer.ops Sample.cfg)
            "AW 12345/127.0.0.1 40" Sample.client (Sample.pure_world, []))
     = Ret "ER Not enough funds"
  /\ total (rows (db (fst (snd (CommandHandler.process_command
                                  (BankServer.ops Sample.cfg)
                                  "AW 12345/127.0.0.1 40" Sample.client
                                  (Sample.pure_world, []))))))
     = 60.
Proof.
  split.
  - destruct (local_withdrawal Sample.cfg "AW 12345/127.0.0.1 40" Sample.client
                Sample.still_world [] "AW" "12345/127.0.0.1" "40" 40 "12345"
                eq_refl eq_refl eq_refl eq_refl)
      as (ok & w' & _ & E & _ & _ & _ & K & _).
    rewrite E. cbn [fst].
    destruct (K (fun k => eq_refl)) as (I & _).
    assert (O : ok = true).
    { apply I. split; [reflexivity|]. exists 12345.
      split; [reflexivity|]. split; [|right; discriminate].
      eexists. split; [now left|]. split; [reflexivity | discriminate]. }
    now rewrite O.
  - destruct (local_withdrawal Sample.cfg "AW 12345/127.0.0.1 40" Sample.client
                Sample.pure_world [] "AW" "12345/127.0.0.1" "40" 40 "12345"
                eq_refl eq_refl eq_refl eq_refl)
      as (ok & w' & _ & E & _ & U & _ & _ & P).
    rewrite E. cbn [fst snd]. rewrite (P (fun k => eq_refl)).
    split; [reflexivity|].
    destruct (U eq_refl 12345 eq_refl) as [R _]. cbv zeta in R.
    rewrite R. reflexivity.
Defined.

Lemma local_balance_witness :
  fst (CommandHandler.process_command (BankServer.ops Sample.cfg)
         "AB 12345/127.0.0.1" Sample.client (Sample.still_world, []))
  = Ret "AB 100"
  /\ fst (CommandHandler.process_command (BankServer.ops Sample.cfg)
            "AB 12345/127.0.0.1" Sample.client (Sample.doubled_world, []))
     = Ret "ER Account not found".
Proof.
  split.
  - destruct (local_balance Sample.cfg "AB 12345/127.0.0.1" Sample.client
                Sample.still_world [] "AB" "12345/127.0.0.1" "12345"
                eq_refl eq_refl eq_refl)
      as (w' & E & _).
    rewrite E. reflexivity.
  - destruct (local_balance Sample.cfg "AB 12345/127.0.0.1" Sample.client
                Sample.doubled_world [] "AB" "12345/127.0.0.1" "12345"
                eq_refl eq_refl eq_refl)
      as (w' & E & _).
    rewrite E. reflexivity.
Defined.

Lemma local_removal_witness :
  exists w',
    CommandHandler.process_command (BankServer.ops Sample.cfg)
      "AR 12345/127.0.0.1" Sample.client (Sample.still_world, [])
    = (Ret "ER Cannot remove account", (w', [GetLocalIp; Remove "12345"]))
    /\ rows (db w') = rows (db Sample.still_world).
Proof.
  destruct (local_removal Sample.cfg "AR 12345/127.0.0.1" Sample.client
              Sample.still_world [] "AR" "12345/127.0.0.1" "12345"
              eq_refl eq_refl eq_refl)
    as (ok & w' & _ & E & _ & _ & U & _).
  destruct (U eq_refl 12345 eq_refl) as [R O]. cbv zeta in R, O.
  exists w'. rewrite E, R, O. split; reflexivity.
Defined.




Lemma console_report_witness :
  exists e,
    events (snd (Console.main Sample.down_world))
    = [LoggedError "Error fetching accounts: " e;
       Printed "No accounts found in the database."].
Proof.
  destruct (console_report Sample.down_world)
    as (w' & evs & E & Ev & _ & F & _).
  destruct (F eq_refl) as [e He]. exists e.
  rewrite E. cbn [snd]. rewrite Ev, He. reflexivity.
Defined.

Lemma create_account_database_down_witness :
  fst (BankServer.create_account "10.0.0.7" Sample.down_world)
  = Ret "ER Database error".
Proof.
  destruct (create_account_database_down "10.0.0.7" Sample.down_world
              eq_refl eq_refl) as (w' & E & _).
  rewrite E. reflexivity.
Defined.

Lemma chunking_is_irrelevant_witness :
  BankServer.handle_client Sample.cfg
    [BankServer.Data ("BC" ++ Py.str_nl ++ "B");
     BankServer.Data ("N" ++ Py.str_nl)]
    Sample.client (Sample.still_world, [])
  = BankServer.handle_client Sample.cfg
      [BankServer.Data "B"; BankServer.Data ("C" ++ Py.str_nl ++ "BN");
       BankServer.Data Py.str_nl]
      Sample.client (Sample.still_world, []).
Proof.
  apply (chunking_is_irrelevant Sample.cfg Sample.client
           ["BC" ++ Py.str_nl ++ "B"; "N" ++ Py.str_nl]
           ["B"; "C" ++ Py.str_nl ++ "BN"; Py.str_nl]
           [] (Sample.still_world, [])).
  - repeat constructor; discriminate.
  - repeat constructor; discriminate.
  - reflexivity.
Defined.

Lemma session_transcript_witness :
  exists s' evs responses,
    BankServer.handle_client Sample.cfg
      [BankServer.Data ("BC" ++ Py.str_nl ++ "  " ++ Py.str_nl ++ "B");
       BankServer.Data ("N" ++ Py.str_nl ++ "BA");
       BankServer.TimedOut;
       BankServer.Data ("BA" ++ Py.str_nl)]
      Sample.client (Sample.still_world, [])
    = (Ret tt, s')
    /\ events (fst s') = evs
    /\ sent evs = List.app responses ["ER Connection timed out" ++ Py.str_nl]
    /\ List.length responses = 2%nat.
Proof.
  destruct (session_transcript Sample.cfg Sample.client
              ["BC" ++ Py.str_nl ++ "  " ++ Py.str_nl ++ "B";
               "N" ++ Py.str_nl ++ "BA"]
              [BankServer.TimedOut; BankServer.Data ("BA" ++ Py.str_nl)]
              (Sample.still_world, []))
    as (s' & evs & responses & E & Ev & S & L & _).
  - repeat constructor; discriminate.
  - right. eexists _, _. split; reflexivity.
  - exists s', evs, responses. split; [exact E|]. split; [exact Ev|].
    split; [exact S | exact L].
Defined.
